(** * Smart-bracelet app: Bluetooth manager and health-data context

    A shallow embedding of

    - [src/services/bluetooth/manager.ts]  (the manager built on the Expo
      Bluetooth module), modules [DataView] and [Manager];
    - the second manager of the repository, built on react-native-ble-plx,
      where it differs from the first (module [BlePlx]);
    - [contexts/HealthDataContext.tsx], module [HealthContext];
    - the rest of the manager's interface and its callers, modules
      [ManagerApi] and [ContextFeed];
    - [services/bluetooth/permissions.ts] (class [BluetoothPermissions]),
      module [BluetoothPermissions], and the list of the device-selection
      modal, module [DeviceSelection];
    - [services/wifi/manager.ts], module [WiFi];
    - [services/api/client.ts] and [services/api/errors.ts], module [Api].

    Conventions.  A JavaScript number is a rational ([Q]): every number the
    Bluetooth code handles is an unsigned 8/16-bit or a signed 32-bit integer
    read from a buffer, such an integer divided by 10 or by 100, or one of the
    literals 0, 36.0, 37.5, 60, 90, 95, 100, 140; a signal strength is a
    finite number of dBm.  Counts, HTTP statuses and delays are integers.  A
    [Date] is its [valueOf], milliseconds as [Z].  An [await]ed platform call
    is a parameter of the operation telling how the call settles.  A callback
    registered on a manager is taken to return: emitting an event never
    throws. *)

From Stdlib Require Import ZArith QArith List String Bool Lia.
From Stdlib Require Import Strings.Byte.
From Stdlib Require Import Qminmax DecimalString.
Import ListNotations.
Local Open Scope Z_scope.

(* ------------------------------------------------------------------ *)
(** ** Completions: a JavaScript call returns or throws                *)
(* ------------------------------------------------------------------ *)

Inductive Error : Type :=
  | RangeError                    (* DataView access outside the buffer *)
  | JsError (message : string).   (* new Error(message), platform rejections *)

Inductive Completion (A : Type) : Type :=
  | Normal (a : A)
  | Thrown (e : Error).
Arguments Normal {A} a.
Arguments Thrown {A} e.

(* ------------------------------------------------------------------ *)
(** ** DataView over an ArrayBuffer                                    *)
(* ------------------------------------------------------------------ *)

Module DataView.

(** An ArrayBuffer is its sequence of bytes. *)
Definition ArrayBuffer := list byte.

Definition byte_val (b : byte) : Z := Z.of_N (Byte.to_N b).

(** [view.getUint8(i)]: RangeError outside the buffer. *)
Definition getUint8 (view : ArrayBuffer) (i : nat) : Completion Z :=
  match nth_error view i with
  | Some b => Normal (byte_val b)
  | None => Thrown RangeError
  end.

(** [view.getUint16(i, true)]: two bytes, least significant first. *)
Definition getUint16 (view : ArrayBuffer) (i : nat) : Completion Z :=
  match nth_error view i, nth_error view (i + 1) with
  | Some b0, Some b1 => Normal (Z.lor (byte_val b0) (Z.shiftl (byte_val b1) 8))
  | _, _ => Thrown RangeError
  end.

(** The unsigned 32-bit value of four bytes, least significant first. *)
Definition le32 (b0 b1 b2 b3 : byte) : Z :=
  Z.lor (Z.lor (byte_val b0) (Z.shiftl (byte_val b1) 8))
        (Z.lor (Z.shiftl (byte_val b2) 16) (Z.shiftl (byte_val b3) 24)).

(** Two's complement reading of an unsigned 32-bit value. *)
Definition toInt32 (u : Z) : Z :=
  if 2147483648 <=? u then u - 4294967296 else u.

(** [view.getInt32(i, true)]. *)
Definition getInt32 (view : ArrayBuffer) (i : nat) : Completion Z :=
  match nth_error view i, nth_error view (i + 1),
        nth_error view (i + 2), nth_error view (i + 3) with
  | Some b0, Some b1, Some b2, Some b3 => Normal (toInt32 (le32 b0 b1 b2 b3))
  | _, _, _, _ => Thrown RangeError
  end.

(** The byte holding [z mod 256]; used to write payloads down. *)
Definition byte_of_Z (z : Z) : byte :=
  match Byte.of_N (Z.to_N (z mod 256)) with
  | Some b => b
  | None => Byte.x00
  end.

(** An unsigned 16-bit value as the device sends it. *)
Definition uint16_le (v : Z) : ArrayBuffer :=
  [byte_of_Z v; byte_of_Z (Z.shiftr v 8)].

(** A signed 32-bit value as the device sends it. *)
Definition int32_le (v : Z) : ArrayBuffer :=
  [byte_of_Z v; byte_of_Z (Z.shiftr v 8);
   byte_of_Z (Z.shiftr v 16); byte_of_Z (Z.shiftr v 24)].

End DataView.

(* ------------------------------------------------------------------ *)
(** ** The parsers of the manager                                      *)
(* ------------------------------------------------------------------ *)

Module Parsers.
Import DataView.

Definition bindC {A B} (c : Completion A) (k : A -> Completion B) : Completion B :=
  match c with
  | Normal a => k a
  | Thrown e => Thrown e
  end.

(** [parseHeartRate]: bit 0 of the flag byte selects a 16-bit value. *)
Definition parseHeartRate (data : ArrayBuffer) : Completion Q :=
  bindC (getUint8 data 0) (fun flags =>
  let is16Bit := negb (Z.land flags 1 =? 0) in
  if is16Bit
  then bindC (getUint16 data 1) (fun v => Normal (inject_Z v))
  else bindC (getUint8 data 1) (fun v => Normal (inject_Z v))).

Record BloodPressure : Type := mkBloodPressure {
  systolic : Q;
  diastolic : Q
}.

(** [parseBloodPressure]: flag byte, then two 16-bit values in tenths of mmHg. *)
Definition parseBloodPressure (data : ArrayBuffer) : Completion BloodPressure :=
  bindC (getUint8 data 0) (fun _flags =>
  bindC (getUint16 data 1) (fun s =>
  bindC (getUint16 data 3) (fun d =>
  Normal (mkBloodPressure (inject_Z s / 10)%Q (inject_Z d / 10)%Q)))).

(** [parseTemperature]: a signed 32-bit value in hundredths of a degree. *)
Definition parseTemperature (data : ArrayBuffer) : Completion Q :=
  bindC (getInt32 data 0) (fun raw => Normal (inject_Z raw / 100)%Q).

Definition parseOxygenSaturation (data : ArrayBuffer) : Completion Q :=
  bindC (getUint8 data 0) (fun v => Normal (inject_Z v)).

Definition parseBatteryLevel (data : ArrayBuffer) : Completion Q :=
  bindC (getUint8 data 0) (fun v => Normal (inject_Z v)).

End Parsers.

(* ------------------------------------------------------------------ *)
(** ** Methods of a stateful object: state, exceptions, try/catch      *)
(* ------------------------------------------------------------------ *)

Module Js.

(** A method body over an object of type [S]: it returns or throws, and
    either way leaves a state behind. *)
Definition Js (S A : Type) : Type := S -> Completion A * S.

Definition ret {S A} (a : A) : Js S A := fun m => (Normal a, m).
Definition bind {S A B} (c : Js S A) (k : A -> Js S B) : Js S B :=
  fun m => match c m with
           | (Normal a, m') => k a m'
           | (Thrown e, m') => (Thrown e, m')
           end.
Definition throw {S A} (e : Error) : Js S A := fun m => (Thrown e, m).

(** [try { body } catch (e) { handler e }]: the state changes made before
    the throw stay. *)
Definition try_catch {S A} (body : Js S A) (handler : Error -> Js S A) : Js S A :=
  fun m => match body m with
           | (Normal a, m') => (Normal a, m')
           | (Thrown e, m') => handler e m'
           end.

Definition get {S} : Js S S := fun m => (Normal m, m).
Definition modify {S} (f : S -> S) : Js S unit := fun m => (Normal tt, f m).

(** How an awaited platform call settles: [None] when it resolves,
    [Some e] when it rejects (or throws). *)
Definition settle {S} (settles : option Error) : Js S unit :=
  match settles with
  | None => ret tt
  | Some e => throw e
  end.

Definition settle_value {S A} (settles : Completion A) : Js S A :=
  match settles with
  | Normal a => ret a
  | Thrown e => throw e
  end.

(** The state a method leaves, and whether it threw. *)
Definition exec {S A} (c : Js S A) (m : S) : S := snd (c m).
Definition throws {S A} (c : Js S A) (m : S) : bool :=
  match fst (c m) with
  | Normal _ => false
  | Thrown _ => true
  end.

Declare Scope js_scope.
Delimit Scope js_scope with js.
Notation "x <- c ;; k" := (bind c (fun x => k))
  (at level 61, c at next level, right associativity) : js_scope.
Notation "c ;; k" := (bind c (fun _ => k))
  (at level 61, right associativity) : js_scope.

End Js.

(* ------------------------------------------------------------------ *)
(** ** The Bluetooth manager ([BluetoothManager], Expo module)         *)
(* ------------------------------------------------------------------ *)

Module Manager.
Import DataView Parsers.

Inductive ConnectionState : Type :=
  | disconnected | scanning | connecting | connected | disconnecting | error.

Definition ConnectionState_eqb (a b : ConnectionState) : bool :=
  match a, b with
  | disconnected, disconnected | scanning, scanning | connecting, connecting
  | connected, connected | disconnecting, disconnecting | error, error => true
  | _, _ => false
  end.

Record BluetoothCharacteristic : Type := mkCharacteristic {
  char_uuid : string;
  prop_read : bool;
  prop_write : bool;
  prop_notify : bool;
  prop_indicate : bool;
  char_value : option ArrayBuffer
}.

Record BluetoothService : Type := mkService {
  svc_uuid : string;
  isPrimary : bool;
  svc_characteristics : list BluetoothCharacteristic
}.

Record ConnectedDevice : Type := mkConnectedDevice {
  id : string;
  name : string;
  dev_connected : bool;
  services : list BluetoothService;
  characteristics : list BluetoothCharacteristic;
  lastSeen : Z
}.

Record HealthDataPacket : Type := mkPacket {
  heartRate : Q;
  bloodPressureSystolic : Q;
  bloodPressureDiastolic : Q;
  temperature : Q;
  oxygenLevel : Q;
  batteryLevel : Q;
  timestamp : Z;
  deviceId : string
}.

(** [Partial<HealthDataPacket>], restricted to the keys the handler sets. *)
Record PartialPacket : Type := mkPartial {
  p_heartRate : option Q;
  p_bloodPressureSystolic : option Q;
  p_bloodPressureDiastolic : option Q;
  p_temperature : option Q;
  p_oxygenLevel : option Q;
  p_batteryLevel : option Q
}.

Definition emptyPartial : PartialPacket :=
  mkPartial None None None None None None.

Definition CHARACTERISTIC_UUIDS_HEART_RATE_MEASUREMENT : string :=
  "00002a37-0000-1000-8000-00805f9b34fb".
Definition CHARACTERISTIC_UUIDS_BLOOD_PRESSURE_MEASUREMENT : string :=
  "00002a35-0000-1000-8000-00805f9b34fb".
Definition CHARACTERISTIC_UUIDS_TEMPERATURE_MEASUREMENT : string :=
  "00002a1c-0000-1000-8000-00805f9b34fb".
Definition CHARACTERISTIC_UUIDS_OXYGEN_SATURATION : string :=
  "00002a5e-0000-1000-8000-00805f9b34fb".
Definition CHARACTERISTIC_UUIDS_BATTERY_LEVEL : string :=
  "00002a19-0000-1000-8000-00805f9b34fb".

(** One call of [emit]: the event name with its argument. *)
Inductive Event : Type :=
  | onDeviceConnected (device : ConnectedDevice)
  | onDeviceDisconnected (deviceId : string)
  | onHealthDataReceived (data : HealthDataPacket)
  | onConnectionStateChanged (state : ConnectionState)
  | onError (e : Error).

(** A pending [setTimeout] with its delay in milliseconds. *)
Inductive Timer : Type :=
  | ScanTimeout (ms : Z)        (* () => this.stopScanning() *)
  | ReconnectTimer (ms : Z).    (* () => this.attemptReconnect() *)

(** A call into the platform ([ExpoBluetooth], [PermissionsAndroid]). *)
Inductive PlatformCall : Type :=
  | PermissionsCheck
  | PermissionsRequest
  | StartScanningAsync
  | AddDeviceDiscoveredListener
  | SubscriptionRemove
  | StopScanningAsync
  | ConnectToDeviceAsync (deviceId : string)
  | DiscoverAllServicesAndCharacteristicsAsync (deviceId : string)
  | StartNotificationsAsync (deviceId : string)
  | AddCharacteristicValueChangedListener
  | DisconnectFromDeviceAsync (deviceId : string).

(** The fields of the singleton; then what it does to the outside: the
    calls of [emit] in order (the callbacks of the [events] table belong to
    the subscribers), the console, the pending timers, the platform calls in
    order, and the number of characteristic-value listeners it has handed
    to the platform. *)
Record Manager : Type := mkManager {
  connectionState : ConnectionState;
  connectedDevice : option ConnectedDevice;
  scanSubscription : bool;
  isScanning : bool;
  reconnectAttempts : Z;
  reconnectTimeout : option Timer;
  valueListeners : nat;
  timers : list Timer;
  calls : list PlatformCall;
  bus : list Event;
  console : list string
}.

Definition maxReconnectAttempts : Z := 3.

Definition initial : Manager :=
  mkManager disconnected None false false 0 None 0 [] [] [] [].

Import Js.
Local Open Scope js_scope.

Definition M (A : Type) : Type := Js Manager A.

Definition set_connectionState (v : ConnectionState) (m : Manager) : Manager :=
  mkManager v (connectedDevice m) (scanSubscription m) (isScanning m)
    (reconnectAttempts m) (reconnectTimeout m) (valueListeners m) (timers m)
    (calls m) (bus m) (console m).
Definition set_connectedDevice (v : option ConnectedDevice) (m : Manager) : Manager :=
  mkManager (connectionState m) v (scanSubscription m) (isScanning m)
    (reconnectAttempts m) (reconnectTimeout m) (valueListeners m) (timers m)
    (calls m) (bus m) (console m).
Definition set_scanSubscription (v : bool) (m : Manager) : Manager :=
  mkManager (connectionState m) (connectedDevice m) v (isScanning m)
    (reconnectAttempts m) (reconnectTimeout m) (valueListeners m) (timers m)
    (calls m) (bus m) (console m).
Definition set_isScanning (v : bool) (m : Manager) : Manager :=
  mkManager (connectionState m) (connectedDevice m) (scanSubscription m) v
    (reconnectAttempts m) (reconnectTimeout m) (valueListeners m) (timers m)
    (calls m) (bus m) (console m).
Definition set_reconnectAttempts (v : Z) (m : Manager) : Manager :=
  mkManager (connectionState m) (connectedDevice m) (scanSubscription m)
    (isScanning m) v (reconnectTimeout m) (valueListeners m) (timers m)
    (calls m) (bus m) (console m).
Definition set_reconnectTimeout (v : option Timer) (m : Manager) : Manager :=
  mkManager (connectionState m) (connectedDevice m) (scanSubscription m)
    (isScanning m) (reconnectAttempts m) v (valueListeners m) (timers m)
    (calls m) (bus m) (console m).
Definition set_valueListeners (v : nat) (m : Manager) : Manager :=
  mkManager (connectionState m) (connectedDevice m) (scanSubscription m)
    (isScanning m) (reconnectAttempts m) (reconnectTimeout m) v (timers m)
    (calls m) (bus m) (console m).
Definition set_timers (v : list Timer) (m : Manager) : Manager :=
  mkManager (connectionState m) (connectedDevice m) (scanSubscription m)
    (isScanning m) (reconnectAttempts m) (reconnectTimeout m)
    (valueListeners m) v (calls m) (bus m) (console m).
Definition set_calls (v : list PlatformCall) (m : Manager) : Manager :=
  mkManager (connectionState m) (connectedDevice m) (scanSubscription m)
    (isScanning m) (reconnectAttempts m) (reconnectTimeout m)
    (valueListeners m) (timers m) v (bus m) (console m).
Definition set_bus (v : list Event) (m : Manager) : Manager :=
  mkManager (connectionState m) (connectedDevice m) (scanSubscription m)
    (isScanning m) (reconnectAttempts m) (reconnectTimeout m)
    (valueListeners m) (timers m) (calls m) v (console m).
Definition set_console (v : list string) (m : Manager) : Manager :=
  mkManager (connectionState m) (connectedDevice m) (scanSubscription m)
    (isScanning m) (reconnectAttempts m) (reconnectTimeout m)
    (valueListeners m) (timers m) (calls m) (bus m) v.

(** [emit(event, ...args)]. *)
Definition emit (ev : Event) : M unit :=
  modify (fun m => set_bus (bus m ++ [ev]) m).

(** [console.log] and [console.error]: the message without its arguments. *)
Definition console_log (msg : string) : M unit :=
  modify (fun m => set_console (console m ++ [msg]) m).

(** [setTimeout(callback, ms)]. *)
Definition setTimeout (t : Timer) : M unit :=
  modify (fun m => set_timers (timers m ++ [t]) m).

(** A platform call: it is made, then settles as the platform decides. *)
Definition platform (call : PlatformCall) (settles : option Error) : M unit :=
  modify (fun m => set_calls (calls m ++ [call]) m) ;;
  settle settles.

Definition platform_value {A} (call : PlatformCall) (settles : Completion A) : M A :=
  modify (fun m => set_calls (calls m ++ [call]) m) ;;
  settle_value settles.

Definition setConnectionState (state : ConnectionState) : M unit :=
  m <- get ;;
  if negb (ConnectionState_eqb (connectionState m) state)
  then modify (set_connectionState state) ;;
       emit (onConnectionStateChanged state)
  else ret tt.

(** What [setConnectionState(st')] emits when the state is [st]. *)
Definition changeEvents (st st' : ConnectionState) : list Event :=
  if ConnectionState_eqb st st' then [] else [onConnectionStateChanged st'].

(** *** What the platform answers *)

Record PlatformCharacteristic : Type := mkPlatformCharacteristic {
  pc_uuid : string;
  isReadable : bool;
  isWritable : bool;
  isNotifiable : bool;
  isIndicatable : bool;
  pc_value : option ArrayBuffer
}.

Record PlatformService : Type := mkPlatformService {
  ps_uuid : string;
  ps_isPrimary : bool;
  ps_characteristics : list PlatformCharacteristic
}.

(** The value of [discoverAllServicesAndCharacteristicsAsync]. *)
Record Discovered : Type := mkDiscovered {
  d_services : list PlatformService;
  d_characteristics : list PlatformCharacteristic
}.

(** The permission calls and the start of the scan, for [startScanning]. *)
Record ScanEnv : Type := mkScanEnv {
  android : bool;                        (* Platform.OS === 'android' *)
  permissionCheck : Completion bool;     (* every permission already granted? *)
  permissionRequest : Completion bool;   (* every permission granted on request? *)
  startScanningAsync : option Error      (* does the call itself throw? *)
}.

(** [scanSubscription.remove()] and [stopScanningAsync()], for [stopScanning]. *)
Record StopEnv : Type := mkStopEnv {
  subscriptionRemove : option Error;
  stopScanningAsync : option Error
}.

(** The three platform calls of [connectToDevice]. *)
Record ConnectEnv : Type := mkConnectEnv {
  connectToDeviceAsync : option Error;
  discoverAllServicesAndCharacteristicsAsync : Completion Discovered;
  startNotificationsAsync : option Error
}.

(** The argument of the characteristic-value listener. *)
Record Characteristic : Type := mkNotification {
  uuid : string;
  value : option ArrayBuffer    (* [None]: null or undefined *)
}.

(** *** Permissions *)

Definition checkPermissions (env : ScanEnv) : M bool :=
  try_catch
    (if android env
     then platform_value PermissionsCheck (permissionCheck env)
     else ret true)
    (fun _ => console_log "Error checking Bluetooth permissions:" ;; ret false).

Definition requestPermissions (env : ScanEnv) : M bool :=
  try_catch
    (if android env
     then platform_value PermissionsRequest (permissionRequest env)
     else ret true)
    (fun e => console_log "Error requesting Bluetooth permissions:" ;;
              emit (onError e) ;;
              ret false).

(** *** Scanning *)

Definition startScanning (timeout : Z) (env : ScanEnv) : M unit :=
  try_catch
    (m <- get ;;
     if isScanning m
     then console_log "Bluetooth scanning already in progress"
     else
       hasPermissions <- checkPermissions env ;;
       (if negb hasPermissions
        then granted <- requestPermissions env ;;
             if negb granted
             then throw (JsError "Bluetooth permissions not granted")
             else ret tt
        else ret tt) ;;
       setConnectionState scanning ;;
       modify (set_isScanning true) ;;
       platform StartScanningAsync (startScanningAsync env) ;;
       modify (set_scanSubscription true) ;;
       setTimeout (ScanTimeout timeout) ;;
       platform AddDeviceDiscoveredListener None)
    (fun e => console_log "Error starting Bluetooth scan:" ;;
              setConnectionState error ;;
              emit (onError e) ;;
              throw e).

Definition stopScanning (env : StopEnv) : M unit :=
  try_catch
    (m <- get ;;
     (if scanSubscription m
      then platform SubscriptionRemove (subscriptionRemove env) ;;
           modify (set_scanSubscription false)
      else ret tt) ;;
     platform StopScanningAsync (stopScanningAsync env) ;;
     modify (set_isScanning false) ;;
     m <- get ;;
     match connectionState m with
     | scanning => setConnectionState disconnected
     | _ => ret tt
     end)
    (fun e => console_log "Error stopping Bluetooth scan:" ;;
              emit (onError e)).

(** *** Connecting *)

Definition convertCharacteristic (c : PlatformCharacteristic) : BluetoothCharacteristic :=
  mkCharacteristic (pc_uuid c) (isReadable c) (isWritable c) (isNotifiable c)
    (isIndicatable c) (pc_value c).

Definition convertService (s : PlatformService) : BluetoothService :=
  mkService (ps_uuid s) (ps_isPrimary s)
    (map convertCharacteristic (ps_characteristics s)).

Definition setupHealthDataNotifications (deviceId : string) (settles : option Error)
  : M unit :=
  try_catch
    (platform (StartNotificationsAsync deviceId) settles ;;
     platform AddCharacteristicValueChangedListener None ;;
     modify (fun m => set_valueListeners (S (valueListeners m)) m))
    (fun e => console_log "Error setting up health data notifications:" ;;
              emit (onError e)).

Definition connectToDevice (deviceId : string) (now : Z) (env : ConnectEnv)
  : M ConnectedDevice :=
  try_catch
    (setConnectionState connecting ;;
     platform (ConnectToDeviceAsync deviceId) (connectToDeviceAsync env) ;;
     found <- platform_value (DiscoverAllServicesAndCharacteristicsAsync deviceId)
                (discoverAllServicesAndCharacteristicsAsync env) ;;
     let device :=
       mkConnectedDevice deviceId "Health Monitor" true
         (map convertService (d_services found))
         (map convertCharacteristic (d_characteristics found))
         now in
     modify (set_connectedDevice (Some device)) ;;
     setConnectionState connected ;;
     modify (set_reconnectAttempts 0) ;;
     setupHealthDataNotifications deviceId (startNotificationsAsync env) ;;
     emit (onDeviceConnected device) ;;
     ret device)
    (fun e => console_log "Error connecting to Bluetooth device:" ;;
              setConnectionState error ;;
              emit (onError e) ;;
              throw e).

(** [this.connectedDevice?.id || ''] *)
Definition connectedDeviceId (m : Manager) : string :=
  match connectedDevice m with
  | Some d => id d
  | None => ""
  end.

Definition disconnectFromDevice (settles : option Error) : M unit :=
  try_catch
    (m <- get ;;
     match connectedDevice m with
     | None => ret tt
     | Some device =>
         setConnectionState disconnecting ;;
         platform (DisconnectFromDeviceAsync (id device)) settles ;;
         modify (set_connectedDevice None) ;;
         setConnectionState disconnected ;;
         m <- get ;;
         emit (onDeviceDisconnected (connectedDeviceId m))
     end)
    (fun e => console_log "Error disconnecting from Bluetooth device:" ;;
              setConnectionState error ;;
              emit (onError e) ;;
              throw e).

(** *** Characteristic values *)

(** [x || 0] on a key of the partial packet. *)
Definition orZero (x : option Q) : Q :=
  match x with
  | Some v => v
  | None => 0%Q
  end.

Definition isSome {A} (x : option A) : bool :=
  match x with Some _ => true | None => false end.

(** [Object.keys(healthData).length] *)
Definition keys (h : PartialPacket) : nat :=
  List.length (filter (fun b : bool => b)
    [isSome (p_heartRate h); isSome (p_bloodPressureSystolic h);
     isSome (p_bloodPressureDiastolic h); isSome (p_temperature h);
     isSome (p_oxygenLevel h); isSome (p_batteryLevel h)]).

(** The [switch] over the characteristic identifier. *)
Definition parseCharacteristic (uuid : string) (value : ArrayBuffer)
  : Completion PartialPacket :=
  if String.eqb uuid CHARACTERISTIC_UUIDS_HEART_RATE_MEASUREMENT then
    bindC (parseHeartRate value) (fun v =>
      Normal (mkPartial (Some v) None None None None None))
  else if String.eqb uuid CHARACTERISTIC_UUIDS_BLOOD_PRESSURE_MEASUREMENT then
    bindC (parseBloodPressure value) (fun bp =>
      Normal (mkPartial None (Some (systolic bp)) (Some (diastolic bp)) None None None))
  else if String.eqb uuid CHARACTERISTIC_UUIDS_TEMPERATURE_MEASUREMENT then
    bindC (parseTemperature value) (fun v =>
      Normal (mkPartial None None None (Some v) None None))
  else if String.eqb uuid CHARACTERISTIC_UUIDS_OXYGEN_SATURATION then
    bindC (parseOxygenSaturation value) (fun v =>
      Normal (mkPartial None None None None (Some v) None))
  else if String.eqb uuid CHARACTERISTIC_UUIDS_BATTERY_LEVEL then
    bindC (parseBatteryLevel value) (fun v =>
      Normal (mkPartial None None None None None (Some v)))
  else Normal emptyPartial.

Definition makePacket (h : PartialPacket) (now : Z) (m : Manager) : HealthDataPacket :=
  mkPacket (orZero (p_heartRate h))
    (orZero (p_bloodPressureSystolic h))
    (orZero (p_bloodPressureDiastolic h))
    (orZero (p_temperature h))
    (orZero (p_oxygenLevel h))
    (orZero (p_batteryLevel h))
    now
    (connectedDeviceId m).

Definition handleCharacteristicValue (now : Z) (characteristic : Characteristic)
  : M unit :=
  try_catch
    (match value characteristic with
     | None => ret tt
     | Some value =>
         healthData <- settle_value (parseCharacteristic (uuid characteristic) value) ;;
         if (0 <? keys healthData)%nat
         then m <- get ;;
              emit (onHealthDataReceived (makePacket healthData now m))
         else ret tt
     end)
    (fun e => console_log "Error handling characteristic value:" ;;
              emit (onError e)).

(** *** Reconnection *)

Definition attemptReconnect (now : Z) (env : ConnectEnv) : M unit :=
  m <- get ;;
  if maxReconnectAttempts <=? reconnectAttempts m
  then console_log "Max reconnection attempts reached" ;;
       setConnectionState disconnected
  else
    modify (set_reconnectAttempts (reconnectAttempts m + 1)) ;;
    console_log "Reconnection attempt" ;;
    try_catch
      (m <- get ;;
       match connectedDevice m with
       | Some device => _ <- connectToDevice (id device) now env ;; ret tt
       | None => ret tt
       end)
      (fun _ => console_log "Reconnection failed:" ;;
                m <- get ;;
                let delay := 2 ^ reconnectAttempts m * 1000 in
                modify (set_reconnectTimeout (Some (ReconnectTimer delay))) ;;
                setTimeout (ReconnectTimer delay)).

(** The timers the loop leaves pending once its first reconnect timer is
    taken out, with that timer's delay. *)
Fixpoint takeReconnectTimer (ts : list Timer) : option (Z * list Timer) :=
  match ts with
  | [] => None
  | ReconnectTimer ms :: rest => Some (ms, rest)
  | t :: rest =>
      match takeReconnectTimer rest with
      | Some (ms, rest') => Some (ms, t :: rest')
      | None => None
      end
  end.

(** What a run of the reconnection loop did. *)
Record ReconnectRun : Type := mkReconnectRun {
  delays : list Z;       (* the delay of each timer the loop waited for *)
  threw : bool;          (* did a call of [attemptReconnect] throw? *)
  settled : bool;        (* no reconnect timer is left pending *)
  final : Manager
}.

(** [attemptReconnect] called at [now], then again each time the timer it
    scheduled fires.  [env n] tells how the platform answers the connect
    made when [reconnectAttempts] is [n]. *)
Fixpoint reconnectLoop (fuel : nat) (env : Z -> ConnectEnv) (now : Z) (m : Manager)
  : ReconnectRun :=
  match fuel with
  | O => mkReconnectRun [] false false m
  | S fuel' =>
      let '(outcome, m1) := attemptReconnect now (env (reconnectAttempts m + 1)) m in
      let t := match outcome with Normal _ => false | Thrown _ => true end in
      match takeReconnectTimer (timers m1) with
      | None => mkReconnectRun [] t true m1
      | Some (ms, rest) =>
          let r := reconnectLoop fuel' env (now + ms) (set_timers rest m1) in
          mkReconnectRun (ms :: delays r) (t || threw r) (settled r) (final r)
      end
  end.

(** The connect attempts among the platform calls made so far. *)
Definition isConnectAttempt (call : PlatformCall) : bool :=
  match call with
  | ConnectToDeviceAsync _ => true
  | _ => false
  end.

Definition connectAttempts (m : Manager) : nat :=
  List.length (filter isConnectAttempt (calls m)).

(** The platform answers that make [connectToDevice] throw: the transport
    refuses the connection, or the discovery of the services fails. *)
Definition connectFails (env : ConnectEnv) : bool :=
  match connectToDeviceAsync env, discoverAllServicesAndCharacteristicsAsync env with
  | None, Normal _ => false
  | _, _ => true
  end.

(** The delays [2^i * 1000] for the [n] attempt numbers after [k]. *)
Definition backoff (k n : nat) : list Z :=
  map (fun i => 2 ^ Z.of_nat i * 1000) (seq (S k) n).

(** *** The manager as a transition system *)

(** What can happen to the manager: a call of one of its methods (by the
    application, or by a timer for [stopScanning] and [attemptReconnect]),
    or a characteristic value delivered by the platform to the listeners
    installed so far.  [cleanup] is [stopScanning] followed by
    [disconnectFromDevice]. *)
Inductive Op : Type :=
  | CallStartScanning (timeout : Z) (env : ScanEnv)
  | CallStopScanning (env : StopEnv)
  | CallConnectToDevice (deviceId : string) (now : Z) (env : ConnectEnv)
  | CallDisconnectFromDevice (settles : option Error)
  | CallAttemptReconnect (now : Z) (env : ConnectEnv)
  | CharacteristicValueChanged (now : Z) (characteristic : Characteristic).

(** The listener once per installed copy. *)
Fixpoint deliver (listeners : nat) (handler : M unit) : M unit :=
  match listeners with
  | O => ret tt
  | S n => handler ;; deliver n handler
  end.

Definition step (op : Op) (m : Manager) : Manager :=
  match op with
  | CallStartScanning timeout env => exec (startScanning timeout env) m
  | CallStopScanning env => exec (stopScanning env) m
  | CallConnectToDevice deviceId now env => exec (connectToDevice deviceId now env) m
  | CallDisconnectFromDevice settles => exec (disconnectFromDevice settles) m
  | CallAttemptReconnect now env => exec (attemptReconnect now env) m
  | CharacteristicValueChanged now c =>
      exec (deliver (valueListeners m) (handleCharacteristicValue now c)) m
  end.

Definition run (ops : list Op) (m : Manager) : Manager :=
  fold_left (fun m op => step op m) ops m.

Definition isHealthData (ev : Event) : bool :=
  match ev with
  | onHealthDataReceived _ => true
  | _ => false
  end.

(** The packets among the events emitted by a step from [m]. *)
Definition packetsEmitted (op : Op) (m : Manager) : list Event :=
  filter isHealthData (skipn (List.length (bus m)) (bus (step op m))).

(** A method that emits no reading: it appends events to the bus, none of
    them a reading, and installs a listener only if 'connected' is among
    them. *)
Definition quiet (m m' : Manager) : Prop :=
  exists new,
    bus m' = bus m ++ new
    /\ filter isHealthData new = []
    /\ (valueListeners m' = valueListeners m
        \/ In (onConnectionStateChanged connected) new).

(** A characteristic value handed to the listeners installed: events are
    appended to the bus, the listeners stay. *)
Definition delivered (m m' : Manager) : Prop :=
  exists new,
    bus m' = bus m ++ new
    /\ (0 < valueListeners m)%nat
    /\ valueListeners m' = valueListeners m.

(** Every reading among the events comes after a change of the
    Connection State to 'connected'. *)
Definition readingsFollowConnected (evs : list Event) : Prop :=
  forall pre data post,
    evs = pre ++ onHealthDataReceived data :: post ->
    In (onConnectionStateChanged connected) pre.

End Manager.

(* ------------------------------------------------------------------ *)
(** ** The manager built on react-native-ble-plx: disconnecting        *)
(* ------------------------------------------------------------------ *)

Module BlePlx.
Import Js.
Local Open Scope js_scope.

Definition ConnectionState := Manager.ConnectionState.
Definition ConnectedDevice := Manager.ConnectedDevice.
Definition Event := Manager.Event.

Inductive PlatformCall : Type :=
  | MonitorCharacteristicForService (service characteristic : string)
  | SubscriptionRemove (key : string)
  | CancelDeviceConnection (deviceId : string).

(** The fields [disconnectFromDevice] and [setupHealthDataNotifications]
    touch; [notificationSubscriptions] is the Map, as its keys in insertion
    order. *)
Record Manager : Type := mkManager {
  connectionState : ConnectionState;
  connectedDevice : option ConnectedDevice;
  notificationSubscriptions : list string;
  calls : list PlatformCall;
  bus : list Event;
  console : list string
}.

Definition M (A : Type) : Type := Js Manager A.

Definition set_connectionState (v : ConnectionState) (m : Manager) : Manager :=
  mkManager v (connectedDevice m) (notificationSubscriptions m) (calls m)
    (bus m) (console m).
Definition set_connectedDevice (v : option ConnectedDevice) (m : Manager) : Manager :=
  mkManager (connectionState m) v (notificationSubscriptions m) (calls m)
    (bus m) (console m).
Definition set_notificationSubscriptions (v : list string) (m : Manager) : Manager :=
  mkManager (connectionState m) (connectedDevice m) v (calls m) (bus m) (console m).
Definition set_calls (v : list PlatformCall) (m : Manager) : Manager :=
  mkManager (connectionState m) (connectedDevice m) (notificationSubscriptions m) v
    (bus m) (console m).
Definition set_bus (v : list Event) (m : Manager) : Manager :=
  mkManager (connectionState m) (connectedDevice m) (notificationSubscriptions m)
    (calls m) v (console m).
Definition set_console (v : list string) (m : Manager) : Manager :=
  mkManager (connectionState m) (connectedDevice m) (notificationSubscriptions m)
    (calls m) (bus m) v.

Definition emit (ev : Event) : M unit :=
  modify (fun m => set_bus (bus m ++ [ev]) m).
Definition console_log (msg : string) : M unit :=
  modify (fun m => set_console (console m ++ [msg]) m).
Definition platform (call : PlatformCall) (settles : option Error) : M unit :=
  modify (fun m => set_calls (calls m ++ [call]) m) ;;
  settle settles.

Definition setConnectionState (state : ConnectionState) : M unit :=
  m <- get ;;
  if negb (Manager.ConnectionState_eqb (connectionState m) state)
  then modify (set_connectionState state) ;;
       emit (Manager.onConnectionStateChanged state)
  else ret tt.

(** [Map.prototype.set] on the keys. *)
Definition mapSet (key : string) (keys : list string) : list string :=
  if existsb (String.eqb key) keys then keys else keys ++ [key].

Definition HEALTH_SERVICE_UUIDS_HEART_RATE : string :=
  "0000180d-0000-1000-8000-00805f9b34fb".

Definition setupHealthDataNotifications (settles : option Error) : M unit :=
  try_catch
    (platform (MonitorCharacteristicForService HEALTH_SERVICE_UUIDS_HEART_RATE
                 Manager.CHARACTERISTIC_UUIDS_HEART_RATE_MEASUREMENT) settles ;;
     modify (fun m =>
       set_notificationSubscriptions (mapSet "heart_rate" (notificationSubscriptions m)) m))
    (fun e => console_log "Error setting up health data notifications:" ;;
              emit (Manager.onError e)).

(** [notificationSubscriptions.forEach(subscription => subscription.remove())];
    [removes key] tells how the call on that subscription settles. *)
Fixpoint removeAll (removes : string -> option Error) (keys : list string) : M unit :=
  match keys with
  | [] => ret tt
  | key :: rest => platform (SubscriptionRemove key) (removes key) ;;
                   removeAll removes rest
  end.

Definition disconnectFromDevice (removes : string -> option Error)
    (settles : option Error) : M unit :=
  try_catch
    (m <- get ;;
     match connectedDevice m with
     | None => ret tt
     | Some device =>
         setConnectionState Manager.disconnecting ;;
         m <- get ;;
         removeAll removes (notificationSubscriptions m) ;;
         modify (set_notificationSubscriptions []) ;;
         let deviceId := Manager.id device in
         platform (CancelDeviceConnection deviceId) settles ;;
         modify (set_connectedDevice None) ;;
         setConnectionState Manager.disconnected ;;
         emit (Manager.onDeviceDisconnected deviceId)
     end)
    (fun e => console_log "Error disconnecting from Bluetooth device:" ;;
              setConnectionState Manager.error ;;
              emit (Manager.onError e) ;;
              throw e).

End BlePlx.

(* ------------------------------------------------------------------ *)
(** ** The health-data context                                         *)
(* ------------------------------------------------------------------ *)

Module HealthContext.

Definition HealthDataPacket := Manager.HealthDataPacket.

Record HealthData : Type := mkHealthData {
  heartRate : Q;
  bloodPressureSystolic : Q;
  bloodPressureDiastolic : Q;
  temperature : Q;
  oxygenLevel : Q;
  lastUpdated : Z
}.

Record HistoricalData : Type := mkHistoricalData {
  timestamp : Z;
  h_heartRate : Q;
  h_oxygenLevel : Q;
  h_temperature : Q
}.

(** The state of the hook that the handlers touch, and the due times of
    the pending [setTimeout(() => setHasAlerts(false), 10000)]. *)
Record Context : Type := mkContext {
  isConnected : bool;
  hasAlerts : bool;
  currentData : HealthData;
  historicalData : list HistoricalData;
  connectedDevice : option string;
  alertTimers : list Z
}.

Definition initial (now : Z) : Context :=
  mkContext false false (mkHealthData 0 0 0 0 0 now) [] None [].

(** [x < y] on numbers. *)
Definition Qlt_bool (x y : Q) : bool := negb (Qle_bool y x).

(** The [alerts] array [checkForAlerts] builds. *)
Definition alerts (data : HealthDataPacket) : list string :=
  (if Qlt_bool (Manager.heartRate data) 60 || Qlt_bool 100 (Manager.heartRate data)
   then ["Abnormal heart rate detected"%string] else []) ++
  (if Qlt_bool 140 (Manager.bloodPressureSystolic data)
      || Qlt_bool 90 (Manager.bloodPressureDiastolic data)
   then ["High blood pressure detected"%string] else []) ++
  (if Qlt_bool (Manager.temperature data) 36 || Qlt_bool (75 # 2) (Manager.temperature data)
   then ["Abnormal body temperature"%string] else []) ++
  (if Qlt_bool (Manager.oxygenLevel data) 95
   then ["Low oxygen saturation"%string] else []).

(** The clinical bounds as the specification words them: heart rate
    outside [60,100], systolic above 140 or diastolic above 90, temperature
    outside [36.0,37.5], oxygen saturation below 95. *)
Definition boundViolated (data : HealthDataPacket) : Prop :=
  (Manager.heartRate data < 60 \/ 100 < Manager.heartRate data
   \/ 140 < Manager.bloodPressureSystolic data
   \/ 90 < Manager.bloodPressureDiastolic data
   \/ Manager.temperature data < 36 \/ 75 # 2 < Manager.temperature data
   \/ Manager.oxygenLevel data < 95)%Q.

(** [checkForAlerts(data)], called at time [now]. *)
Definition checkForAlerts (now : Z) (data : HealthDataPacket) (c : Context) : Context :=
  if (0 <? List.length (alerts data))%nat
  then mkContext (isConnected c) true (currentData c) (historicalData c)
         (connectedDevice c) (alertTimers c ++ [now + 10000])
  else c.

Definition DAY : Z := 24 * 60 * 60 * 1000.

(** The object pushed on the history for a reading. *)
Definition entryOf (data : HealthDataPacket) : HistoricalData :=
  mkHistoricalData (Manager.timestamp data) (Manager.heartRate data)
    (Manager.oxygenLevel data) (Manager.temperature data).

(** The updater handed to [setHistoricalData], run at time [now]. *)
Definition appendHistory (now : Z) (data : HealthDataPacket)
    (prev : list HistoricalData) : list HistoricalData :=
  let newData := prev ++ [entryOf data] in
  let twentyFourHoursAgo := now - DAY in
  filter (fun item => twentyFourHoursAgo <? timestamp item) newData.

(** The [onHealthDataReceived] callback, run at time [now]. *)
Definition onHealthDataReceived (now : Z) (data : HealthDataPacket) (c : Context)
  : Context :=
  let c1 :=
    mkContext (isConnected c) (hasAlerts c)
      (mkHealthData (Manager.heartRate data) (Manager.bloodPressureSystolic data)
         (Manager.bloodPressureDiastolic data) (Manager.temperature data)
         (Manager.oxygenLevel data) (Manager.timestamp data))
      (appendHistory now data (historicalData c))
      (connectedDevice c) (alertTimers c) in
  checkForAlerts now data c1.

Definition onConnectionStateChanged (state : Manager.ConnectionState) (c : Context)
  : Context :=
  mkContext (Manager.ConnectionState_eqb state Manager.connected) (hasAlerts c)
    (currentData c) (historicalData c) (connectedDevice c) (alertTimers c).

Definition onDeviceConnected (device : Manager.ConnectedDevice) (c : Context) : Context :=
  mkContext true (hasAlerts c) (currentData c) (historicalData c)
    (Some (Manager.id device)) (alertTimers c).

Definition onDeviceDisconnected (deviceId : string) (c : Context) : Context :=
  mkContext false false (currentData c) (historicalData c) None (alertTimers c).

(** The timers due by [now] fire: each runs [setHasAlerts(false)]. *)
Definition fireTimers (now : Z) (c : Context) : Context :=
  let due := filter (fun t => t <=? now) (alertTimers c) in
  let pending := filter (fun t => negb (t <=? now)) (alertTimers c) in
  mkContext (isConnected c)
    (match due with [] => hasAlerts c | _ :: _ => false end)
    (currentData c) (historicalData c) (connectedDevice c) pending.

(** An event of the manager's bus reaching the context at time [now]; the
    context registers no callback for [onError]. *)
Definition handle (now : Z) (ev : Manager.Event) (c : Context) : Context :=
  let c := fireTimers now c in
  match ev with
  | Manager.onConnectionStateChanged state => onConnectionStateChanged state c
  | Manager.onHealthDataReceived data => onHealthDataReceived now data c
  | Manager.onDeviceConnected device => onDeviceConnected device c
  | Manager.onDeviceDisconnected deviceId => onDeviceDisconnected deviceId c
  | Manager.onError _ => c
  end.

(** Readings arriving at the given times, in order. *)
Definition receive (readings : list (Z * HealthDataPacket)) (c : Context) : Context :=
  fold_left (fun c r => handle (fst r) (Manager.onHealthDataReceived (snd r)) c)
    readings c.

(** The alert flag as the screen shows it at time [now]. *)
Definition hasAlertsAt (now : Z) (c : Context) : bool :=
  hasAlerts (fireTimers now c).

End HealthContext.

(* ------------------------------------------------------------------ *)
(** ** Concrete scenarios                                              *)
(* ------------------------------------------------------------------ *)

Module Scenarios.
Import Manager.

(** A reading with every vital in range except oxygen saturation, 90 %. *)
Definition lowOxygen (timestamp : Z) : HealthDataPacket :=
  mkPacket 72 120 80 (73 # 2) 90 80 timestamp "bracelet-1".

(** A reading with every vital in range. *)
Definition healthy (timestamp : Z) : HealthDataPacket :=
  mkPacket 72 120 80 (73 # 2) 98 80 timestamp "bracelet-1".

Definition failure : Error := JsError "Operation failed".

(** The platform grants everything and every call succeeds. *)
Definition scanOk : ScanEnv := mkScanEnv true (Normal true) (Normal true) None.
Definition stopOk : StopEnv := mkStopEnv None None.
Definition connectOk : ConnectEnv :=
  mkConnectEnv None (Normal (mkDiscovered [] [])) None.

(** The platform's stop-scan call rejects; the transport refuses to connect. *)
Definition stopFails : StopEnv := mkStopEnv None (Some failure).
Definition connectFails : ConnectEnv :=
  mkConnectEnv (Some failure) (Normal (mkDiscovered [] [])) None.

(** Heart rate 72 as an 8-bit value, and a payload that announces a 16-bit
    value but carries one byte of it. *)
Definition heartRate72 : Characteristic :=
  mkNotification CHARACTERISTIC_UUIDS_HEART_RATE_MEASUREMENT
    (Some [Byte.x00; Byte.x48]).
Definition heartRateTruncated : Characteristic :=
  mkNotification CHARACTERISTIC_UUIDS_HEART_RATE_MEASUREMENT
    (Some [Byte.x01; Byte.x48]).

(** The manager once "bracelet-1" is connected (at time 1000). *)
Definition connectedManager : Manager :=
  step (CallConnectToDevice "bracelet-1" 1000 connectOk) initial.

(** The same for the ble-plx manager, its heart-rate subscription set up. *)
Definition connectedBlePlx : BlePlx.Manager :=
  BlePlx.mkManager connected
    (Some (mkConnectedDevice "bracelet-1" "Health Monitor" true [] [] 1000))
    ["heart_rate"%string] [] [] [].

End Scenarios.

(* ------------------------------------------------------------------ *)
(** ** The manager: accessors, the callbacks table, cleanup            *)
(* ------------------------------------------------------------------ *)

Module ManagerApi.
Import Js Manager.
Local Open Scope js_scope.

Definition getConnectionState (m : Manager) : ConnectionState := connectionState m.

Definition getConnectedDevice (m : Manager) : option ConnectedDevice := connectedDevice m.

(** [isConnected()]: the state is 'connected' and there is a Connected Device. *)
Definition isConnected (m : Manager) : bool :=
  ConnectionState_eqb (connectionState m) connected && isSome (connectedDevice m).

(** The object [connectToDevice] builds from what the discovery returned. *)
Definition snapshot (deviceId : string) (now : Z) (found : Discovered) : ConnectedDevice :=
  mkConnectedDevice deviceId "Health Monitor" true
    (map convertService (d_services found))
    (map convertCharacteristic (d_characteristics found))
    now.

(** What [startScanning] learns from [checkPermissions] and, when that says
    no, from [requestPermissions]: off Android both answer true; a call that
    throws counts as a refusal. *)
Definition permitted (env : ScanEnv) : bool :=
  negb (android env)
  || match permissionCheck env with
     | Normal true => true
     | _ => match permissionRequest env with
            | Normal true => true
            | _ => false
            end
     end.

(** The names of the callbacks ([keyof BluetoothEvents]). *)
Inductive EventName : Type :=
  | OnDeviceDiscovered | OnDeviceConnected | OnDeviceDisconnected
  | OnHealthDataReceived | OnConnectionStateChanged | OnError.

Definition EventName_eqb (a b : EventName) : bool :=
  match a, b with
  | OnDeviceDiscovered, OnDeviceDiscovered | OnDeviceConnected, OnDeviceConnected
  | OnDeviceDisconnected, OnDeviceDisconnected
  | OnHealthDataReceived, OnHealthDataReceived
  | OnConnectionStateChanged, OnConnectionStateChanged | OnError, OnError => true
  | _, _ => false
  end.

(** Who registers callbacks on the singleton: the health-data context, the
    WiFi manager and the device-selection modal. *)
Inductive Subscriber : Type :=
  | HealthDataContext | WiFiManager | DeviceSelectionModal.

(** The [events] table ([Partial<BluetoothEvents>]): at most one callback
    per name. *)
Definition Events : Type := EventName -> option Subscriber.

Definition noEvents : Events := fun _ => None.

(** [on(event, callback)]: [this.events[event] = callback]. *)
Definition on (event : EventName) (callback : Subscriber) (events : Events) : Events :=
  fun e => if EventName_eqb e event then Some callback else events e.

(** [off(event)]: [delete this.events[event]]. *)
Definition off (event : EventName) (events : Events) : Events :=
  fun e => if EventName_eqb e event then None else events e.

Definition nameOf (ev : Event) : EventName :=
  match ev with
  | onDeviceConnected _ => OnDeviceConnected
  | onDeviceDisconnected _ => OnDeviceDisconnected
  | onHealthDataReceived _ => OnHealthDataReceived
  | onConnectionStateChanged _ => OnConnectionStateChanged
  | onError _ => OnError
  end.

(** The callback [emit] invokes for an event, if one is registered. *)
Definition invoked (events : Events) (ev : Event) : option Subscriber :=
  events (nameOf ev).

(** The effect of the health-data context when it mounts, and its clean-up. *)
Definition contextMount (events : Events) : Events :=
  on OnDeviceDisconnected HealthDataContext
    (on OnDeviceConnected HealthDataContext
       (on OnHealthDataReceived HealthDataContext
          (on OnConnectionStateChanged HealthDataContext events))).

Definition contextUnmount (events : Events) : Events :=
  off OnDeviceDisconnected
    (off OnDeviceConnected
       (off OnHealthDataReceived
          (off OnConnectionStateChanged events))).

(** [setupBluetoothIntegration] of the WiFi manager. *)
Definition setupBluetoothIntegration (events : Events) : Events :=
  on OnHealthDataReceived WiFiManager (on OnDeviceConnected WiFiManager events).

(** The registrations of the modal when it starts a scan, and what its
    [stopScanning] removes. *)
Definition modalStartScanning (events : Events) : Events :=
  on OnError DeviceSelectionModal (on OnDeviceDiscovered DeviceSelectionModal events).

Definition modalStopScanning (events : Events) : Events :=
  off OnError (off OnDeviceDiscovered events).

(** The singleton with its callbacks table. *)
Record Singleton : Type := mkSingleton {
  core : Manager;
  events : Events
}.

(** A method of the manager run on the singleton. *)
Definition onCore {A} (c : M A) : Js Singleton A :=
  fun s => let '(r, m) := c (core s) in (r, mkSingleton m (events s)).

Definition Timer_eqb (a b : Timer) : bool :=
  match a, b with
  | ScanTimeout x, ScanTimeout y => x =? y
  | ReconnectTimer x, ReconnectTimer y => x =? y
  | _, _ => false
  end.

(** [clearTimeout(handle)]: the timer is no longer pending. *)
Fixpoint clearTimeout (handle : Timer) (pending : list Timer) : list Timer :=
  match pending with
  | [] => []
  | t :: rest => if Timer_eqb t handle then rest else t :: clearTimeout handle rest
  end.

(** [cleanup()]. *)
Definition cleanup (stopEnv : StopEnv) (settles : option Error) : Js Singleton unit :=
  try_catch
    (onCore (stopScanning stopEnv) ;;
     onCore (disconnectFromDevice settles) ;;
     s <- get ;;
     match reconnectTimeout (core s) with
     | Some handle =>
         onCore (modify (fun m =>
           set_reconnectTimeout None (set_timers (clearTimeout handle (timers m)) m)))
     | None => ret tt
     end ;;
     modify (fun s => mkSingleton (core s) noEvents))
    (fun _ => onCore (console_log "Error during Bluetooth cleanup:")).

(** The delays [attemptReconnect] can hand to [setTimeout]: 2, 4 or 8
    seconds.  (Scan timers carry the caller's timeout.) *)
Definition isBackoffDelay (t : Timer) : Prop :=
  match t with
  | ReconnectTimer ms => ms = 2000 \/ ms = 4000 \/ ms = 8000
  | ScanTimeout _ => True
  end.

End ManagerApi.

(* ------------------------------------------------------------------ *)
(** ** The context fed by the manager's bus                            *)
(* ------------------------------------------------------------------ *)

Module ContextFeed.
Import Manager.

(** The events of the bus reaching the context, each at its time. *)
Definition deliverAll (stamped : list (Z * Event)) (c : HealthContext.Context)
  : HealthContext.Context :=
  fold_left (fun c p => HealthContext.handle (fst p) (snd p) c) stamped c.

(** What the context knows of the connection: [isConnected] and
    [connectedDevice]. *)
Definition Link : Type := (bool * option string)%type.

Definition linkOf (c : HealthContext.Context) : Link :=
  (HealthContext.isConnected c, HealthContext.connectedDevice c).

(** The same for the manager: is its state 'connected', and the identifier
    of its Connected Device. *)
Definition managerLink (m : Manager) : Link :=
  (ConnectionState_eqb (connectionState m) connected,
   option_map id (connectedDevice m)).

(** How one event moves the context's knowledge of the connection (its
    callbacks for state changes, device-connected and device-disconnected;
    readings and errors leave it). *)
Definition follow (l : Link) (ev : Event) : Link :=
  match ev with
  | onConnectionStateChanged state => (ConnectionState_eqb state connected, snd l)
  | onDeviceConnected device => (true, Some (id device))
  | onDeviceDisconnected _ => (false, None)
  | onHealthDataReceived _ => l
  | onError _ => l
  end.

(** Events that are readings or errors. *)
Definition isReadingOrError (ev : Event) : bool :=
  match ev with
  | onHealthDataReceived _ | onError _ => true
  | _ => false
  end.

End ContextFeed.

(* ------------------------------------------------------------------ *)
(** ** Bluetooth permissions ([BluetoothPermissions])                  *)
(* ------------------------------------------------------------------ *)

Module BluetoothPermissions.
Import Js.
Local Open Scope js_scope.
Local Open Scope string_scope.

(** The values of [PermissionsAndroid.PERMISSIONS.BLUETOOTH_SCAN],
    [BLUETOOTH_CONNECT] and [ACCESS_FINE_LOCATION], and of
    [PermissionsAndroid.RESULTS.GRANTED], in react-native. *)
Definition BLUETOOTH_SCAN : string := "android.permission.BLUETOOTH_SCAN".
Definition BLUETOOTH_CONNECT : string := "android.permission.BLUETOOTH_CONNECT".
Definition ACCESS_FINE_LOCATION : string := "android.permission.ACCESS_FINE_LOCATION".
Definition GRANTED : string := "granted".

(** The platform: [Platform.OS], and how [PermissionsAndroid.check] and
    [PermissionsAndroid.request] settle for a permission. *)
Record Platform : Type := mkPlatform {
  OS : string;
  check : string -> Completion bool;
  request : string -> Completion string
}.

(** What the functions do to the outside: the console, and the permissions
    they asked the platform about, in order. *)
Record Outside : Type := mkOutside {
  console : list string;
  asked : list string
}.

Definition P (A : Type) : Type := Js Outside A.

Definition console_error (msg : string) : P unit :=
  modify (fun o => mkOutside (console o ++ [msg]) (asked o)).

Definition ask {A} (permission : string) (settles : Completion A) : P A :=
  modify (fun o => mkOutside (console o) (asked o ++ [permission])) ;;
  settle_value settles.

(** A [Record<string, boolean>]: its entries in insertion order. *)
Definition Permissions : Type := list (string * bool).

(** [permissions[key] = value]. *)
Fixpoint setKey (key : string) (value : bool) (permissions : Permissions) : Permissions :=
  match permissions with
  | [] => [(key, value)]
  | (k, v) :: rest =>
      if String.eqb k key then (key, value) :: rest
      else (k, v) :: setKey key value rest
  end.

Record PermissionResult : Type := mkResult {
  granted : bool;
  permissions : Permissions
}.

Definition androidPermissions : list string :=
  [BLUETOOTH_SCAN; BLUETOOTH_CONNECT; ACCESS_FINE_LOCATION].

(** [isBluetoothAvailable()] and [enableBluetooth()]. *)
Definition isBluetoothAvailable : P bool :=
  try_catch (ret true)
    (fun _ => console_error "Error checking Bluetooth availability:" ;; ret false).

Definition enableBluetooth : P bool :=
  try_catch (ret true)
    (fun _ => console_error "Error enabling Bluetooth:" ;; ret false).

(** The [for] loop of [requestAllPermissions]. *)
Fixpoint requestEach (env : Platform) (names : list string) (permissions : Permissions)
  : P Permissions :=
  match names with
  | [] => ret permissions
  | name :: rest =>
      permissions' <-
        try_catch
          (answer <- ask name (request env name) ;;
           ret (setKey name (String.eqb answer GRANTED) permissions))
          (fun _ => console_error ("Error requesting permission " ++ name ++ ":") ;;
                    ret (setKey name false permissions)) ;;
      requestEach env rest permissions'
  end.

Definition requestAllPermissions (env : Platform) : P PermissionResult :=
  try_catch
    (if String.eqb (OS env) "android"
     then permissions <- requestEach env androidPermissions [] ;;
          ret (mkResult (forallb (fun g : bool => g) (map snd permissions)) permissions)
     else ret (mkResult true (setKey "bluetooth" true [])))
    (fun _ => console_error "Error requesting Bluetooth permissions:" ;;
              ret (mkResult false [])).

(** The [for] loop of [checkAllPermissions]. *)
Fixpoint checkEach (env : Platform) (names : list string) (permissions : Permissions)
  : P Permissions :=
  match names with
  | [] => ret permissions
  | name :: rest =>
      permissions' <-
        try_catch
          (hasPermission <- ask name (check env name) ;;
           ret (setKey name hasPermission permissions))
          (fun _ => console_error ("Error checking permission " ++ name ++ ":") ;;
                    ret (setKey name false permissions)) ;;
      checkEach env rest permissions'
  end.

Definition checkAllPermissions (env : Platform) : P PermissionResult :=
  try_catch
    (if String.eqb (OS env) "android"
     then permissions <- checkEach env androidPermissions [] ;;
          ret (mkResult (forallb (fun g : bool => g) (map snd permissions)) permissions)
     else ret (mkResult true (setKey "bluetooth" true [])))
    (fun _ => console_error "Error checking Bluetooth permissions:" ;;
              ret (mkResult false [])).

Record PermissionStatus : Type := mkStatus {
  bluetoothAvailable : bool;
  bluetoothEnabled : bool;
  permissionsGranted : bool;
  missingPermissions : list string;
  platform : string
}.

Definition getPermissionStatus (env : Platform) : P PermissionStatus :=
  try_catch
    (available <- isBluetoothAvailable ;;
     permissionCheck <- checkAllPermissions env ;;
     let missing :=
       map fst (filter (fun entry => negb (snd entry)) (permissions permissionCheck)) in
     ret (mkStatus available available (granted permissionCheck) missing (OS env)))
    (fun _ => console_error "Error getting permission status:" ;;
              ret (mkStatus false false false [] (OS env))).

Record Readiness : Type := mkReadiness {
  canProceed : bool;
  reason : option string;
  needsPermissions : bool;
  needsBluetoothEnabled : bool
}.

Definition canProceedWithBluetooth (env : Platform) : P Readiness :=
  try_catch
    (status <- getPermissionStatus env ;;
     if negb (bluetoothAvailable status)
     then ret (mkReadiness false (Some "Bluetooth is not available on this device")
                 false false)
     else if negb (permissionsGranted status)
     then ret (mkReadiness false (Some "Bluetooth permissions are required") true false)
     else if negb (bluetoothEnabled status)
     then ret (mkReadiness false (Some "Bluetooth is not enabled") false true)
     else ret (mkReadiness true None false false))
    (fun _ => console_error "Error checking Bluetooth readiness:" ;;
              ret (mkReadiness false (Some "Unable to check Bluetooth status")
                     false false)).

(** Does the platform say yes to a permission ([check] resolves to true)? *)
Definition holds (env : Platform) (permission : string) : bool :=
  match check env permission with
  | Normal true => true
  | _ => false
  end.

(** Does the user grant a permission on request? *)
Definition grants (env : Platform) (permission : string) : bool :=
  match request env permission with
  | Normal answer => String.eqb answer GRANTED
  | Thrown _ => false
  end.

End BluetoothPermissions.

(* ------------------------------------------------------------------ *)
(** ** Discovered devices: the manager's listener, the modal's list    *)
(* ------------------------------------------------------------------ *)

Module DeviceSelection.
Local Open Scope string_scope.

(** What the platform hands to the discovery listener; [null] and
    [undefined] are [None]. *)
Record PlatformDevice : Type := mkPlatformDevice {
  p_id : string;
  p_name : option string;
  p_localName : option string;
  p_rssi : option Z;
  p_serviceUUIDs : option (list string);
  p_isConnectable : option bool
}.

(** [BluetoothDevice] (without [manufacturerData], of type [any]). *)
Record BluetoothDevice : Type := mkBluetoothDevice {
  id : string;
  name : string;
  localName : option string;
  rssi : option Z;
  serviceUUIDs : option (list string);
  isConnectable : option bool
}.

(** [x || 'Unknown Device'] on a string that may be null. *)
Definition orUnknown (x : option string) : string :=
  match x with
  | Some "" => "Unknown Device"
  | Some s => s
  | None => "Unknown Device"
  end.

(** The object the manager's discovery listener emits. *)
Definition discovered (device : PlatformDevice) : BluetoothDevice :=
  mkBluetoothDevice (p_id device) (orUnknown (p_name device)) (p_localName device)
    (p_rssi device) (p_serviceUUIDs device) (p_isConnectable device).

(** The updater the modal hands to [setDevices] on [onDeviceDiscovered]. *)
Definition onDeviceDiscovered (device : BluetoothDevice) (prev : list BluetoothDevice)
  : list BluetoothDevice :=
  if existsb (fun d => String.eqb (id d) (id device)) prev
  then prev
  else prev ++ [device].

(** The list of the modal after a scan: [setDevices([])], then one update
    per discovery event. *)
Definition devicesAfter (events : list BluetoothDevice) : list BluetoothDevice :=
  fold_left (fun prev device => onDeviceDiscovered device prev) events [].

End DeviceSelection.

(* ------------------------------------------------------------------ *)
(** ** The WiFi manager ([WiFiManager])                                *)
(* ------------------------------------------------------------------ *)

Module WiFi.
Import Js.
Local Open Scope js_scope.
Local Open Scope string_scope.

Inductive ConnectionType : Type := bluetooth | wifi | dual | offline.

(** [state.details?.strength]: a number, [null], or [undefined] (also when
    [details] is null). *)
Inductive Strength : Type :=
  | Undefined
  | Null
  | Num (dBm : Q).

(** [null + 100] is [100]: in arithmetic [null] is 0. *)
Definition toNumber (strength : Strength) : Q :=
  match strength with
  | Num dBm => dBm
  | _ => 0%Q
  end.

(** [state.details] of NetInfo, the keys the manager reads. *)
Record Details : Type := mkDetails {
  d_ssid : option string;
  d_strength : Strength;
  d_ipAddress : option string;
  d_subnet : option string;
  d_gateway : option string
}.

(** The state NetInfo hands to its listener: [isConnected] is a boolean or
    [null] ([None]). *)
Record NetInfoState : Type := mkNetInfoState {
  isConnected : option bool;
  type : string;
  details : option Details
}.

(** [WiFiConnectionStatus]; [connected] holds what
    [state.isConnected && state.type === 'wifi'] evaluated to, which may be
    [null] ([None]). *)
Record WiFiConnectionStatus : Type := mkStatus {
  connected : option bool;
  ssid : option string;
  signalStrength : Q;
  ipAddress : option string;
  subnetMask : option string;
  gateway : option string;
  lastSync : option Z
}.

Inductive WiFiEvent : Type :=
  | onConnectionTypeChanged (type : ConnectionType)
  | onDataTransmitted (deviceId : string) (dataSize : nat)
  | onError (error message : string).

(** An argument of [storage.storeOfflineHealthData]. *)
Record OfflineData : Type := mkOfflineData {
  o_deviceId : string;
  o_measurements : list Manager.HealthDataPacket;
  o_timestamp : Z
}.

(** The manager, with what it did to the outside: the events it emitted,
    the console, and its calls of [storage.storeOfflineHealthData]. *)
Record WiFiManager : Type := mkWiFiManager {
  connectionStatus : WiFiConnectionStatus;
  connectionType : ConnectionType;
  emitted : list WiFiEvent;
  console : list string;
  storedOffline : list OfflineData
}.

Definition initial : WiFiManager :=
  mkWiFiManager (mkStatus (Some false) None 0 None None None None) offline [] [] [].

Definition emit (e : WiFiEvent) : Js WiFiManager unit :=
  modify (fun w => mkWiFiManager (connectionStatus w) (connectionType w)
                     (emitted w ++ [e]) (console w) (storedOffline w)).

Definition console_log (msg : string) : Js WiFiManager unit :=
  modify (fun w => mkWiFiManager (connectionStatus w) (connectionType w)
                     (emitted w) (console w ++ [msg]) (storedOffline w)).

Definition set_connectionStatus (s : WiFiConnectionStatus) : Js WiFiManager unit :=
  modify (fun w => mkWiFiManager s (connectionType w)
                     (emitted w) (console w) (storedOffline w)).

Definition set_connectionType (t : ConnectionType) : Js WiFiManager unit :=
  modify (fun w => mkWiFiManager (connectionStatus w) t
                     (emitted w) (console w) (storedOffline w)).

(** [calculateSignalStrength(strength)]. *)
Definition calculateSignalStrength (strength : Strength) : Q :=
  match strength with
  | Undefined => 0%Q
  | _ => Qmax 0 (Qmin 100 ((toNumber strength + 100) * 2))
  end.

(** Truthiness of a boolean that may be null. *)
Definition truthy (b : option bool) : bool :=
  match b with
  | Some true => true
  | _ => false
  end.

(** [a !== b] on booleans that may be null. *)
Definition strictNotEqual (a b : option bool) : bool :=
  match a, b with
  | Some x, Some y => negb (Bool.eqb x y)
  | None, None => false
  | _, _ => true
  end.

(** [state.isConnected && state.type === 'wifi']: the left operand when it
    is falsy. *)
Definition isNowConnected (state : NetInfoState) : option bool :=
  match isConnected state with
  | Some true => Some (String.eqb (type state) "wifi")
  | falsy => falsy
  end.

(** [updateConnectionType()]; [bt] is the Bluetooth manager. *)
Definition updateConnectionType (bt : Manager.Manager) : Js WiFiManager unit :=
  w <- get ;;
  let bluetoothConnected := ManagerApi.isConnected bt in
  let wifiConnected := truthy (connected (connectionStatus w)) in
  if bluetoothConnected && wifiConnected then set_connectionType dual
  else if bluetoothConnected then set_connectionType bluetooth
  else if wifiConnected then set_connectionType wifi
  else set_connectionType offline.

(** [handleNetworkStateChange(state)] at time [now]. *)
Definition handleNetworkStateChange (now : Z) (bt : Manager.Manager)
    (state : NetInfoState) : Js WiFiManager unit :=
  w <- get ;;
  let wasConnected := connected (connectionStatus w) in
  if strictNotEqual (isNowConnected state) wasConnected
  then
    set_connectionStatus
      (mkStatus (isNowConnected state)
         (match details state with Some d => d_ssid d | None => None end)
         (calculateSignalStrength
            (match details state with Some d => d_strength d | None => Undefined end))
         (match details state with Some d => d_ipAddress d | None => None end)
         (match details state with Some d => d_subnet d | None => None end)
         (match details state with Some d => d_gateway d | None => None end)
         (if truthy (isNowConnected state) then Some now else None)) ;;
    updateConnectionType bt ;;
    w' <- get ;;
    emit (onConnectionTypeChanged (connectionType w'))
  else ret tt.

(** [switchConnectionType(type)]. *)
Definition switchConnectionType (type : string) (bt : Manager.Manager)
  : Js WiFiManager unit :=
  if String.eqb type "auto"
  then updateConnectionType bt
  else console_log ("Switching to " ++ type ++ " connection preference").

(** [handleTransmissionFailure(data)] at time [now];
    [storeOfflineHealthData] tells how the storage call settles. *)
Definition handleTransmissionFailure (now : Z) (storeOfflineHealthData : option Error)
    (data : Manager.HealthDataPacket) : Js WiFiManager unit :=
  modify (fun w => mkWiFiManager (connectionStatus w) (connectionType w)
                     (emitted w) (console w)
                     (storedOffline w
                      ++ [mkOfflineData (Manager.deviceId data) [data] now])) ;;
  settle storeOfflineHealthData.

Definition decimal (n : nat) : string := NilZero.string_of_uint (Nat.to_uint n).

(** [transmitDataViaWiFi(data)]; [json] is the text [JSON.stringify(data)]
    gives. *)
Definition transmitDataViaWiFi (now : Z) (storeOfflineHealthData : option Error)
    (json : string) (data : Manager.HealthDataPacket) : Js WiFiManager unit :=
  try_catch
    (let dataSize := String.length json in
     console_log ("Transmitted " ++ decimal dataSize ++ " bytes via WiFi") ;;
     emit (onDataTransmitted (Manager.deviceId data) dataSize))
    (fun _ =>
       console_log "Error transmitting data via WiFi:" ;;
       emit (onError "data_transmission_failed" "Failed to transmit data via WiFi") ;;
       handleTransmissionFailure now storeOfflineHealthData data).

(** [handleHealthDataFromDevice(data)], the callback the manager registers
    for 'onHealthDataReceived' on the Bluetooth manager. *)
Definition handleHealthDataFromDevice (now : Z) (storeOfflineHealthData : option Error)
    (json : string) (data : Manager.HealthDataPacket) : Js WiFiManager unit :=
  w <- get ;;
  match connectionType w with
  | wifi | dual => transmitDataViaWiFi now storeOfflineHealthData json data
  | _ => ret tt
  end.

(** What happens to the manager: NetInfo reports a state, the application
    switches the connection preference, the Bluetooth manager hands over a
    reading. *)
Inductive Op : Type :=
  | NetworkState (now : Z) (bt : Manager.Manager) (state : NetInfoState)
  | Switch (type : string) (bt : Manager.Manager)
  | HealthData (now : Z) (storeOfflineHealthData : option Error) (json : string)
      (data : Manager.HealthDataPacket).

Definition step (op : Op) (w : WiFiManager) : WiFiManager :=
  match op with
  | NetworkState now bt state => exec (handleNetworkStateChange now bt state) w
  | Switch type bt => exec (switchConnectionType type bt) w
  | HealthData now store json data =>
      exec (handleHealthDataFromDevice now store json data) w
  end.

Definition run (ops : list Op) (w : WiFiManager) : WiFiManager :=
  fold_left (fun w op => step op w) ops w.

(** Is health data routed over WiFi? *)
Definition routesOverWiFi (w : WiFiManager) : bool :=
  match connectionType w with
  | wifi | dual => true
  | _ => false
  end.

(** What holds of the manager whatever happened to it: data is routed over
    WiFi exactly while WiFi is connected, the signal strength is a percentage,
    and there is a time of last synchronisation exactly while WiFi is
    connected. *)
Definition consistent (w : WiFiManager) : Prop :=
  routesOverWiFi w = truthy (connected (connectionStatus w))
  /\ (0 <= signalStrength (connectionStatus w) <= 100)%Q
  /\ (lastSync (connectionStatus w) = None
      <-> truthy (connected (connectionStatus w)) = false).

End WiFi.

(* ------------------------------------------------------------------ *)
(** ** The API client and its error handling                           *)
(* ------------------------------------------------------------------ *)

Module Api.
Local Open Scope string_scope.

(** [Record<string, string[]>], entries in insertion order. *)
Definition FieldErrors : Type := list (string * list string).

(** [error.response] of an axios error: [status], and of [data] the keys
    the client reads ([data?.message], [data?.fieldErrors]). *)
Record ErrorResponse : Type := mkErrorResponse {
  status : Z;
  data_message : option string;
  data_fieldErrors : option FieldErrors
}.

(** What reaches the rejection handler of the response interceptor. *)
Record AxiosError : Type := mkAxiosError {
  code : option string;
  response : option ErrorResponse
}.

(** The error classes of the client, and any other [Error]. *)
Inductive ApiError : Type :=
  | NetworkError (message : string) (status : option Z)
  | AuthError (message : string)
  | ValidationError (message : string) (fieldErrors : option FieldErrors)
  | ServerError (message : string) (status : Z)
  | OtherError (message : string).

(** [x || fallback] on a string that may be missing: the empty string is
    falsy. *)
Definition orElse (x : option string) (fallback : string) : string :=
  match x with
  | Some "" | None => fallback
  | Some s => s
  end.

(** [error.code === name]. *)
Definition codeIs (error : AxiosError) (name : string) : bool :=
  match code error with
  | Some c => String.eqb c name
  | None => false
  end.

(** [transformError(error)]. *)
Definition transformError (error : AxiosError) : ApiError :=
  match response error with
  | None =>
      NetworkError "Network connection failed. Please check your internet connection."
        None
  | Some r =>
      if codeIs error "NETWORK_ERROR"
      then NetworkError
             "Network connection failed. Please check your internet connection." None
      else
      let message := data_message r in
      if (status r =? 400)%Z
      then ValidationError (orElse message "Invalid request data") (data_fieldErrors r)
      else if (status r =? 401)%Z
      then AuthError (orElse message "Authentication required")
      else if (status r =? 403)%Z
      then AuthError (orElse message "Access denied")
      else if (status r =? 404)%Z
      then NetworkError (orElse message "Resource not found") (Some (status r))
      else if (status r =? 422)%Z
      then ValidationError (orElse message "Validation failed") (data_fieldErrors r)
      else if (status r =? 429)%Z
      then NetworkError "Too many requests. Please try again later." (Some (status r))
      else if (status r =? 500)%Z || (status r =? 502)%Z || (status r =? 503)%Z
      then ServerError (orElse message "Server error occurred") (status r)
      else NetworkError (orElse message "An unexpected error occurred") (Some (status r))
  end.

(** What a caller of [client.request] may catch: an error object of the
    classes above, which have the properties [name], [message], [status] and
    [fieldErrors]; an axios error as it is; an error of the secure store. *)
Inductive Rejection : Type :=
  | Transformed (e : ApiError)
  | Untransformed (e : AxiosError)
  | StoreFailure (e : Error).

(** [error.response] on each of them. *)
Definition responseOf (error : Rejection) : option ErrorResponse :=
  match error with
  | Untransformed e => response e
  | Transformed _ | StoreFailure _ => None
  end.

(** [retryConfig]. *)
Definition maxRetries : Z := 3.
Definition retryDelay : Z := 1000.
Definition retryCondition (error : Rejection) : bool :=
  match responseOf error with
  | None => true
  | Some r => (500 <=? status r)%Z && (status r <? 600)%Z
  end.

(** The outside of the client: how the [n]-th request sent settles before
    the response interceptor ([n] from 0), and how
    [SecureStore.deleteItemAsync] settles. *)
Record Network (A : Type) : Type := mkNetwork {
  dispatch : nat -> A + AxiosError;
  deleteItemAsync : string -> option Error
}.
Arguments dispatch {A} _ _.
Arguments deleteItemAsync {A} _ _.

(** What the client did: requests sent, waits between them, keys it asked
    the secure store to delete, warnings. *)
Record Traffic : Type := mkTraffic {
  sent : nat;
  waits : list Z;
  deleted : list string;
  warnings : list string
}.

(** [handleAuthError()]: [None] when it returns. *)
Definition handleAuthError {A} (net : Network A) (t : Traffic) : option Error * Traffic :=
  let t1 := mkTraffic (sent t) (waits t) (deleted t ++ ["auth_token"]) (warnings t) in
  match deleteItemAsync net "auth_token" with
  | Some e => (Some e, t1)
  | None =>
      let t2 := mkTraffic (sent t1) (waits t1) (deleted t1 ++ ["refresh_token"])
                  (warnings t1) in
      match deleteItemAsync net "refresh_token" with
      | Some e => (Some e, t2)
      | None =>
          (None,
           mkTraffic (sent t2) (waits t2) (deleted t2)
             (warnings t2
              ++ ["Authentication failed. User should be redirected to login."]))
      end
  end.

(** The rejection handler of the response interceptor. *)
Definition onRejected {A} (net : Network A) (error : AxiosError) (t : Traffic)
  : Rejection * Traffic :=
  match response error with
  | Some r =>
      if (status r =? 401)%Z
      then match handleAuthError net t with
           | (Some e, t') => (StoreFailure e, t')
           | (None, t') => (Transformed (transformError error), t')
           end
      else (Transformed (transformError error), t)
  | None => (Transformed (transformError error), t)
  end.

(** [this.client.request(config)]: one request through the interceptors. *)
Definition request {A} (net : Network A) (t : Traffic) : (A + Rejection) * Traffic :=
  let t' := mkTraffic (S (sent t)) (waits t) (deleted t) (warnings t) in
  match dispatch net (sent t) with
  | inl response => (inl response, t')
  | inr error =>
      let (rejection, t'') := onRejected net error t' in (inr rejection, t'')
  end.

(** [retryRequest(config, retryCount)]; [fuel] bounds the recursion. *)
Fixpoint retryRequest {A} (fuel : nat) (net : Network A) (retryCount : Z) (t : Traffic)
  : option ((A + Rejection) * Traffic) :=
  match fuel with
  | O => None
  | S fuel' =>
      match request net t with
      | (inl response, t') => Some (inl response, t')
      | (inr error, t') =>
          if (retryCount <? maxRetries)%Z && retryCondition error
          then retryRequest fuel' net (retryCount + 1)
                 (mkTraffic (sent t') (waits t' ++ [retryDelay * (retryCount + 1)])
                    (deleted t') (warnings t'))
          else Some (inr error, t')
      end
  end.

(** *** [ApiErrorHandler] *)

(** [parts.join(', ')]. *)
Definition join (parts : list string) : string := String.concat ", " parts.

(** [getErrorMessage(error)]. *)
Definition getErrorMessage (error : ApiError) : string :=
  match error with
  | NetworkError message _ =>
      orElse (Some message)
        "Network connection failed. Please check your internet connection."
  | AuthError message =>
      orElse (Some message) "Authentication failed. Please log in again."
  | ValidationError message (Some fieldErrors) =>
      let fieldMessages := List.concat (map snd fieldErrors) in
      orElse (Some (join fieldMessages))
        (orElse (Some message) "Please check your input and try again.")
  | ValidationError message None =>
      orElse (Some message) "Please check your input and try again."
  | ServerError message _ =>
      orElse (Some message) "Server error occurred. Please try again later."
  | OtherError message =>
      orElse (Some message) "An unexpected error occurred. Please try again."
  end.

Definition isRecoverableError (error : ApiError) : bool :=
  match error with
  | NetworkError _ _ | ServerError _ _ => true
  | _ => false
  end.

Definition requiresUserAction (error : ApiError) : bool :=
  match error with
  | AuthError _ => true
  | _ => false
  end.

Record ErrorInfo : Type := mkErrorInfo {
  info_message : string;
  info_isRecoverable : bool;
  info_requiresUserAction : bool
}.

(** [handleError(error, context)]; [logError] writes to the console of a
    development build only. *)
Definition handleError (error : ApiError) : ErrorInfo :=
  mkErrorInfo (getErrorMessage error) (isRecoverableError error)
    (requiresUserAction error).

(** *** [ApiErrorBoundary] *)

(** What an operation may throw: an [Error], or another value, of which
    [String(error)] is kept. *)
Inductive ThrownValue : Type :=
  | AnError (e : ApiError)
  | NotAnError (asString : string).

(** [error instanceof Error ? error : new Error(String(error))]. *)
Definition asError (error : ThrownValue) : ApiError :=
  match error with
  | AnError e => e
  | NotAnError s => OtherError s
  end.

Inductive Outcome (A : Type) : Type :=
  | Resolved (a : A)
  | Rejected (error : ThrownValue).
Arguments Resolved {A} a.
Arguments Rejected {A} error.

(** What the boundary throws: the object [errorInfo], or [lastError]
    (undefined is [None]). *)
Inductive BoundaryThrow : Type :=
  | Info (errorInfo : ErrorInfo)
  | LastError (lastError : option ApiError).

(** What the boundary did: calls of the operation, waits, console. *)
Record Attempts : Type := mkAttempts {
  calls : nat;
  slept : list Z;
  logged : list string
}.

Definition decimal (n : Z) : string := NilZero.string_of_int (Z.to_int n).

(** The [for] loop of [withRetry], from [attempt] on; [fuel] bounds it. *)
Fixpoint retryLoop {A} (fuel : nat) (operation : nat -> Outcome A) (maxRetries : Z)
    (attempt : Z) (lastError : option ApiError) (a : Attempts)
  : option ((A + BoundaryThrow) * Attempts) :=
  match fuel with
  | O => None
  | S fuel' =>
      if (attempt <=? maxRetries)%Z
      then
        let a' := mkAttempts (S (calls a)) (slept a) (logged a) in
        match operation (calls a) with
        | Resolved x => Some (inl x, a')
        | Rejected error =>
            let lastError := asError error in
            let errorInfo := handleError lastError in
            if negb (info_isRecoverable errorInfo)
            then Some (inr (Info errorInfo), a')
            else if (attempt =? maxRetries)%Z
            then Some (inr (Info errorInfo), a')
            else
              let delay := (2 ^ attempt * 1000)%Z in
              retryLoop fuel' operation maxRetries (attempt + 1) (Some lastError)
                (mkAttempts (calls a') (slept a' ++ [delay])
                   (logged a'
                    ++ ["Retrying operation in " ++ decimal delay ++ "ms (attempt "
                        ++ decimal (attempt + 1) ++ "/" ++ decimal maxRetries ++ ")"]))
        end
      else Some (inr (LastError lastError), a)
  end.

(** [withRetry(operation, maxRetries, context)]. *)
Definition withRetry {A} (fuel : nat) (operation : nat -> Outcome A) (maxRetries : Z)
    (a : Attempts) : option ((A + BoundaryThrow) * Attempts) :=
  retryLoop fuel operation maxRetries 0 None a.

End Api.

(* ------------------------------------------------------------------ *)
(** ** More concrete scenarios                                         *)
(* ------------------------------------------------------------------ *)

Module MoreScenarios.
Import Manager.

(** Android refuses the permissions, at the check and at the request. *)
Definition scanDenied : ScanEnv := mkScanEnv true (Normal false) (Normal false) None.

(** The permissions are granted and the platform throws when asked to scan. *)
Definition scanStartFails : ScanEnv :=
  mkScanEnv true (Normal true) (Normal true) (Some Scenarios.failure).

(** Every request is answered with status 400. *)
Definition alwaysBadRequest : Api.Network unit :=
  Api.mkNetwork unit
    (fun _ => inr (Api.mkAxiosError None (Some (Api.mkErrorResponse 400 None None))))
    (fun _ => None).

Definition noTraffic : Api.Traffic := Api.mkTraffic 0 [] [] [].

(** A response with status 404 and no body. *)
Definition notFound : Api.ErrorResponse := Api.mkErrorResponse 404 None None.

(** An operation that fails with a 503 at every call. *)
Definition alwaysUnavailable : nat -> Api.Outcome unit :=
  fun _ => Api.Rejected (Api.AnError (Api.ServerError "" 503)).

Definition noAttempts : Api.Attempts := Api.mkAttempts 0 [] [].

End MoreScenarios.

(* ================================================================== *)
(** * Properties                                                       *)
(* ================================================================== *)

Import DataView Parsers.

(** ** Buffers: what is written little-endian is read back             *)

Section LittleEndian.

Lemma byte_val_of_Z (z : Z) : byte_val (byte_of_Z z) = z mod 256.
Proof.
  unfold byte_val, byte_of_Z.
  assert (Hr : 0 <= z mod 256 < 256) by (apply Z.mod_pos_bound; lia).
  destruct (Byte.of_N (Z.to_N (z mod 256))) as [b|] eqn:E.
  - apply Byte.to_of_N in E. rewrite E. lia.
  - apply Byte.of_N_None_iff in E. lia.
Qed.

Lemma byte_val_range (b : byte) : 0 <= byte_val b < 256.
Proof.
  unfold byte_val. pose proof (Byte.to_N_bounded b). lia.
Qed.

(** Reading bit [n] of a byte taken out of [v] at bit offset [k]. *)
Lemma testbit_byte (v k n : Z) :
  0 <= k -> 0 <= n ->
  Z.testbit ((Z.shiftr v k) mod 256) n = (n <? 8) && Z.testbit v (n + k).
Proof.
  intros Hk Hn. change 256 with (2 ^ 8).
  destruct (Z.ltb_spec n 8).
  - rewrite Z.mod_pow2_bits_low by lia.
    rewrite Z.shiftr_spec by lia. reflexivity.
  - rewrite Z.mod_pow2_bits_high by lia. reflexivity.
Qed.

Lemma testbit_above (v k n : Z) :
  0 <= v < 2 ^ k -> k <= n -> Z.testbit v n = false.
Proof.
  intros Hv Hn. destruct (Z.eq_dec v 0) as [->|Hz].
  - apply Z.bits_0.
  - apply Z.bits_above_log2; [lia|].
    assert (Z.log2 v < k) by (apply Z.log2_lt_pow2; lia). lia.
Qed.

Lemma uint16_bytes (v : Z) :
  0 <= v < 65536 ->
  Z.lor (v mod 256) (Z.shiftl ((Z.shiftr v 8) mod 256) 8) = v.
Proof.
  intros Hv. apply Z.bits_inj'. intros n Hn.
  rewrite Z.lor_spec, Z.shiftl_spec by lia.
  rewrite <- (Z.shiftr_0_r v) at 1.
  rewrite testbit_byte by lia.
  destruct (Z.ltb_spec n 8).
  - rewrite Z.add_0_r. rewrite (Z.testbit_neg_r _ (n - 8)) by lia.
    now rewrite orb_false_r.
  - rewrite testbit_byte by lia. replace (n - 8 + 8) with n by lia.
    destruct (Z.ltb_spec (n - 8) 8); simpl; [reflexivity|].
    symmetry. apply (testbit_above v 16); [change (2 ^ 16) with 65536|]; lia.
Qed.

Lemma le32_bytes (v : Z) :
  le32 (byte_of_Z v) (byte_of_Z (Z.shiftr v 8))
       (byte_of_Z (Z.shiftr v 16)) (byte_of_Z (Z.shiftr v 24))
  = v mod 4294967296.
Proof.
  unfold le32. rewrite !byte_val_of_Z.
  apply Z.bits_inj'. intros n Hn.
  rewrite !Z.lor_spec, !Z.shiftl_spec by lia.
  rewrite <- (Z.shiftr_0_r v) at 1.
  change 4294967296 with (2 ^ 32).
  destruct (Z.ltb_spec n 8); [|destruct (Z.ltb_spec n 16);
    [|destruct (Z.ltb_spec n 24); [|destruct (Z.ltb_spec n 32)]]].
  - rewrite testbit_byte by lia.
    rewrite !(Z.testbit_neg_r _ (n - _)) by lia.
    rewrite Z.mod_pow2_bits_low by lia.
    replace (n <? 8) with true by (symmetry; apply Z.ltb_lt; lia).
    rewrite Z.add_0_r. simpl. now rewrite !orb_false_r.
  - rewrite !testbit_byte by lia.
    rewrite !(Z.testbit_neg_r _ (n - 16)), !(Z.testbit_neg_r _ (n - 24)) by lia.
    rewrite Z.mod_pow2_bits_low by lia.
    replace (n <? 8) with false by (symmetry; apply Z.ltb_ge; lia).
    replace (n - 8 <? 8) with true by (symmetry; apply Z.ltb_lt; lia).
    replace (n - 8 + 8) with n by lia. simpl. now rewrite !orb_false_r.
  - rewrite !testbit_byte by lia.
    rewrite !(Z.testbit_neg_r _ (n - 24)) by lia.
    rewrite Z.mod_pow2_bits_low by lia.
    replace (n <? 8) with false by (symmetry; apply Z.ltb_ge; lia).
    replace (n - 8 <? 8) with false by (symmetry; apply Z.ltb_ge; lia).
    replace (n - 16 <? 8) with true by (symmetry; apply Z.ltb_lt; lia).
    replace (n - 16 + 16) with n by lia. simpl. now rewrite !orb_false_r.
  - rewrite !testbit_byte by lia.
    rewrite Z.mod_pow2_bits_low by lia.
    replace (n <? 8) with false by (symmetry; apply Z.ltb_ge; lia).
    replace (n - 8 <? 8) with false by (symmetry; apply Z.ltb_ge; lia).
    replace (n - 16 <? 8) with false by (symmetry; apply Z.ltb_ge; lia).
    replace (n - 24 <? 8) with true by (symmetry; apply Z.ltb_lt; lia).
    replace (n - 24 + 24) with n by lia. reflexivity.
  - rewrite !testbit_byte by lia.
    rewrite Z.mod_pow2_bits_high by lia.
    replace (n <? 8) with false by (symmetry; apply Z.ltb_ge; lia).
    replace (n - 8 <? 8) with false by (symmetry; apply Z.ltb_ge; lia).
    replace (n - 16 <? 8) with false by (symmetry; apply Z.ltb_ge; lia).
    replace (n - 24 <? 8) with false by (symmetry; apply Z.ltb_ge; lia).
    reflexivity.
Qed.

Lemma toInt32_mod (v : Z) :
  -2147483648 <= v < 2147483648 -> toInt32 (v mod 4294967296) = v.
Proof.
  intros Hv. unfold toInt32.
  destruct (Z.le_gt_cases 0 v).
  - rewrite Z.mod_small by lia.
    destruct (Z.leb_spec 2147483648 v); lia.
  - replace (v mod 4294967296) with (v + 4294967296).
    + destruct (Z.leb_spec 2147483648 (v + 4294967296)); lia.
    + apply Z.mod_unique with (q := -1); lia.
Qed.

Lemma getUint16_uint16_le (pre : ArrayBuffer) (v : Z) (post : ArrayBuffer) :
  0 <= v < 65536 ->
  getUint16 (pre ++ uint16_le v ++ post) (List.length pre) = Normal v.
Proof.
  intros Hv. unfold getUint16, uint16_le.
  rewrite !(nth_error_app2 pre) by lia. rewrite Nat.sub_diag.
  replace (List.length pre + 1 - List.length pre)%nat with 1%nat by lia.
  simpl. rewrite !byte_val_of_Z. now rewrite uint16_bytes.
Qed.

Lemma getInt32_int32_le (v : Z) (post : ArrayBuffer) :
  -2147483648 <= v < 2147483648 ->
  getInt32 (int32_le v ++ post) 0 = Normal v.
Proof.
  intros Hv. unfold getInt32, int32_le. simpl.
  now rewrite le32_bytes, toInt32_mod.
Qed.

End LittleEndian.

(** ** Parsing characteristic payloads                                 *)

Lemma parseHeartRate_16bit (flags lo hi : byte) (rest : ArrayBuffer) :
  Z.land (byte_val flags) 1 <> 0 ->
  parseHeartRate (flags :: lo :: hi :: rest)
  = Normal (inject_Z (Z.lor (byte_val lo) (Z.shiftl (byte_val hi) 8))).
Proof.
  intros Hbit. unfold parseHeartRate. cbn [getUint8 nth_error bindC].
  destruct (Z.eqb_spec (Z.land (byte_val flags) 1) 0); [contradiction|reflexivity].
Qed.

Lemma parseHeartRate_8bit (flags v : byte) (rest : ArrayBuffer) :
  Z.land (byte_val flags) 1 = 0 ->
  parseHeartRate (flags :: v :: rest) = Normal (inject_Z (byte_val v)).
Proof.
  intros Hbit. unfold parseHeartRate. cbn [getUint8 nth_error bindC].
  rewrite Hbit. reflexivity.
Qed.


Lemma parseBloodPressure_layout (flags : byte) (s d : Z) (rest : ArrayBuffer) :
  0 <= s < 65536 -> 0 <= d < 65536 ->
  parseBloodPressure (flags :: uint16_le s ++ uint16_le d ++ rest)
  = Normal (mkBloodPressure (inject_Z s / 10) (inject_Z d / 10)).
Proof.
  intros Hs Hd.
  pose proof (getUint16_uint16_le [flags] s (uint16_le d ++ rest) Hs) as H1.
  pose proof (getUint16_uint16_le (flags :: uint16_le s) d rest Hd) as H3.
  unfold parseBloodPressure, uint16_le in *.
  cbn [app List.length] in H1, H3 |- *.
  cbn [getUint8 nth_error bindC].
  rewrite H1. cbn [bindC]. rewrite H3. reflexivity.
Qed.

Lemma parseTemperature_layout (raw : Z) (rest : ArrayBuffer) :
  -2147483648 <= raw < 2147483648 ->
  parseTemperature (int32_le raw ++ rest) = Normal (inject_Z raw / 100)%Q.
Proof.
  intros Hraw. unfold parseTemperature.
  now rewrite getInt32_int32_le.
Qed.

(** C4.  A blood-pressure payload is a flag byte followed by the systolic
    and the diastolic raw values as unsigned 16-bit little-endian integers
    (byte offsets 1 and 3): [parseBloodPressure] returns raw/10 for each, so
    raw 1200 and 800 (bytes B0 04 20 03) give 120 and 80 mmHg.
    [parseTemperature] returns the signed 32-bit little-endian raw value at
    offset 0 divided by 100. *)
Theorem parseBloodPressure_parseTemperature_scaling
    (flags : byte) (s d raw : Z) (rest : ArrayBuffer)
    (Hs : 0 <= s < 65536) (Hd : 0 <= d < 65536)
    (Hraw : -2147483648 <= raw < 2147483648) :
  parseBloodPressure (flags :: uint16_le s ++ uint16_le d ++ rest)
    = Normal (mkBloodPressure (inject_Z s / 10) (inject_Z d / 10))
  /\ parseTemperature (int32_le raw ++ rest) = Normal (inject_Z raw / 100)%Q
  /\ (exists bp,
        parseBloodPressure (flags :: [Byte.xb0; Byte.x04; Byte.x20; Byte.x03] ++ rest)
          = Normal bp
        /\ (systolic bp == 120)%Q /\ (diastolic bp == 80)%Q).
Proof.
  split; [now apply parseBloodPressure_layout|].
  split; [now apply parseTemperature_layout|].
  exists (mkBloodPressure (inject_Z 1200 / 10) (inject_Z 800 / 10)). split.
  - exact (parseBloodPressure_layout flags 1200 800 rest ltac:(lia) ltac:(lia)).
  - split; reflexivity.
Qed.

Lemma parseBloodPressure_parseTemperature_scaling_witness :
  parseBloodPressure [Byte.x00; Byte.xb0; Byte.x04; Byte.x20; Byte.x03]
    = Normal (mkBloodPressure (1200 # 10) (800 # 10))
  /\ parseTemperature [Byte.x42; Byte.x0e; Byte.x00; Byte.x00] = Normal (3650 # 100).
Proof.
  destruct (parseBloodPressure_parseTemperature_scaling
              Byte.x00 1200 800 3650 []
              ltac:(lia) ltac:(lia) ltac:(lia)) as [Hbp [Ht _]].
  split; [exact Hbp | exact Ht].
Defined.

(** ** The health-data context: history                                *)

Section History.
Import HealthContext.

Lemma fireTimers_history (now : Z) (c : Context) :
  historicalData (fireTimers now c) = historicalData c.
Proof. reflexivity. Qed.

Lemma checkForAlerts_history (now : Z) (data : HealthDataPacket) (c : Context) :
  historicalData (checkForAlerts now data c) = historicalData c.
Proof.
  unfold checkForAlerts. now destruct (0 <? List.length (alerts data))%nat.
Qed.

Lemma onHealthDataReceived_history (now : Z) (data : HealthDataPacket) (c : Context) :
  historicalData (onHealthDataReceived now data c)
  = appendHistory now data (historicalData c).
Proof.
  unfold onHealthDataReceived. now rewrite checkForAlerts_history.
Qed.

Lemma receive_snoc (rs : list (Z * HealthDataPacket)) (r : Z * HealthDataPacket)
    (c : Context) :
  receive (rs ++ [r]) c
  = handle (fst r) (Manager.onHealthDataReceived (snd r)) (receive rs c).
Proof.
  unfold receive. now rewrite fold_left_app.
Qed.

Lemma appendHistory_window (now : Z) (data : HealthDataPacket)
    (prev : list HistoricalData) :
  Forall (fun item => now - DAY < timestamp item) (appendHistory now data prev).
Proof.
  unfold appendHistory. apply Forall_forall. intros item Hin.
  apply filter_In in Hin. destruct Hin as [_ Hlt].
  now apply Z.ltb_lt in Hlt.
Qed.

Lemma history_window_aux
    (rs : list (Z * HealthDataPacket)) (now : Z) (data : HealthDataPacket)
    (c : Context) :
  Forall (fun item => now - DAY < timestamp item)
    (historicalData (receive (rs ++ [(now, data)]) c)).
Proof.
  rewrite receive_snoc. cbn [fst snd handle].
  rewrite onHealthDataReceived_history, fireTimers_history.
  apply appendHistory_window.
Qed.

(** C6.  For every sequence of readings, once the last one (arriving at
    [now]) has been appended, every retained entry has its timestamp within
    the 24 hours before [now]; nothing else is dropped: an entry of the
    previous history, or the new one, that lies in that window is retained
    (no cap on the count). *)
Theorem history_keeps_trailing_24_hours
    (rs : list (Z * HealthDataPacket)) (now : Z) (data : HealthDataPacket)
    (c : Context) :
  let before := receive rs c in
  let after := receive (rs ++ [(now, data)]) c in
  Forall (fun item => now - DAY < timestamp item) (historicalData after)
  /\ incl (filter (fun item => now - DAY <? timestamp item)
             (historicalData before ++ [entryOf data]))
          (historicalData after).
Proof.
  cbv zeta. split.
  - apply history_window_aux.
  - rewrite receive_snoc. cbn [fst snd handle].
    rewrite onHealthDataReceived_history, fireTimers_history.
    unfold appendHistory. apply incl_refl.
Qed.

(** The same window counted from the timestamp of the reading just
    appended, which is never later than the clock. *)
Lemma history_within_24_hours_of_latest
    (rs : list (Z * HealthDataPacket)) (now : Z) (data : HealthDataPacket)
    (c : Context) :
  Manager.timestamp data <= now ->
  Forall (fun item => Manager.timestamp data - DAY < timestamp item)
    (historicalData (receive (rs ++ [(now, data)]) c)).
Proof.
  intros Hclock.
  eapply Forall_impl; [|apply history_window_aux].
  cbv beta. intros item Hitem. lia.
Qed.

(** No retained entry is later than the clock, when no reading is stamped
    later than [T] and nothing in the history was. *)
Lemma history_timestamps_bounded
    (T : Z) (rs : list (Z * HealthDataPacket)) (c : Context) :
  Forall (fun r => Manager.timestamp (snd r) <= T) rs ->
  Forall (fun item => timestamp item <= T) (historicalData c) ->
  Forall (fun item => timestamp item <= T) (historicalData (receive rs c)).
Proof.
  revert c. induction rs as [|r rs IH]; intros c Hrs Hc; [exact Hc|].
  inversion Hrs as [|? ? Hr Hrest]; subst.
  unfold receive. cbn [fold_left]. apply IH; [exact Hrest|].
  cbn [handle]. rewrite onHealthDataReceived_history, fireTimers_history.
  unfold appendHistory. apply Forall_forall. intros item Hin.
  apply filter_In in Hin. destruct Hin as [Hin _].
  apply in_app_or in Hin. destruct Hin as [Hin|[<-|[]]].
  - revert item Hin. apply Forall_forall. exact Hc.
  - exact Hr.
Qed.

(** Readings every ten hours over thirty hours: when the last one is in, the
    one of hour 0 is gone and the three of the last 24 hours are kept. *)
Example history_over_30_hours :
  let hour := 3600000 in
  map timestamp
    (historicalData
       (receive [(0, Scenarios.healthy 0);
                 (10 * hour, Scenarios.healthy (10 * hour));
                 (20 * hour, Scenarios.healthy (20 * hour));
                 (30 * hour, Scenarios.healthy (30 * hour))]
          (initial 0)))
  = [10 * hour; 20 * hour; 30 * hour].
Proof. reflexivity. Qed.

End History.

(** ** The health-data context: the alert flag                         *)

Section Alerts.
Import HealthContext.

Lemma Qlt_bool_iff (x y : Q) : Qlt_bool x y = true <-> (x < y)%Q.
Proof.
  unfold Qlt_bool. rewrite negb_true_iff. split.
  - intros Hb. apply Qnot_le_lt. intros Hle.
    apply Qle_bool_iff in Hle. congruence.
  - intros Hlt. destruct (Qle_bool y x) eqn:E; [|reflexivity].
    apply Qle_bool_iff in E. exfalso. exact (Qlt_not_le _ _ Hlt E).
Qed.

(** [alerts.length > 0] says that one of the bounds is violated. *)
Lemma alerts_iff_boundViolated (data : HealthDataPacket) :
  (0 <? List.length (alerts data))%nat = true <-> boundViolated data.
Proof.
  unfold alerts, boundViolated. rewrite <- !Qlt_bool_iff.
  destruct (Qlt_bool (Manager.heartRate data) 60);
  destruct (Qlt_bool 100 (Manager.heartRate data));
  destruct (Qlt_bool 140 (Manager.bloodPressureSystolic data));
  destruct (Qlt_bool 90 (Manager.bloodPressureDiastolic data));
  destruct (Qlt_bool (Manager.temperature data) 36);
  destruct (Qlt_bool (75 # 2) (Manager.temperature data));
  destruct (Qlt_bool (Manager.oxygenLevel data) 95);
  cbn; intuition congruence.
Qed.

Lemma handle_reading_violated (now : Z) (data : HealthDataPacket) (c : Context) :
  boundViolated data ->
  hasAlerts (handle now (Manager.onHealthDataReceived data) c) = true
  /\ alertTimers (handle now (Manager.onHealthDataReceived data) c)
     = filter (fun t => negb (t <=? now)) (alertTimers c) ++ [now + 10000].
Proof.
  intros Hv. apply alerts_iff_boundViolated in Hv.
  unfold handle, onHealthDataReceived, checkForAlerts. rewrite Hv.
  split; reflexivity.
Qed.

Lemma handle_reading_within_bounds (now : Z) (data : HealthDataPacket) (c : Context) :
  ~ boundViolated data ->
  hasAlerts (handle now (Manager.onHealthDataReceived data) c)
    = hasAlerts (fireTimers now c)
  /\ alertTimers (handle now (Manager.onHealthDataReceived data) c)
     = alertTimers (fireTimers now c).
Proof.
  intros Hv. unfold handle, onHealthDataReceived, checkForAlerts.
  destruct (0 <? List.length (alerts data))%nat eqn:E.
  - apply alerts_iff_boundViolated in E. contradiction.
  - split; reflexivity.
Qed.

(** A later reading neither cancels nor postpones a pending clear. *)
Lemma handle_reading_keeps_timer (t now : Z) (data : HealthDataPacket) (c : Context) :
  now < t -> In t (alertTimers c) ->
  In t (alertTimers (handle now (Manager.onHealthDataReceived data) c)).
Proof.
  intros Hlt Hin.
  assert (Hkept : In t (alertTimers (fireTimers now c))).
  { cbn. apply filter_In. split; [exact Hin|].
    apply negb_true_iff, Z.leb_gt. exact Hlt. }
  unfold handle, onHealthDataReceived, checkForAlerts.
  destruct (0 <? List.length (alerts data))%nat; cbn [alertTimers].
  - apply in_or_app. left. exact Hkept.
  - exact Hkept.
Qed.

Lemma receive_keeps_timer (t : Z) (rs : list (Z * HealthDataPacket)) (c : Context) :
  Forall (fun r => fst r < t) rs -> In t (alertTimers c) ->
  In t (alertTimers (receive rs c)).
Proof.
  revert c. induction rs as [|r rs IH]; intros c Hall Hin; [exact Hin|].
  inversion Hall as [|? ? Hr Hrs]; subst.
  unfold receive. cbn [fold_left]. apply IH; [exact Hrs|].
  now apply handle_reading_keeps_timer.
Qed.

(** When a pending clear is due the flag is off. *)
Lemma due_timer_clears (t now : Z) (c : Context) :
  In t (alertTimers c) -> t <= now -> hasAlertsAt now c = false.
Proof.
  intros Hin Hdue. unfold hasAlertsAt, fireTimers. cbn [hasAlerts].
  destruct (filter (fun t0 => t0 <=? now) (alertTimers c)) as [|d ds] eqn:E;
    [|reflexivity].
  assert (Hf : In t (filter (fun t0 => t0 <=? now) (alertTimers c))).
  { apply filter_In. split; [exact Hin|]. now apply Z.leb_le. }
  rewrite E in Hf. destruct Hf.
Qed.

End Alerts.

Section AlertFlag.
Import HealthContext.

(** C5, as the code has it.  A reading that violates one of the clinical
    bounds sets the alert flag and schedules a clear 10 seconds after that
    reading.  The clear is neither cancelled nor postponed by the readings
    that follow: whatever arrives in between, violating or not, the flag is
    off when the 10 seconds of that reading are over. *)
Theorem alert_flag_cleared_10s_after_each_violation
    (c : Context) (now : Z) (data : HealthDataPacket)
    (later : list (Z * HealthDataPacket))
    (Hviolated : boundViolated data)
    (Hlater : Forall (fun r => fst r < now + 10000) later) :
  hasAlerts (handle now (Manager.onHealthDataReceived data) c) = true
  /\ hasAlertsAt (now + 10000)
       (receive later (handle now (Manager.onHealthDataReceived data) c)) = false.
Proof.
  destruct (handle_reading_violated now data c Hviolated) as [Hset Htimers].
  split; [exact Hset|].
  apply due_timer_clears with (t := now + 10000); [|lia].
  apply receive_keeps_timer; [exact Hlater|].
  rewrite Htimers. apply in_or_app. right. now left.
Qed.

Lemma alert_flag_cleared_10s_after_each_violation_witness :
  hasAlerts (handle 0 (Manager.onHealthDataReceived (Scenarios.lowOxygen 0))
               (initial 0)) = true
  /\ hasAlertsAt 10000
       (receive [(5000, Scenarios.lowOxygen 5000)]
          (handle 0 (Manager.onHealthDataReceived (Scenarios.lowOxygen 0))
             (initial 0))) = false.
Proof.
  apply (alert_flag_cleared_10s_after_each_violation
           (initial 0) 0 (Scenarios.lowOxygen 0) [(5000, Scenarios.lowOxygen 5000)]).
  - apply alerts_iff_boundViolated. reflexivity.
  - repeat constructor.
Defined.

(** The claim of C5 fails where a violating reading follows another within
    10 seconds: with oxygen at 90 % read at 0 s and at 5 s, the flag is set
    at 9.999 s and off at 12 s, 7 seconds after the last reading that set
    it, because the clear scheduled by the first reading fired at 10 s. *)
Lemma alert_flag_off_7s_after_last_violation :
  let readings := [(0, Scenarios.lowOxygen 0); (5000, Scenarios.lowOxygen 5000)] in
  (0 <? List.length (alerts (Scenarios.lowOxygen 5000)))%nat = true
  /\ hasAlertsAt 9999 (receive readings (initial 0)) = true
  /\ hasAlertsAt 12000 (receive readings (initial 0)) = false.
Proof. cbv zeta. repeat split. Qed.

(** With no clear pending from an earlier reading, the flag set by a
    violating reading does stay for the 10 seconds. *)
Lemma alert_flag_lasts_10s_without_pending_clear
    (c : Context) (now u : Z) (data : HealthDataPacket) :
  boundViolated data ->
  filter (fun t => negb (t <=? now)) (alertTimers c) = [] ->
  now <= u < now + 10000 ->
  hasAlertsAt u (handle now (Manager.onHealthDataReceived data) c) = true.
Proof.
  intros Hv Hnone Hu.
  destruct (handle_reading_violated now data c Hv) as [Hset Htimers].
  unfold hasAlertsAt, fireTimers. cbn [hasAlerts].
  rewrite Htimers, Hnone. cbn [app filter].
  destruct (Z.leb_spec (now + 10000) u); [lia|exact Hset].
Qed.

Lemma orZero_None_violates (h : Manager.PartialPacket) (now : Z) (m : Manager.Manager) :
  Manager.p_heartRate h = None \/ Manager.p_temperature h = None
    \/ Manager.p_oxygenLevel h = None ->
  boundViolated (Manager.makePacket h now m).
Proof.
  unfold boundViolated, Manager.makePacket.
  cbn [Manager.heartRate Manager.temperature Manager.oxygenLevel
       Manager.bloodPressureSystolic Manager.bloodPressureDiastolic].
  intros [H|[H|H]]; rewrite H; cbn [Manager.orZero].
  - left. reflexivity.
  - do 4 right. left. reflexivity.
  - do 6 right. reflexivity.
Qed.

(** C10.  A packet built from a partial reading that lacks the heart-rate,
    the temperature or the oxygen-saturation key carries 0 there, 0 violates
    the bound of that vital, and the context sets the alert flag when the
    packet reaches it. *)
Theorem missing_vital_sets_alert
    (h : Manager.PartialPacket) (now : Z) (m : Manager.Manager)
    (arrival : Z) (c : Context)
    (Hmissing : Manager.p_heartRate h = None \/ Manager.p_temperature h = None
                \/ Manager.p_oxygenLevel h = None) :
  boundViolated (Manager.makePacket h now m)
  /\ hasAlerts (handle arrival
                  (Manager.onHealthDataReceived (Manager.makePacket h now m)) c)
     = true.
Proof.
  pose proof (orZero_None_violates h now m Hmissing) as Hv.
  split; [exact Hv|].
  now apply handle_reading_violated.
Qed.

Lemma missing_vital_sets_alert_witness :
  let h := Manager.mkPartial (Some 72%Q) None None None None None in
  hasAlerts (handle 1500
               (Manager.onHealthDataReceived
                  (Manager.makePacket h 1500 Scenarios.connectedManager))
               (initial 0)) = true.
Proof.
  cbv zeta.
  apply (missing_vital_sets_alert
           (Manager.mkPartial (Some 72%Q) None None None None None)
           1500 Scenarios.connectedManager 1500 (initial 0)).
  right. left. reflexivity.
Defined.

End AlertFlag.

(** ** The manager: scanning, disconnecting, notifications             *)

Section ManagerMethods.
Import Js Manager.

(** Unfolds a method body down to the state it builds. *)
Ltac run_js :=
  cbv beta iota zeta delta
    [exec throws fst snd ret bind throw try_catch get modify settle settle_value
     emit console_log setTimeout platform platform_value setConnectionState
     ConnectionState_eqb negb
     startScanning stopScanning checkPermissions requestPermissions
     connectToDevice setupHealthDataNotifications disconnectFromDevice
     connectedDeviceId handleCharacteristicValue
     set_connectionState set_connectedDevice set_scanSubscription set_isScanning
     set_reconnectAttempts set_reconnectTimeout set_valueListeners set_timers
     set_calls set_bus set_console
     connectionState connectedDevice scanSubscription isScanning
     reconnectAttempts reconnectTimeout valueListeners timers calls bus console
     subscriptionRemove stopScanningAsync uuid value
     android permissionCheck permissionRequest startScanningAsync
     connectToDeviceAsync discoverAllServicesAndCharacteristicsAsync
     startNotificationsAsync].

(** [stopScanning] never throws. *)
Lemma stopScanning_never_throws (env : StopEnv) (m : Manager) :
  throws (stopScanning env) m = false.
Proof.
  destruct m as [st dev sub sc ra rt vl ts cs b co].
  destruct env as [[e1|] [e2|]]; destruct sub; destruct st; reflexivity.
Qed.

(** [stopScanning] changes the Connection State only from 'scanning', and
    then to 'disconnected'. *)
Lemma stopScanning_state (env : StopEnv) (m : Manager) :
  connectionState (exec (stopScanning env) m) = connectionState m
  \/ (connectionState m = scanning
      /\ connectionState (exec (stopScanning env) m) = disconnected).
Proof.
  destruct m as [st dev sub sc ra rt vl ts cs b co].
  destruct env as [[e1|] [e2|]]; destruct sub; destruct st;
    run_js; auto.
Qed.

(** When the platform calls of [stopScanning] succeed: no scan is going on
    any more and 'scanning' has become 'disconnected'. *)
Lemma stopScanning_success (m : Manager) :
  let m1 := exec (stopScanning (mkStopEnv None None)) m in
  isScanning m1 = false /\ scanSubscription m1 = false
  /\ connectionState m1
     = match connectionState m with
       | scanning => disconnected
       | st => st
       end.
Proof.
  destruct m as [st dev sub sc ra rt vl ts cs b co].
  destruct sub; destruct st; run_js; auto.
Qed.

(** When a platform call of [stopScanning] fails: the failure is logged
    and emitted, and the Connection State stays. *)
Lemma stopScanning_failure (env : StopEnv) (e : Error) (m : Manager) :
  stopScanningAsync env = Some e ->
  subscriptionRemove env = None ->
  let m1 := exec (stopScanning env) m in
  connectionState m1 = connectionState m
  /\ isScanning m1 = isScanning m
  /\ bus m1 = bus m ++ [onError e]
  /\ console m1 = console m ++ ["Error stopping Bluetooth scan:"%string].
Proof.
  destruct m as [st dev sub sc ra rt vl ts cs b co].
  destruct env as [r s]. cbn [stopScanningAsync subscriptionRemove].
  intros -> ->. destruct sub; run_js; auto.
Qed.

(** C8, as the code has it.  [stopScanning] never throws and changes the
    Connection State only from 'scanning' to 'disconnected'.  When the
    platform calls of the first of two calls in a row succeed, 'scanning'
    has become 'disconnected', any other state is as it was, and the second
    call (also one made by the scan timer), whatever the platform answers,
    does not throw and leaves the Connection State as the first call left
    it. *)
Theorem stopScanning_idempotent (m : Manager) (env1 env2 : StopEnv) :
  let m1 := exec (stopScanning env1) m in
  let m2 := exec (stopScanning env2) m1 in
  throws (stopScanning env1) m = false
  /\ throws (stopScanning env2) m1 = false
  /\ (connectionState m1 = connectionState m
      \/ (connectionState m = scanning /\ connectionState m1 = disconnected))
  /\ (subscriptionRemove env1 = None -> stopScanningAsync env1 = None ->
      connectionState m1
        = match connectionState m with
          | scanning => disconnected
          | st => st
          end
      /\ connectionState m2 = connectionState m1).
Proof.
  cbv zeta.
  split; [apply stopScanning_never_throws|].
  split; [apply stopScanning_never_throws|].
  split; [apply stopScanning_state|].
  intros H1 H2. destruct env1 as [r1 s1].
  cbn [subscriptionRemove stopScanningAsync] in H1, H2. subst r1 s1.
  destruct (stopScanning_success m) as [_ [_ Hst]]. cbv zeta in Hst.
  split; [exact Hst|].
  destruct (stopScanning_state env2 (exec (stopScanning (mkStopEnv None None)) m))
    as [Hsame|[Hscan _]]; [exact Hsame|].
  rewrite Hst in Hscan. destruct (connectionState m); discriminate.
Qed.

Lemma stopScanning_idempotent_witness :
  let scan := step (CallStartScanning 15000 Scenarios.scanOk) initial in
  connectionState scan = scanning
  /\ connectionState (exec (stopScanning Scenarios.stopOk) scan) = disconnected
  /\ connectionState
       (exec (stopScanning Scenarios.stopFails)
          (exec (stopScanning Scenarios.stopOk) scan)) = disconnected.
Proof.
  cbv zeta.
  destruct (stopScanning_idempotent
              (step (CallStartScanning 15000 Scenarios.scanOk) initial)
              Scenarios.stopOk Scenarios.stopFails)
    as [_ [_ [_ H]]].
  destruct (H eq_refl eq_refl) as [H1 H2].
  split; [reflexivity|].
  split; [exact H1|].
  rewrite H2. exact H1.
Defined.

(** The claim of C8 fails when the platform's stop-scan call rejects: the
    manager scans, [stopScanning] is called twice in a row, neither call
    throws, and the Connection State is still 'scanning'. *)
Lemma stopScanning_twice_still_scanning :
  let scan := step (CallStartScanning 15000 Scenarios.scanOk) initial in
  let m1 := exec (stopScanning Scenarios.stopFails) scan in
  let m2 := exec (stopScanning Scenarios.stopFails) m1 in
  connectionState scan = scanning
  /\ throws (stopScanning Scenarios.stopFails) scan = false
  /\ throws (stopScanning Scenarios.stopFails) m1 = false
  /\ connectionState m2 = scanning
  /\ connectionState m2 <> disconnected.
Proof. cbv zeta. repeat split. discriminate. Qed.

(** *** Disconnecting *)

(** With no Connected Device, [disconnectFromDevice] does nothing. *)
Lemma disconnectFromDevice_noop (settles : option Error) (m : Manager) :
  connectedDevice m = None ->
  disconnectFromDevice settles m = (Normal tt, m).
Proof.
  destruct m as [st dev sub sc ra rt vl ts cs b co]. cbn [connectedDevice].
  intros ->. reflexivity.
Qed.

(** C7.  The manager of [manager.ts], a device connected and the transport
    closing the connection as asked: [disconnectFromDevice] returns, clears
    the Connected Device, reaches 'disconnected' through 'disconnecting',
    makes one platform call (the disconnect: no characteristic listener or
    subscription is removed first, the listeners stay), and the
    [onDeviceDisconnected] event it emits carries the empty string, not the
    identifier of the device. *)
Theorem disconnectFromDevice_event_without_identifier
    (m : Manager) (device : ConnectedDevice)
    (Hdevice : connectedDevice m = Some device) :
  let m' := exec (disconnectFromDevice None) m in
  throws (disconnectFromDevice None) m = false
  /\ connectedDevice m' = None
  /\ connectionState m' = disconnected
  /\ calls m' = calls m ++ [DisconnectFromDeviceAsync (id device)]
  /\ valueListeners m' = valueListeners m
  /\ bus m' = bus m ++ changeEvents (connectionState m) disconnecting
                    ++ [onConnectionStateChanged disconnected;
                        onDeviceDisconnected ""].
Proof.
  destruct m as [st dev sub sc ra rt vl ts cs b co].
  cbn [connectedDevice] in Hdevice. subst dev.
  destruct st; run_js; unfold changeEvents; cbn [ConnectionState_eqb app];
    rewrite <- ?app_assoc; repeat split.
Qed.

Lemma disconnectFromDevice_event_without_identifier_witness :
  let m' := exec (disconnectFromDevice None) Scenarios.connectedManager in
  connectedDevice m' = None
  /\ bus m' = bus Scenarios.connectedManager
              ++ [onConnectionStateChanged disconnecting;
                  onConnectionStateChanged disconnected;
                  onDeviceDisconnected ""].
Proof.
  cbv zeta.
  destruct (disconnectFromDevice_event_without_identifier
              Scenarios.connectedManager
              (mkConnectedDevice "bracelet-1" "Health Monitor" true [] [] 1000)
              eq_refl)
    as [_ [Hdev [_ [_ [_ Hbus]]]]].
  split; [exact Hdev | exact Hbus].
Defined.

(** When the transport fails to close the connection the manager of
    [manager.ts] keeps the Connected Device, goes to 'error', emits the
    error and rethrows it. *)
Lemma disconnectFromDevice_failure (m : Manager) (device : ConnectedDevice) (e : Error) :
  connectedDevice m = Some device ->
  let m' := exec (disconnectFromDevice (Some e)) m in
  throws (disconnectFromDevice (Some e)) m = true
  /\ connectedDevice m' = Some device
  /\ connectionState m' = error
  /\ bus m' = bus m ++ changeEvents (connectionState m) disconnecting
                    ++ [onConnectionStateChanged error; onError e].
Proof.
  destruct m as [st dev sub sc ra rt vl ts cs b co].
  cbn [connectedDevice]. intros ->.
  destruct st; run_js; unfold changeEvents; cbn [ConnectionState_eqb app];
    rewrite <- ?app_assoc; repeat split.
Qed.

(** The ble-plx manager: every subscription of the Map is removed, in
    order, before the transport is asked to close the connection. *)
Lemma BlePlx_removeAll_calls (keys : list string) (m : BlePlx.Manager) :
  BlePlx.removeAll (fun _ => None) keys m
  = (Normal tt,
     BlePlx.set_calls (BlePlx.calls m ++ map BlePlx.SubscriptionRemove keys) m).
Proof.
  revert m. induction keys as [|key keys IH]; intros m.
  - destruct m. cbn. now rewrite app_nil_r.
  - cbn [BlePlx.removeAll map].
    unfold bind at 1. unfold BlePlx.platform at 1.
    unfold bind at 1. unfold modify, settle, ret.
    rewrite IH. destruct m. cbn. now rewrite <- app_assoc.
Qed.

(** The ble-plx manager does what C7 says when the platform calls succeed:
    the subscriptions are removed before the connection is closed, the
    Connected Device is cleared, the state is 'disconnected' and the event
    carries the identifier of the device. *)
Lemma BlePlx_disconnectFromDevice_success
    (m : BlePlx.Manager) (device : ConnectedDevice) :
  BlePlx.connectedDevice m = Some device ->
  let m' := exec (BlePlx.disconnectFromDevice (fun _ => None) None) m in
  throws (BlePlx.disconnectFromDevice (fun _ => None) None) m = false
  /\ BlePlx.connectedDevice m' = None
  /\ BlePlx.notificationSubscriptions m' = []
  /\ BlePlx.connectionState m' = disconnected
  /\ BlePlx.calls m'
     = BlePlx.calls m
       ++ map BlePlx.SubscriptionRemove (BlePlx.notificationSubscriptions m)
       ++ [BlePlx.CancelDeviceConnection (id device)]
  /\ BlePlx.bus m'
     = BlePlx.bus m ++ changeEvents (BlePlx.connectionState m) disconnecting
       ++ [onConnectionStateChanged disconnected;
           onDeviceDisconnected (id device)].
Proof.
  destruct m as [st dev subs cs b co]. cbn [BlePlx.connectedDevice]. intros ->.
  destruct st;
    cbv beta iota zeta delta
      [exec throws fst snd ret bind throw try_catch get modify settle
       BlePlx.disconnectFromDevice BlePlx.setConnectionState BlePlx.emit
       BlePlx.platform BlePlx.console_log ConnectionState_eqb negb
       BlePlx.set_connectionState BlePlx.set_connectedDevice
       BlePlx.set_notificationSubscriptions BlePlx.set_calls BlePlx.set_bus
       BlePlx.connectionState BlePlx.connectedDevice
       BlePlx.notificationSubscriptions BlePlx.calls BlePlx.bus BlePlx.console];
    rewrite BlePlx_removeAll_calls;
    cbv beta iota zeta delta
      [BlePlx.set_calls BlePlx.connectionState BlePlx.connectedDevice
       BlePlx.notificationSubscriptions BlePlx.calls BlePlx.bus BlePlx.console
       fst snd changeEvents ConnectionState_eqb];
    cbn [app]; rewrite <- ?app_assoc; repeat split.
Qed.

(** *** Characteristic values *)

(** What a call of the listener does, by cases on the notification. *)
Lemma handleCharacteristicValue_cases (now : Z) (ch : Characteristic) (m : Manager) :
  handleCharacteristicValue now ch m
  = (Normal tt,
     match value ch with
     | None => m
     | Some payload =>
         match parseCharacteristic (uuid ch) payload with
         | Normal h =>
             if (0 <? keys h)%nat
             then set_bus (bus m ++ [onHealthDataReceived (makePacket h now m)]) m
             else m
         | Thrown e =>
             set_bus (bus m ++ [onError e])
               (set_console
                  (console m ++ ["Error handling characteristic value:"%string]) m)
         end
     end).
Proof.
  destruct ch as [u [payload|]]; [|reflexivity].
  run_js. destruct (parseCharacteristic u payload) as [h|e]; [|reflexivity].
  destruct (0 <? keys h)%nat; reflexivity.
Qed.

(** No exception leaves the listener. *)
Lemma handleCharacteristicValue_never_throws
    (now : Z) (ch : Characteristic) (m : Manager) :
  throws (handleCharacteristicValue now ch) m = false.
Proof.
  unfold throws. now rewrite handleCharacteristicValue_cases.
Qed.

(** The only failure of a parser is a read outside the buffer. *)
Lemma parseCharacteristic_thrown (u : string) (payload : ArrayBuffer) (e : Error) :
  parseCharacteristic u payload = Thrown e -> e = RangeError.
Proof.
  unfold parseCharacteristic, parseHeartRate, parseBloodPressure, parseTemperature,
    parseOxygenSaturation, parseBatteryLevel, bindC, getUint8, getUint16, getInt32.
  repeat match goal with
         | |- context [String.eqb ?a ?b] => destruct (String.eqb a b)
         | |- context [nth_error ?l ?n] => destruct (nth_error l n)
         | |- context [negb ?b] => destruct (negb b)
         end; congruence.
Qed.

(** C9, as the code has it.  A notification whose payload makes its parser
    throw (a read outside the buffer) is swallowed by the listener: the
    failure is logged and emitted as an [onError] event, no vitals reading
    is emitted for that notification (not even one without the field),
    nothing else changes in the manager, and no exception leaves the
    listener. *)
Theorem malformed_payload_is_reported_not_emitted
    (now : Z) (ch : Characteristic) (m : Manager)
    (payload : ArrayBuffer) (e : Error)
    (Hvalue : value ch = Some payload)
    (Hparse : parseCharacteristic (uuid ch) payload = Thrown e) :
  let m' := exec (handleCharacteristicValue now ch) m in
  throws (handleCharacteristicValue now ch) m = false
  /\ m' = set_bus (bus m ++ [onError e])
            (set_console
               (console m ++ ["Error handling characteristic value:"%string]) m)
  /\ filter isHealthData (bus m') = filter isHealthData (bus m).
Proof.
  cbv zeta. split; [apply handleCharacteristicValue_never_throws|].
  unfold exec. rewrite handleCharacteristicValue_cases, Hvalue, Hparse.
  cbn [snd]. split; [reflexivity|].
  destruct m. cbn [bus set_bus set_console].
  rewrite filter_app. cbn. now rewrite app_nil_r.
Qed.

Lemma malformed_payload_is_reported_not_emitted_witness :
  let m' := exec (handleCharacteristicValue 2000 Scenarios.heartRateTruncated)
              Scenarios.connectedManager in
  bus m' = bus Scenarios.connectedManager ++ [onError RangeError]
  /\ console m' = ["Error handling characteristic value:"%string].
Proof.
  cbv zeta.
  destruct (malformed_payload_is_reported_not_emitted
              2000 Scenarios.heartRateTruncated Scenarios.connectedManager
              [Byte.x01; Byte.x48] RangeError eq_refl eq_refl)
    as [_ [Hm _]].
  rewrite Hm. split; reflexivity.
Defined.

(** The claim of C9 fails on a heart-rate notification that announces a
    16-bit value and carries one byte of it: the step emits the error and
    no reading at all, where the claim has a reading emitted without the
    heart-rate field. *)
Lemma malformed_payload_emits_no_reading :
  let m := Scenarios.connectedManager in
  let m' := step (CharacteristicValueChanged 2000 Scenarios.heartRateTruncated) m in
  connectionState m = connected
  /\ valueListeners m = 1%nat
  /\ bus m' = bus m ++ [onError RangeError]
  /\ packetsEmitted (CharacteristicValueChanged 2000 Scenarios.heartRateTruncated) m
     = [].
Proof. cbv zeta. repeat split. Qed.

(** *** Reconnecting *)

Lemma takeReconnectTimer_snoc (ts : list Timer) (ms : Z) :
  takeReconnectTimer ts = None ->
  takeReconnectTimer (ts ++ [ReconnectTimer ms]) = Some (ms, ts).
Proof.
  induction ts as [|t ts IH]; intros Hnone; [reflexivity|].
  destruct t as [d|d]; cbn in Hnone |- *.
  - destruct (takeReconnectTimer ts) as [[? ?]|]; [discriminate|].
    now rewrite IH.
  - discriminate.
Qed.

Lemma connectAttempts_snoc (cs : list PlatformCall) (c : PlatformCall) :
  List.length (filter isConnectAttempt (cs ++ [c]))
  = (List.length (filter isConnectAttempt cs)
     + if isConnectAttempt c then 1 else 0)%nat.
Proof.
  rewrite filter_app, length_app. cbn [filter].
  destruct (isConnectAttempt c); reflexivity.
Qed.

(** The attempts are used up: no connect, no timer, 'disconnected'. *)
Lemma attemptReconnect_exhausted (now : Z) (env : ConnectEnv) (m : Manager) :
  maxReconnectAttempts <= reconnectAttempts m ->
  let m' := exec (attemptReconnect now env) m in
  throws (attemptReconnect now env) m = false
  /\ connectionState m' = disconnected
  /\ timers m' = timers m
  /\ calls m' = calls m
  /\ reconnectAttempts m' = reconnectAttempts m.
Proof.
  intros Hmax. apply Z.leb_le in Hmax.
  destruct m as [st dev sub sc ra rt vl ts cs b co].
  cbn [reconnectAttempts] in Hmax.
  unfold attemptReconnect. run_js. rewrite Hmax.
  destruct st; repeat split.
Qed.

(** An attempt that fails: one connect, the state 'error', and a timer of
    [2^attempt] seconds, the Connected Device kept. *)
Lemma attemptReconnect_failed
    (now : Z) (env : ConnectEnv) (m : Manager) (device : ConnectedDevice) :
  reconnectAttempts m < maxReconnectAttempts ->
  connectedDevice m = Some device ->
  connectFails env = true ->
  let m' := exec (attemptReconnect now env) m in
  throws (attemptReconnect now env) m = false
  /\ connectionState m' = error
  /\ connectedDevice m' = Some device
  /\ reconnectAttempts m' = reconnectAttempts m + 1
  /\ timers m' = timers m ++ [ReconnectTimer (2 ^ (reconnectAttempts m + 1) * 1000)]
  /\ connectAttempts m' = S (connectAttempts m).
Proof.
  intros Hlt Hdev Hfail. apply Z.leb_gt in Hlt.
  destruct m as [st dev sub sc ra rt vl ts cs b co].
  cbn [reconnectAttempts connectedDevice] in Hlt, Hdev. subst dev.
  destruct env as [[e1|] [found|e2] n]; try discriminate Hfail;
    unfold attemptReconnect, connectAttempts; run_js; rewrite Hlt;
    destruct st; cbn [calls];
    rewrite ?connectAttempts_snoc; cbn [isConnectAttempt];
    repeat split; lia.
Qed.

(** An attempt that connects: one connect, the count back to zero,
    'connected', no timer. *)
Lemma attemptReconnect_connected
    (now : Z) (env : ConnectEnv) (m : Manager) (device : ConnectedDevice) :
  reconnectAttempts m < maxReconnectAttempts ->
  connectedDevice m = Some device ->
  connectFails env = false ->
  let m' := exec (attemptReconnect now env) m in
  throws (attemptReconnect now env) m = false
  /\ connectionState m' = connected
  /\ reconnectAttempts m' = 0
  /\ timers m' = timers m
  /\ connectAttempts m' = S (connectAttempts m).
Proof.
  intros Hlt Hdev Hfail. apply Z.leb_gt in Hlt.
  destruct m as [st dev sub sc ra rt vl ts cs b co].
  cbn [reconnectAttempts connectedDevice] in Hlt, Hdev. subst dev.
  destruct env as [[e1|] [found|e2] [e3|]]; try discriminate Hfail;
    unfold attemptReconnect, connectAttempts; run_js; rewrite Hlt;
    destruct st; cbn [calls];
    rewrite ?connectAttempts_snoc; cbn [isConnectAttempt];
    repeat split; lia.
Qed.

Lemma backoff_cons (k n : nat) :
  backoff k (S n) = 2 ^ (Z.of_nat k + 1) * 1000 :: backoff (S k) n.
Proof.
  unfold backoff. cbn [seq map]. now rewrite Nat2Z.inj_succ.
Qed.

(** The loop from [k] attempts made, [n] left. *)
Lemma reconnectLoop_spec (n : nat) :
  forall (k fuel : nat) (env : Z -> ConnectEnv) (now : Z) (m : Manager)
         (device : ConnectedDevice),
    (k + n = 3)%nat ->
    reconnectAttempts m = Z.of_nat k ->
    connectedDevice m = Some device ->
    takeReconnectTimer (timers m) = None ->
    (n < fuel)%nat ->
    let r := reconnectLoop fuel env now m in
    threw r = false
    /\ settled r = true
    /\ (connectAttempts (final r) <= connectAttempts m + n)%nat
    /\ (exists rest, delays r ++ rest = backoff k n)
    /\ ((forall i, connectFails (env i) = true) ->
        delays r = backoff k n
        /\ connectAttempts (final r) = (connectAttempts m + n)%nat
        /\ connectionState (final r) = disconnected).
Proof.
  induction n as [|n IH]; intros k fuel env now m device Hkn Hk Hdev Hnone Hfuel;
    (destruct fuel as [|fuel]; [lia|]); cbv zeta; cbn [reconnectLoop].
  - (* every attempt is used up *)
    destruct (attemptReconnect_exhausted now (env (reconnectAttempts m + 1)) m)
      as [Hthrow [Hst [Hts [Hcs _]]]];
      [unfold maxReconnectAttempts; lia|].
    unfold exec, throws in Hthrow, Hst, Hts, Hcs.
    destruct (attemptReconnect now (env (reconnectAttempts m + 1)) m) as [o m1].
    cbn [fst snd] in Hthrow, Hst, Hts, Hcs.
    rewrite Hts, Hnone. cbn [threw settled final delays].
    unfold connectAttempts. rewrite Hcs.
    destruct o; [|discriminate Hthrow].
    split; [reflexivity|]. split; [reflexivity|]. split; [lia|].
    split; [now exists []|].
    intros _. split; [reflexivity|]. split; [lia|exact Hst].
  - destruct (connectFails (env (reconnectAttempts m + 1))) eqn:Hanswer.
    + (* the attempt fails: wait, then go on *)
      destruct (attemptReconnect_failed now (env (reconnectAttempts m + 1)) m device)
        as [Hthrow [_ [Hdev1 [Hra1 [Hts1 Hca1]]]]];
        try assumption; [unfold maxReconnectAttempts; lia|].
      unfold exec, throws in Hthrow, Hdev1, Hra1, Hts1, Hca1.
      destruct (attemptReconnect now (env (reconnectAttempts m + 1)) m) as [o m1].
      cbn [fst snd] in Hthrow, Hdev1, Hra1, Hts1, Hca1.
      rewrite Hts1, (takeReconnectTimer_snoc _ _ Hnone).
      specialize (IH (S k) fuel env
                    (now + 2 ^ (reconnectAttempts m + 1) * 1000)
                    (set_timers (timers m) m1) device).
      destruct IH as [IHthrow [IHsettled [IHbound [[rest IHprefix] IHfail]]]];
        try lia.
      { destruct m1; cbn in *. lia. }
      { destruct m1; exact Hdev1. }
      { destruct m1; exact Hnone. }
      assert (Hca2 : connectAttempts (set_timers (timers m) m1)
                     = S (connectAttempts m))
        by (destruct m1; exact Hca1).
      rewrite Hca2 in IHbound, IHfail.
      cbn [threw settled final delays].
      rewrite IHthrow, IHsettled, backoff_cons, <- Hk.
      destruct o; [|discriminate Hthrow]. cbn [orb].
      split; [reflexivity|]. split; [reflexivity|]. split; [lia|].
      split; [exists rest; cbn [app]; now rewrite IHprefix|].
      intros Hall. destruct (IHfail Hall) as [Hd [Hc Hs]].
      split; [now rewrite Hd|]. split; [lia|exact Hs].
    + (* the attempt connects: the loop is over *)
      destruct (attemptReconnect_connected now (env (reconnectAttempts m + 1)) m device)
        as [Hthrow [_ [_ [Hts1 Hca1]]]];
        try assumption; [unfold maxReconnectAttempts; lia|].
      unfold exec, throws in Hthrow, Hts1, Hca1.
      destruct (attemptReconnect now (env (reconnectAttempts m + 1)) m) as [o m1].
      cbn [fst snd] in Hthrow, Hts1, Hca1.
      rewrite Hts1, Hnone. cbn [threw settled final delays].
      destruct o; [|discriminate Hthrow].
      split; [reflexivity|]. split; [reflexivity|]. split; [lia|].
      split; [exists (backoff k (S n)); reflexivity|].
      intros Hall. specialize (Hall (reconnectAttempts m + 1)). congruence.
Qed.



(** *** Readings and the Connection State *)

Lemma quiet_no_reading (l : list Event) (data : HealthDataPacket) (post : list Event)
    (new : list Event) :
  filter isHealthData new = [] -> new <> l ++ onHealthDataReceived data :: post.
Proof.
  intros Hq ->. rewrite filter_app in Hq. cbn in Hq.
  apply app_eq_nil in Hq. destruct Hq as [_ Hq]. discriminate.
Qed.

(** Events without a reading keep the property. *)
Lemma readingsFollowConnected_quiet (b new : list Event) :
  readingsFollowConnected b ->
  filter isHealthData new = [] ->
  readingsFollowConnected (b ++ new).
Proof.
  intros Hb Hq pre data post Heq.
  apply app_eq_app in Heq. destruct Heq as [l [[Hpre Hnew]|[Hpre Hnew]]].
  - destruct l as [|x l].
    + cbn in Hnew. symmetry in Hnew.
      exfalso. exact (quiet_no_reading [] data post new Hq Hnew).
    + injection Hnew as Hx _. subst x. apply (Hb pre data l). exact Hpre.
  - exfalso. exact (quiet_no_reading l data post new Hq Hnew).
Qed.

(** Once 'connected' has been announced, any events keep the property. *)
Lemma readingsFollowConnected_seen (b new : list Event) :
  readingsFollowConnected b ->
  In (onConnectionStateChanged connected) b ->
  readingsFollowConnected (b ++ new).
Proof.
  intros Hb Hseen pre data post Heq.
  apply app_eq_app in Heq. destruct Heq as [l [[Hpre Hnew]|[Hpre Hnew]]].
  - destruct l as [|x l].
    + rewrite app_nil_r in Hpre. now subst pre.
    + injection Hnew as Hx _. subst x. apply (Hb pre data l). exact Hpre.
  - subst pre. apply in_or_app. now left.
Qed.

(** Closes [quiet m m'] once both states are computed. *)
Ltac quiet_method :=
  unfold quiet; run_js; cbn [app]; rewrite <- ?app_assoc;
  first
    [ eexists; split; [reflexivity|]
    | exists []; split; [now rewrite app_nil_r|] ];
  split; [reflexivity|];
  first [ left; reflexivity | right; cbn [In app]; tauto ].

Lemma startScanning_quiet (timeout : Z) (env : ScanEnv) (m : Manager) :
  quiet m (exec (startScanning timeout env) m).
Proof.
  destruct m as [st dev sub sc ra rt vl ts cs b co].
  destruct env as [[|] [[|]|e1] [[|]|e2] [e3|]]; destruct sc; destruct st;
    quiet_method.
Qed.

Lemma stopScanning_quiet (env : StopEnv) (m : Manager) :
  quiet m (exec (stopScanning env) m).
Proof.
  destruct m as [st dev sub sc ra rt vl ts cs b co].
  destruct env as [[e1|] [e2|]]; destruct sub; destruct st; quiet_method.
Qed.

Lemma connectToDevice_quiet (deviceId : string) (now : Z) (env : ConnectEnv)
    (m : Manager) :
  quiet m (exec (connectToDevice deviceId now env) m).
Proof.
  destruct m as [st dev sub sc ra rt vl ts cs b co].
  destruct env as [[e1|] [found|e2] [e3|]]; destruct st; quiet_method.
Qed.

Lemma disconnectFromDevice_quiet (settles : option Error) (m : Manager) :
  quiet m (exec (disconnectFromDevice settles) m).
Proof.
  destruct m as [st [device|] sub sc ra rt vl ts cs b co];
    destruct settles as [e|]; destruct st; quiet_method.
Qed.

Lemma attemptReconnect_quiet (now : Z) (env : ConnectEnv) (m : Manager) :
  quiet m (exec (attemptReconnect now env) m).
Proof.
  destruct m as [st [device|] sub sc ra rt vl ts cs b co];
    unfold attemptReconnect; run_js;
    destruct (maxReconnectAttempts <=? ra);
    destruct env as [[e1|] [found|e2] [e3|]]; destruct st; quiet_method.
Qed.

(** One call of the listener appends events and leaves the listeners. *)
Lemma handleCharacteristicValue_bus (now : Z) (ch : Characteristic) (m : Manager) :
  exists new,
    bus (exec (handleCharacteristicValue now ch) m) = bus m ++ new
    /\ valueListeners (exec (handleCharacteristicValue now ch) m) = valueListeners m.
Proof.
  unfold exec. rewrite handleCharacteristicValue_cases. cbn [snd].
  destruct m as [st dev sub sc ra rt vl ts cs b co].
  destruct (value ch) as [payload|].
  - destruct (parseCharacteristic (uuid ch) payload) as [h|e].
    + destruct (0 <? keys h)%nat.
      * eexists. split; reflexivity.
      * exists []. split; [now rewrite app_nil_r|reflexivity].
    + eexists. split; reflexivity.
  - exists []. split; [now rewrite app_nil_r|reflexivity].
Qed.

Lemma deliver_bus (n : nat) (now : Z) (ch : Characteristic) (m : Manager) :
  exists new,
    bus (exec (deliver n (handleCharacteristicValue now ch)) m) = bus m ++ new
    /\ valueListeners (exec (deliver n (handleCharacteristicValue now ch)) m)
       = valueListeners m.
Proof.
  revert m. induction n as [|n IH]; intros m.
  - exists []. split; [now rewrite app_nil_r|reflexivity].
  - destruct (handleCharacteristicValue_bus now ch m) as [new1 [Hb1 Hl1]].
    destruct (IH (exec (handleCharacteristicValue now ch) m)) as [new2 [Hb2 Hl2]].
    assert (Hstep : exec (deliver (S n) (handleCharacteristicValue now ch)) m
                    = exec (deliver n (handleCharacteristicValue now ch))
                        (exec (handleCharacteristicValue now ch) m)).
    { unfold exec. cbn [deliver]. unfold bind at 1.
      rewrite handleCharacteristicValue_cases. reflexivity. }
    rewrite Hstep. exists (new1 ++ new2).
    rewrite Hb2, Hb1, Hl2, Hl1, app_assoc. split; reflexivity.
Qed.

(** A step is a quiet method, or a delivery to installed listeners. *)
Lemma step_quiet_or_delivered (op : Op) (m : Manager) :
  quiet m (step op m)
  \/ ((exists now ch, op = CharacteristicValueChanged now ch) /\ delivered m (step op m)).
Proof.
  destruct op as [timeout env|env|deviceId now env|settles|now env|now ch];
    cbn [step].
  - left. apply startScanning_quiet.
  - left. apply stopScanning_quiet.
  - left. apply connectToDevice_quiet.
  - left. apply disconnectFromDevice_quiet.
  - left. apply attemptReconnect_quiet.
  - destruct (valueListeners m) as [|n] eqn:Hl.
    + left. exists []. cbn. rewrite app_nil_r. auto.
    + right. split; [now exists now, ch|].
      destruct (deliver_bus (S n) now ch m) as [new [Hb Hv]].
      exists new. rewrite Hb, Hv, Hl. repeat split. lia.
Qed.

(** In every reachable state: a listener is installed only once 'connected'
    has been announced on the bus, and every reading on the bus comes after
    that announcement. *)
Lemma reachable_invariant (ops : list Op) (m : Manager) :
  ((0 < valueListeners m)%nat -> In (onConnectionStateChanged connected) (bus m)) ->
  readingsFollowConnected (bus m) ->
  ((0 < valueListeners (run ops m))%nat ->
   In (onConnectionStateChanged connected) (bus (run ops m)))
  /\ readingsFollowConnected (bus (run ops m)).
Proof.
  revert m. induction ops as [|op ops IH]; intros m Hl Hr; [now split|].
  cbn [run fold_left]. apply IH.
  - destruct (step_quiet_or_delivered op m)
      as [[new [Hb [_ [Hsame|Hconn]]]]|[_ [new [Hb [Hpos Hsame]]]]];
      rewrite Hb; intros Hpos'; apply in_or_app.
    + left. apply Hl. now rewrite <- Hsame.
    + now right.
    + left. now apply Hl.
  - destruct (step_quiet_or_delivered op m)
      as [[new [Hb [Hq _]]]|[_ [new [Hb [Hpos _]]]]]; rewrite Hb.
    + now apply readingsFollowConnected_quiet.
    + apply readingsFollowConnected_seen; [exact Hr|now apply Hl].
Qed.

Lemma initial_invariant :
  ((0 < valueListeners initial)%nat ->
   In (onConnectionStateChanged connected) (bus initial))
  /\ readingsFollowConnected (bus initial).
Proof.
  split.
  - cbn. lia.
  - intros pre data post Heq. cbn in Heq. destruct pre; discriminate.
Qed.

(** Every reading on the bus of a reachable state comes after a change of
    the Connection State to 'connected'. *)
Lemma reachable_readings_follow_connected (ops : list Op) :
  readingsFollowConnected (bus (run ops initial)).
Proof.
  destruct initial_invariant as [Hl Hr].
  exact (proj2 (reachable_invariant ops initial Hl Hr)).
Qed.

Lemma skipn_bus_app (b new : list Event) : skipn (List.length b) (b ++ new) = new.
Proof.
  induction b as [|x b IH]; [reflexivity|exact IH].
Qed.

(** C1, as the code has it.  In every reachable state of the manager, a
    step emits a vitals reading only if it is the delivery of a
    characteristic value to a listener, installed by a connect that reached
    'connected': the change to 'connected' is then on the bus already.  The
    listener does not look at the Connection State. *)
Theorem reading_emitted_only_after_connected
    (ops : list Op) (op : Op)
    (Hemitted : packetsEmitted op (run ops initial) <> []) :
  (exists now ch, op = CharacteristicValueChanged now ch)
  /\ (0 < valueListeners (run ops initial))%nat
  /\ In (onConnectionStateChanged connected) (bus (run ops initial)).
Proof.
  destruct initial_invariant as [Hl Hr].
  destruct (reachable_invariant ops initial Hl Hr) as [Hlistening _].
  unfold packetsEmitted in Hemitted.
  destruct (step_quiet_or_delivered op (run ops initial))
    as [[new [Hb [Hq _]]]|[Hop [new [_ [Hpos _]]]]].
  - rewrite Hb, skipn_bus_app in Hemitted. contradiction.
  - split; [exact Hop|]. split; [exact Hpos|]. now apply Hlistening.
Qed.

Lemma reading_emitted_only_after_connected_witness :
  (0 < valueListeners
         (run [CallConnectToDevice "bracelet-1" 1000 Scenarios.connectOk] initial))%nat
  /\ In (onConnectionStateChanged connected)
       (bus (run [CallConnectToDevice "bracelet-1" 1000 Scenarios.connectOk] initial)).
Proof.
  destruct (reading_emitted_only_after_connected
              [CallConnectToDevice "bracelet-1" 1000 Scenarios.connectOk]
              (CharacteristicValueChanged 2000 Scenarios.heartRate72)
              ltac:(cbv; discriminate))
    as [_ H].
  exact H.
Defined.

(** The claim of C1 fails in a reachable state: a device is connected, a
    scan is started (the Connection State is 'scanning'), and the heart-rate
    notification that arrives is emitted as a vitals reading. *)
Lemma reading_emitted_while_scanning :
  let ops := [CallConnectToDevice "bracelet-1" 1000 Scenarios.connectOk;
              CallStartScanning 15000 Scenarios.scanOk] in
  connectionState (run ops initial) = scanning
  /\ connectionState (run ops initial) <> connected
  /\ packetsEmitted (CharacteristicValueChanged 2000 Scenarios.heartRate72)
       (run ops initial)
     = [onHealthDataReceived (mkPacket 72 0 0 0 0 0 2000 "bracelet-1")].
Proof. cbv zeta. repeat split. discriminate. Qed.

End ManagerMethods.

(** ** From the manager to the context                                 *)

Section ManagerToContext.
Import Js Manager.

(** The partial reading of one notification never has the heart rate, the
    temperature and the oxygen saturation together. *)
Lemma parseCharacteristic_partial (u : string) (payload : ArrayBuffer)
    (h : PartialPacket) :
  parseCharacteristic u payload = Normal h ->
  p_heartRate h = None \/ p_temperature h = None \/ p_oxygenLevel h = None.
Proof.
  unfold parseCharacteristic, bindC.
  repeat match goal with
         | |- context [String.eqb ?a ?b] => destruct (String.eqb a b)
         end;
    try match goal with
        | |- context [match ?p with Normal _ => _ | Thrown _ => _ end] => destruct p
        end;
    intros Heq; try discriminate Heq; injection Heq as <-; cbn; auto.
Qed.

(** Every reading a call of the listener emits sets the alert flag of the
    context it reaches, whatever was measured. *)
Lemma every_reading_emitted_sets_alert
    (now : Z) (ch : Characteristic) (m : Manager) (data : HealthDataPacket)
    (arrival : Z) (c : HealthContext.Context) :
  In (onHealthDataReceived data)
     (skipn (List.length (bus m)) (bus (exec (handleCharacteristicValue now ch) m))) ->
  HealthContext.hasAlerts (HealthContext.handle arrival (onHealthDataReceived data) c)
  = true.
Proof.
  unfold exec. rewrite handleCharacteristicValue_cases. cbn [snd].
  destruct (value ch) as [payload|].
  - destruct (parseCharacteristic (uuid ch) payload) as [h|e] eqn:Hparse.
    + destruct (0 <? keys h)%nat.
      * destruct m; cbn [bus set_bus]. rewrite skipn_bus_app.
        intros [Heq|[]]. injection Heq as <-.
        apply handle_reading_violated, orZero_None_violates.
        exact (parseCharacteristic_partial _ _ _ Hparse).
      * rewrite <- (app_nil_r (bus m)) at 2. rewrite skipn_bus_app. intros [].
    + destruct m; cbn [bus set_bus set_console]. rewrite skipn_bus_app.
      intros [Heq|[]]. discriminate Heq.
  - rewrite <- (app_nil_r (bus m)) at 2. rewrite skipn_bus_app. intros [].
Qed.

End ManagerToContext.

(** ** The manager: scanning and connecting                            *)

Section ScanningAndConnecting.
Import Js Manager ManagerApi.

Ltac run_method :=
  cbv beta iota zeta delta
    [exec throws fst snd ret bind throw try_catch get modify settle settle_value
     emit console_log setTimeout platform platform_value setConnectionState
     ConnectionState_eqb negb orb andb
     startScanning stopScanning checkPermissions requestPermissions
     connectToDevice setupHealthDataNotifications disconnectFromDevice
     connectedDeviceId handleCharacteristicValue
     set_connectionState set_connectedDevice set_scanSubscription set_isScanning
     set_reconnectAttempts set_reconnectTimeout set_valueListeners set_timers
     set_calls set_bus set_console
     connectionState connectedDevice scanSubscription isScanning
     reconnectAttempts reconnectTimeout valueListeners timers calls bus console
     subscriptionRemove stopScanningAsync uuid value
     android permissionCheck permissionRequest startScanningAsync
     connectToDeviceAsync discoverAllServicesAndCharacteristicsAsync
     startNotificationsAsync
     permitted snapshot isConnected isSome changeEvents].

(** X1.  The scan is refused: [startScanning] throws, the state is 'error', no
    scan was asked of the platform and no timer is pending for it. *)
Theorem startScanning_refused_without_permissions
    (timeout : Z) (env : ScanEnv) (m : Manager)
    (Hidle : isScanning m = false)
    (Hrefused : permitted env = false) :
  let m' := exec (startScanning timeout env) m in
  throws (startScanning timeout env) m = true
  /\ connectionState m' = error
  /\ isScanning m' = false
  /\ scanSubscription m' = scanSubscription m
  /\ timers m' = timers m
  /\ calls m' = calls m ++ [PermissionsCheck; PermissionsRequest]
  /\ bus m' = bus m
              ++ match permissionRequest env with
                 | Thrown e => [onError e]
                 | Normal _ => []
                 end
              ++ changeEvents (connectionState m) error
              ++ [onError (JsError "Bluetooth permissions not granted")].
Proof.
  destruct m as [st dev sub sc ra rt vl ts cs b co].
  cbn [isScanning] in Hidle. subst sc.
  destruct env as [[|] [[|]|e1] [[|]|e2] start];
    try discriminate Hrefused;
    destruct st; run_method; rewrite <- ?app_assoc; cbn [app];
    repeat split; reflexivity.
Qed.

Lemma startScanning_refused_without_permissions_witness :
  let m' := exec (startScanning 15000 MoreScenarios.scanDenied) initial in
  connectionState m' = error
  /\ calls m' = [PermissionsCheck; PermissionsRequest]
  /\ bus m' = [onConnectionStateChanged error;
               onError (JsError "Bluetooth permissions not granted")].
Proof.
  cbv zeta.
  destruct (startScanning_refused_without_permissions
              15000 MoreScenarios.scanDenied initial eq_refl eq_refl)
    as [_ [Hst [_ [_ [_ [Hcalls Hbus]]]]]].
  split; [exact Hst|]. split; [exact Hcalls | exact Hbus].
Defined.

(** X2.  The platform throws when asked to scan: the manager is left in 'error'
    with [isScanning] still set, so the next [startScanning] only logs that a
    scan is in progress; it asks for nothing and starts nothing. *)
Theorem startScanning_failure_blocks_next_scan
    (timeout next : Z) (env env' : ScanEnv) (e : Error) (m : Manager)
    (Hidle : isScanning m = false)
    (Hpermitted : permitted env = true)
    (Hfails : startScanningAsync env = Some e) :
  let m1 := exec (startScanning timeout env) m in
  fst (startScanning timeout env m) = Thrown e
  /\ connectionState m1 = error
  /\ isScanning m1 = true
  /\ scanSubscription m1 = scanSubscription m
  /\ timers m1 = timers m
  /\ startScanning next env' m1
     = (Normal tt,
        set_console (console m1 ++ ["Bluetooth scanning already in progress"%string]) m1).
Proof.
  destruct m as [st dev sub sc ra rt vl ts cs b co].
  cbn [isScanning] in Hidle. subst sc.
  destruct env as [[|] [[|]|e1] [[|]|e2] start];
    cbn [startScanningAsync] in Hfails; subst start;
    try discriminate Hpermitted;
    destruct st; run_method; repeat split; reflexivity.
Qed.

Lemma startScanning_failure_blocks_next_scan_witness :
  let m1 := exec (startScanning 15000 MoreScenarios.scanStartFails) initial in
  connectionState m1 = error
  /\ isScanning m1 = true
  /\ calls (exec (startScanning 15000 Scenarios.scanOk) m1) = calls m1.
Proof.
  cbv zeta.
  destruct (startScanning_failure_blocks_next_scan
              15000 15000 MoreScenarios.scanStartFails Scenarios.scanOk
              Scenarios.failure initial eq_refl eq_refl eq_refl)
    as [_ [Hst [Hsc [_ [_ Hnext]]]]].
  split; [exact Hst|]. split; [exact Hsc|].
  unfold exec at 1. rewrite Hnext. cbn [snd].
  generalize (exec (startScanning 15000 MoreScenarios.scanStartFails) initial).
  intros m1. destruct m1; reflexivity.
Defined.

(** X3.  A scan that starts and is then stopped (by the application or by its
    timer) ends in 'disconnected' whatever the state was before, also
    'connected': the Connected Device and the listeners are as they were, and
    [isConnected()] is false. *)
Theorem scan_cycle_ends_disconnected
    (timeout : Z) (env : ScanEnv) (m : Manager)
    (Hidle : isScanning m = false)
    (Hpermitted : permitted env = true)
    (Hstarts : startScanningAsync env = None) :
  let m1 := exec (startScanning timeout env) m in
  let m2 := exec (stopScanning (mkStopEnv None None)) m1 in
  throws (startScanning timeout env) m = false
  /\ connectionState m1 = scanning
  /\ isScanning m1 = true
  /\ timers m1 = timers m ++ [ScanTimeout timeout]
  /\ connectionState m2 = disconnected
  /\ isScanning m2 = false
  /\ connectedDevice m2 = connectedDevice m
  /\ valueListeners m2 = valueListeners m
  /\ isConnected m2 = false.
Proof.
  destruct m as [st dev sub sc ra rt vl ts cs b co].
  cbn [isScanning] in Hidle. subst sc.
  destruct env as [[|] [[|]|e1] [[|]|e2] start];
    cbn [startScanningAsync] in Hstarts; subst start;
    try discriminate Hpermitted;
    destruct st; run_method; repeat split; reflexivity.
Qed.

Lemma scan_cycle_ends_disconnected_witness :
  let m2 := exec (stopScanning (mkStopEnv None None))
              (exec (startScanning 15000 Scenarios.scanOk) Scenarios.connectedManager) in
  connectionState Scenarios.connectedManager = connected
  /\ connectionState m2 = disconnected
  /\ connectedDevice m2 = connectedDevice Scenarios.connectedManager.
Proof.
  cbv zeta.
  destruct (scan_cycle_ends_disconnected
              15000 Scenarios.scanOk Scenarios.connectedManager
              eq_refl eq_refl eq_refl)
    as [_ [_ [_ [_ [Hst [_ [Hdev _]]]]]]].
  split; [reflexivity|]. split; [exact Hst | exact Hdev].
Defined.

(** X4.  A connect that the transport accepts and whose discovery succeeds
    returns a new snapshot built from the identifier, the clock and the
    discovery alone; it replaces the Connected Device, the state is
    'connected', the attempt count is zero, and [onDeviceConnected] carries
    the snapshot.  A failure to start the notifications is reported as an
    error event and does not fail the connect: no listener is installed. *)
Theorem connectToDevice_success_replaces_snapshot
    (deviceId : string) (now : Z) (env : ConnectEnv) (found : Discovered)
    (m : Manager)
    (Haccepted : connectToDeviceAsync env = None)
    (Hfound : discoverAllServicesAndCharacteristicsAsync env = Normal found) :
  let device := snapshot deviceId now found in
  let m' := exec (connectToDevice deviceId now env) m in
  fst (connectToDevice deviceId now env m) = Normal device
  /\ connectedDevice m' = Some device
  /\ connectionState m' = connected
  /\ reconnectAttempts m' = 0
  /\ isConnected m' = true
  /\ valueListeners m'
     = match startNotificationsAsync env with
       | None => S (valueListeners m)
       | Some _ => valueListeners m
       end
  /\ bus m' = bus m ++ changeEvents (connectionState m) connecting
              ++ [onConnectionStateChanged connected]
              ++ match startNotificationsAsync env with
                 | None => []
                 | Some e => [onError e]
                 end
              ++ [onDeviceConnected device].
Proof.
  destruct m as [st dev sub sc ra rt vl ts cs b co].
  destruct env as [accepted discovery notifications].
  cbn [connectToDeviceAsync discoverAllServicesAndCharacteristicsAsync]
    in Haccepted, Hfound.
  subst accepted discovery.
  destruct notifications as [e|]; destruct st; run_method;
    rewrite <- ?app_assoc; cbn [app]; repeat split; reflexivity.
Qed.

Lemma connectToDevice_success_replaces_snapshot_witness :
  let m' := exec (connectToDevice "bracelet-2" 9000 Scenarios.connectOk)
              Scenarios.connectedManager in
  connectedDevice m'
  = Some (mkConnectedDevice "bracelet-2" "Health Monitor" true [] [] 9000)
  /\ connectionState m' = connected.
Proof.
  cbv zeta.
  destruct (connectToDevice_success_replaces_snapshot
              "bracelet-2" 9000 Scenarios.connectOk (mkDiscovered [] [])
              Scenarios.connectedManager eq_refl eq_refl)
    as [_ [Hdev [Hst _]]].
  split; [exact Hdev | exact Hst].
Defined.

(** X5.  A connect that fails (the transport refuses, or the discovery fails)
    rethrows the platform's error after emitting it, and leaves the state
    'error'; the Connected Device, the attempt count and the listeners are as
    they were: a device connected before stays recorded. *)
Theorem connectToDevice_failure_keeps_previous_device
    (deviceId : string) (now : Z) (env : ConnectEnv) (m : Manager)
    (Hfails : connectFails env = true) :
  let m' := exec (connectToDevice deviceId now env) m in
  exists e,
    fst (connectToDevice deviceId now env m) = Thrown e
    /\ connectionState m' = error
    /\ connectedDevice m' = connectedDevice m
    /\ reconnectAttempts m' = reconnectAttempts m
    /\ valueListeners m' = valueListeners m
    /\ isConnected m' = false
    /\ bus m' = bus m ++ changeEvents (connectionState m) connecting
                ++ [onConnectionStateChanged error; onError e].
Proof.
  destruct m as [st dev sub sc ra rt vl ts cs b co].
  destruct env as [[e1|] [found|e2] notifications]; try discriminate Hfails;
    destruct st; run_method; rewrite <- ?app_assoc; cbn [app];
    eexists; repeat split; reflexivity.
Qed.

Lemma connectToDevice_failure_keeps_previous_device_witness :
  let m' := exec (connectToDevice "bracelet-2" 9000 Scenarios.connectFails)
              Scenarios.connectedManager in
  connectionState m' = error
  /\ connectedDevice m' = connectedDevice Scenarios.connectedManager.
Proof.
  cbv zeta.
  destruct (connectToDevice_failure_keeps_previous_device
              "bracelet-2" 9000 Scenarios.connectFails Scenarios.connectedManager
              eq_refl)
    as [e [_ [Hst [Hdev _]]]].
  split; [exact Hst | exact Hdev].
Defined.

End ScanningAndConnecting.

(** ** The manager: what holds in every reachable state               *)

Section ManagerInvariants.
Import Js Manager ManagerApi.

Ltac run_op :=
  cbv beta iota zeta delta
    [exec throws fst snd ret bind throw try_catch get modify settle settle_value
     emit console_log setTimeout platform platform_value setConnectionState
     ConnectionState_eqb negb
     startScanning stopScanning checkPermissions requestPermissions
     connectToDevice setupHealthDataNotifications disconnectFromDevice
     connectedDeviceId
     set_connectionState set_connectedDevice set_scanSubscription set_isScanning
     set_reconnectAttempts set_reconnectTimeout set_valueListeners set_timers
     set_calls set_bus set_console
     connectionState connectedDevice scanSubscription isScanning
     reconnectAttempts reconnectTimeout valueListeners timers calls bus console
     subscriptionRemove stopScanningAsync
     android permissionCheck permissionRequest startScanningAsync
     connectToDeviceAsync discoverAllServicesAndCharacteristicsAsync
     startNotificationsAsync].

(** The listeners touch the bus and the console only. *)
Lemma handleCharacteristicValue_frame (now : Z) (ch : Characteristic) (m : Manager) :
  let m' := exec (handleCharacteristicValue now ch) m in
  connectionState m' = connectionState m
  /\ connectedDevice m' = connectedDevice m
  /\ reconnectAttempts m' = reconnectAttempts m
  /\ timers m' = timers m.
Proof.
  cbv zeta. unfold exec. rewrite handleCharacteristicValue_cases. cbn [snd].
  destruct m as [st dev sub sc ra rt vl ts cs b co].
  destruct (value ch) as [payload|]; [|repeat split].
  destruct (parseCharacteristic (uuid ch) payload) as [h|e]; [|repeat split].
  destruct (0 <? keys h)%nat; repeat split.
Qed.

Lemma deliver_frame (n : nat) (now : Z) (ch : Characteristic) (m : Manager) :
  let m' := exec (deliver n (handleCharacteristicValue now ch)) m in
  connectionState m' = connectionState m
  /\ connectedDevice m' = connectedDevice m
  /\ reconnectAttempts m' = reconnectAttempts m
  /\ timers m' = timers m.
Proof.
  cbv zeta. revert m. induction n as [|n IH]; intros m; [repeat split|].
  assert (Hstep : exec (deliver (S n) (handleCharacteristicValue now ch)) m
                  = exec (deliver n (handleCharacteristicValue now ch))
                      (exec (handleCharacteristicValue now ch) m)).
  { unfold exec. cbn [deliver]. unfold bind at 1.
    rewrite handleCharacteristicValue_cases. reflexivity. }
  rewrite Hstep.
  destruct (IH (exec (handleCharacteristicValue now ch) m)) as [H1 [H2 [H3 H4]]].
  destruct (handleCharacteristicValue_frame now ch m) as [G1 [G2 [G3 G4]]].
  cbv zeta in G1, G2, G3, G4.
  rewrite H1, H2, H3, H4, G1, G2, G3, G4. repeat split.
Qed.

(** A step keeps: the state is 'connected' only with a Connected Device. *)
Lemma step_connected_has_device (op : Op) (m : Manager) :
  (connectionState m = connected -> connectedDevice m <> None) ->
  connectionState (step op m) = connected -> connectedDevice (step op m) <> None.
Proof.
  destruct op as [timeout env|env|deviceId now env|settles|now env|now ch];
    cbn [step].
  - destruct m as [st dev sub sc ra rt vl ts cs b co].
    destruct env as [[|] [[|]|e1] [[|]|e2] [e3|]]; destruct sc; destruct st;
      run_op; intros Hinv Hst; try discriminate Hst; auto.
  - destruct m as [st dev sub sc ra rt vl ts cs b co].
    destruct env as [[e1|] [e2|]]; destruct sub; destruct st;
      run_op; intros Hinv Hst; try discriminate Hst; auto.
  - destruct m as [st dev sub sc ra rt vl ts cs b co].
    destruct env as [[e1|] [found|e2] [e3|]]; destruct st;
      run_op; intros Hinv Hst; try discriminate Hst; auto; discriminate.
  - destruct m as [st [device|] sub sc ra rt vl ts cs b co];
      destruct settles as [e|]; destruct st;
      run_op; intros Hinv Hst; try discriminate Hst; auto.
  - destruct m as [st [device|] sub sc ra rt vl ts cs b co];
      unfold attemptReconnect; run_op;
      destruct (maxReconnectAttempts <=? ra);
      destruct env as [[e1|] [found|e2] [e3|]]; destruct st;
      run_op; intros Hinv Hst; try discriminate Hst; auto; discriminate.
  - destruct (deliver_frame (valueListeners m) now ch m) as [H1 [H2 _]].
    cbv zeta in H1, H2. rewrite H1, H2. auto.
Qed.

Lemma reachable_connected_has_device (ops : list Op) (m : Manager) :
  (connectionState m = connected -> connectedDevice m <> None) ->
  connectionState (run ops m) = connected -> connectedDevice (run ops m) <> None.
Proof.
  revert m. induction ops as [|op ops IH]; intros m Hinv; [exact Hinv|].
  cbn [run fold_left]. apply IH. now apply step_connected_has_device.
Qed.

Lemma isConnected_is_the_connected_state_aux (ops : list Op) :
  isConnected (run ops initial)
  = ConnectionState_eqb (connectionState (run ops initial)) connected.
Proof.
  unfold isConnected.
  destruct (ConnectionState_eqb (connectionState (run ops initial)) connected) eqn:Hst;
    [|reflexivity].
  assert (Hconnected : connectionState (run ops initial) = connected)
    by (destruct (connectionState (run ops initial)); try discriminate Hst; reflexivity).
  pose proof (reachable_connected_has_device ops initial
                ltac:(cbn; discriminate) Hconnected) as Hdev.
  destruct (connectedDevice (run ops initial)); [reflexivity|contradiction].
Qed.

(** X6.  In every reachable state [isConnected()] says exactly whether the
    Connection State is 'connected': that state is never held without a
    Connected Device (while a Connected Device can be held in another
    state). *)
Theorem isConnected_is_the_connected_state (ops : list Op) :
  (isConnected (run ops initial)
   = ConnectionState_eqb (connectionState (run ops initial)) connected)
  /\ (connectionState (run ops initial) = connected ->
      connectedDevice (run ops initial) <> None).
Proof.
  split; [|apply reachable_connected_has_device; cbn; discriminate].
  unfold isConnected.
  destruct (ConnectionState_eqb (connectionState (run ops initial)) connected) eqn:Hst;
    [|reflexivity].
  assert (Hconnected : connectionState (run ops initial) = connected)
    by (destruct (connectionState (run ops initial)); try discriminate Hst; reflexivity).
  pose proof (reachable_connected_has_device ops initial
                ltac:(cbn; discriminate) Hconnected) as Hdev.
  destruct (connectedDevice (run ops initial)); [reflexivity|contradiction].
Qed.

Lemma isConnected_is_the_connected_state_witness :
  connectionState (run [CallConnectToDevice "bracelet-1" 1000 Scenarios.connectOk] initial)
  = connected
  /\ connectedDevice
       (run [CallConnectToDevice "bracelet-1" 1000 Scenarios.connectOk] initial)
     <> None.
Proof.
  split; [reflexivity|].
  apply (proj2 (isConnected_is_the_connected_state
                  [CallConnectToDevice "bracelet-1" 1000 Scenarios.connectOk])).
  reflexivity.
Defined.

Lemma backoff_delay_values (ra : Z) :
  0 <= ra < 3 ->
  2 ^ (ra + 1) * 1000 = 2000 \/ 2 ^ (ra + 1) * 1000 = 4000
  \/ 2 ^ (ra + 1) * 1000 = 8000.
Proof.
  intros Hra.
  assert (Hcases : ra = 0 \/ ra = 1 \/ ra = 2) by lia.
  destruct Hcases as [H|[H|H]]; subst ra; cbn; auto.
Qed.

(** A step keeps the attempt count within 0..3 and every pending reconnect
    timer at 2, 4 or 8 seconds. *)
Lemma step_backoff_bounded (op : Op) (m : Manager) :
  0 <= reconnectAttempts m <= 3 ->
  Forall isBackoffDelay (timers m) ->
  0 <= reconnectAttempts (step op m) <= 3
  /\ Forall isBackoffDelay (timers (step op m)).
Proof.
  destruct op as [timeout env|env|deviceId now env|settles|now env|now ch];
    cbn [step].
  - destruct m as [st dev sub sc ra rt vl ts cs b co].
    destruct env as [[|] [[|]|e1] [[|]|e2] [e3|]]; destruct sc; destruct st;
      run_op; intros Hra Hts; (split; [exact Hra|]); try exact Hts;
      apply Forall_app; (split; [exact Hts|]); repeat constructor.
  - destruct m as [st dev sub sc ra rt vl ts cs b co].
    destruct env as [[e1|] [e2|]]; destruct sub; destruct st;
      run_op; intros Hra Hts; split; assumption.
  - destruct m as [st dev sub sc ra rt vl ts cs b co].
    destruct env as [[e1|] [found|e2] [e3|]]; destruct st;
      run_op; intros Hra Hts; (split; [lia|exact Hts]).
  - destruct m as [st [device|] sub sc ra rt vl ts cs b co];
      destruct settles as [e|]; destruct st;
      run_op; intros Hra Hts; split; assumption.
  - destruct m as [st [device|] sub sc ra rt vl ts cs b co];
      unfold attemptReconnect; run_op;
      destruct (Z.leb_spec maxReconnectAttempts ra) as [Hmax|Hmax];
      unfold maxReconnectAttempts in Hmax;
      destruct env as [[e1|] [found|e2] [e3|]]; destruct st;
      run_op; intros Hra Hts;
      (split; [lia|]); try exact Hts;
      apply Forall_app; (split; [exact Hts|]);
      (constructor; [|constructor]);
      apply backoff_delay_values; lia.
  - destruct (deliver_frame (valueListeners m) now ch m) as [_ [_ [H3 H4]]].
    cbv zeta in H3, H4. rewrite H3, H4. auto.
Qed.

Lemma reachable_backoff_bounded (ops : list Op) (m : Manager) :
  0 <= reconnectAttempts m <= 3 ->
  Forall isBackoffDelay (timers m) ->
  0 <= reconnectAttempts (run ops m) <= 3
  /\ Forall isBackoffDelay (timers (run ops m)).
Proof.
  revert m. induction ops as [|op ops IH]; intros m Hra Hts; [now split|].
  cbn [run fold_left].
  destruct (step_backoff_bounded op m Hra Hts) as [Hra' Hts'].
  now apply IH.
Qed.



(** X8.  With no Connected Device (after a disconnect, or before any connect), a
    call of [attemptReconnect] that still has attempts left counts one,
    logs it, and does nothing else: no connect, no timer, no event, the
    Connection State as it was. *)
Theorem attemptReconnect_without_device_only_counts
    (now : Z) (env : ConnectEnv) (m : Manager)
    (Hnone : connectedDevice m = None)
    (Hleft : reconnectAttempts m < maxReconnectAttempts) :
  attemptReconnect now env m
  = (Normal tt,
     set_console (console m ++ ["Reconnection attempt"%string])
       (set_reconnectAttempts (reconnectAttempts m + 1) m)).
Proof.
  destruct m as [st dev sub sc ra rt vl ts cs b co].
  cbn [connectedDevice reconnectAttempts] in Hnone, Hleft. subst dev.
  apply Z.leb_gt in Hleft.
  unfold attemptReconnect. run_op. rewrite Hleft. reflexivity.
Qed.

Lemma attemptReconnect_without_device_only_counts_witness :
  let m := exec (attemptReconnect 5000 Scenarios.connectOk) initial in
  reconnectAttempts m = 1
  /\ connectionState m = disconnected
  /\ calls m = []
  /\ timers m = [].
Proof.
  cbv zeta. unfold exec.
  rewrite (attemptReconnect_without_device_only_counts
             5000 Scenarios.connectOk initial eq_refl ltac:(reflexivity)).
  repeat split.
Defined.

End ManagerInvariants.

(** ** The manager: callbacks and cleanup                              *)

Section CallbacksAndCleanup.
Import Js Manager ManagerApi.

Ltac run_cleanup :=
  cbv beta iota zeta delta
    [cleanup onCore core events
     exec throws fst snd ret bind throw try_catch get modify settle settle_value
     emit console_log setTimeout platform platform_value setConnectionState
     ConnectionState_eqb negb
     stopScanning disconnectFromDevice connectedDeviceId
     set_connectionState set_connectedDevice set_scanSubscription set_isScanning
     set_reconnectAttempts set_reconnectTimeout set_valueListeners set_timers
     set_calls set_bus set_console
     connectionState connectedDevice scanSubscription isScanning
     reconnectAttempts reconnectTimeout valueListeners timers calls bus console
     subscriptionRemove stopScanningAsync].

(** X9.  [cleanup] never throws.  When the disconnect does not fail (it
    succeeds, or there is no Connected Device) nothing is left: no Connected
    Device, no reconnect timer handle, no callback.  When the transport
    fails to disconnect, [cleanup] stops there: the callbacks stay
    registered, the reconnect timer handle stays, the device stays recorded
    and the state is 'error'. *)
Theorem cleanup_never_throws_and_stops_at_a_failed_disconnect
    (stopEnv : StopEnv) (settles : option Error) (s : Singleton) :
  let s' := exec (cleanup stopEnv settles) s in
  throws (cleanup stopEnv settles) s = false
  /\ (settles = None \/ connectedDevice (core s) = None ->
      connectedDevice (core s') = None
      /\ reconnectTimeout (core s') = None
      /\ forall name, events s' name = None)
  /\ (forall e device,
        settles = Some e -> connectedDevice (core s) = Some device ->
        connectedDevice (core s') = Some device
        /\ connectionState (core s') = error
        /\ reconnectTimeout (core s') = reconnectTimeout (core s)
        /\ events s' = events s).
Proof.
  destruct s as [[st dev sub sc ra rt vl ts cs b co] evs].
  destruct stopEnv as [[e1|] [e2|]]; destruct settles as [e|];
    destruct dev as [d|]; destruct rt as [handle|]; destruct sub; destruct st;
    run_cleanup;
    (split; [reflexivity|]);
    (split;
     [ intros [Hs|Hd]; try discriminate Hs; try discriminate Hd;
       repeat split
     | intros e' device' Hs Hd; try discriminate Hs; try discriminate Hd;
       injection Hd as <-; repeat split ]).
Qed.

Lemma cleanup_never_throws_and_stops_at_a_failed_disconnect_witness :
  let s := mkSingleton Scenarios.connectedManager (contextMount noEvents) in
  let s' := exec (cleanup Scenarios.stopOk (Some Scenarios.failure)) s in
  connectionState (core s') = error
  /\ events s' OnHealthDataReceived = Some HealthDataContext.
Proof.
  cbv zeta.
  destruct (cleanup_never_throws_and_stops_at_a_failed_disconnect
              Scenarios.stopOk (Some Scenarios.failure)
              (mkSingleton Scenarios.connectedManager (contextMount noEvents)))
    as [_ [_ Hfail]].
  destruct (Hfail Scenarios.failure
              (mkConnectedDevice "bracelet-1" "Health Monitor" true [] [] 1000)
              eq_refl eq_refl) as [_ [Hst [_ Hev]]].
  split; [exact Hst|]. rewrite Hev. reflexivity.
Defined.

(** X10.  One callback per event name, whoever registered it.  The context
    mounting after the WiFi manager takes over the readings and the
    device-connected events, and the other way round; the context's clean-up
    removes what is registered under its four names even when the WiFi
    manager registered last, so nobody receives readings afterwards; the
    modal's [stopScanning] likewise removes any error callback. *)
Theorem callbacks_last_registration_wins (table : Events) (data : HealthDataPacket)
    (device : ConnectedDevice) (e : Error) :
  invoked (contextMount (setupBluetoothIntegration table)) (onHealthDataReceived data)
    = Some HealthDataContext
  /\ invoked (contextMount (setupBluetoothIntegration table)) (onDeviceConnected device)
     = Some HealthDataContext
  /\ invoked (setupBluetoothIntegration (contextMount table)) (onHealthDataReceived data)
     = Some WiFiManager
  /\ invoked (setupBluetoothIntegration (contextMount table)) (onDeviceConnected device)
     = Some WiFiManager
  /\ invoked (contextUnmount (setupBluetoothIntegration (contextMount table)))
       (onHealthDataReceived data) = None
  /\ invoked (contextUnmount (setupBluetoothIntegration (contextMount table)))
       (onDeviceConnected device) = None
  /\ invoked (modalStopScanning (modalStartScanning (on OnError HealthDataContext table)))
       (onError e) = None.
Proof. repeat split. Qed.

End CallbacksAndCleanup.

(** ** The context follows the manager                                 *)

Section ContextFollowsManager.
Import Js Manager ContextFeed.

Ltac run_op' :=
  cbv beta iota zeta delta
    [exec throws fst snd ret bind throw try_catch get modify settle settle_value
     emit console_log setTimeout platform platform_value setConnectionState
     ConnectionState_eqb negb
     startScanning stopScanning checkPermissions requestPermissions
     connectToDevice setupHealthDataNotifications disconnectFromDevice
     connectedDeviceId
     set_connectionState set_connectedDevice set_scanSubscription set_isScanning
     set_reconnectAttempts set_reconnectTimeout set_valueListeners set_timers
     set_calls set_bus set_console
     connectionState connectedDevice scanSubscription isScanning
     reconnectAttempts reconnectTimeout valueListeners timers calls bus console
     subscriptionRemove stopScanningAsync
     android permissionCheck permissionRequest startScanningAsync
     connectToDeviceAsync discoverAllServicesAndCharacteristicsAsync
     startNotificationsAsync managerLink option_map].

(** The callbacks move the context's view of the connection as [follow]
    says, whatever the time. *)
Lemma handle_follows (now : Z) (ev : Event) (c : HealthContext.Context) :
  linkOf (HealthContext.handle now ev c) = follow (linkOf c) ev.
Proof.
  destruct ev as [device|deviceId|data|state|e]; try reflexivity.
  unfold HealthContext.handle, HealthContext.onHealthDataReceived,
    HealthContext.checkForAlerts.
  destruct (0 <? List.length (HealthContext.alerts data))%nat; reflexivity.
Qed.

Lemma deliverAll_follows (stamped : list (Z * Event)) (c : HealthContext.Context) :
  linkOf (deliverAll stamped c) = fold_left follow (map snd stamped) (linkOf c).
Proof.
  revert c. induction stamped as [|p stamped IH]; intros c; [reflexivity|].
  unfold deliverAll. cbn [fold_left map]. fold (deliverAll stamped).
  rewrite IH, handle_follows. reflexivity.
Qed.

Lemma follow_readings_and_errors (new : list Event) (l : Link) :
  forallb isReadingOrError new = true -> fold_left follow new l = l.
Proof.
  revert l. induction new as [|ev new IH]; intros l Hall; [reflexivity|].
  cbn [forallb] in Hall. apply andb_true_iff in Hall. destruct Hall as [Hev Hnew].
  cbn [fold_left]. rewrite IH by exact Hnew.
  destruct ev; try discriminate Hev; reflexivity.
Qed.

(** A listener emits readings and errors only. *)
Lemma handleCharacteristicValue_emits (now : Z) (ch : Characteristic) (m : Manager) :
  exists new,
    bus (exec (handleCharacteristicValue now ch) m) = bus m ++ new
    /\ forallb isReadingOrError new = true.
Proof.
  unfold exec. rewrite handleCharacteristicValue_cases. cbn [snd].
  destruct m as [st dev sub sc ra rt vl ts cs b co].
  destruct (value ch) as [payload|].
  - destruct (parseCharacteristic (uuid ch) payload) as [h|e].
    + destruct (0 <? keys h)%nat.
      * eexists. split; reflexivity.
      * exists []. split; [now rewrite app_nil_r|reflexivity].
    + eexists. split; reflexivity.
  - exists []. split; [now rewrite app_nil_r|reflexivity].
Qed.

Lemma deliver_emits (n : nat) (now : Z) (ch : Characteristic) (m : Manager) :
  exists new,
    bus (exec (deliver n (handleCharacteristicValue now ch)) m) = bus m ++ new
    /\ forallb isReadingOrError new = true.
Proof.
  revert m. induction n as [|n IH]; intros m.
  - exists []. split; [now rewrite app_nil_r|reflexivity].
  - destruct (handleCharacteristicValue_emits now ch m) as [new1 [Hb1 Hn1]].
    destruct (IH (exec (handleCharacteristicValue now ch) m)) as [new2 [Hb2 Hn2]].
    assert (Hstep : exec (deliver (S n) (handleCharacteristicValue now ch)) m
                    = exec (deliver n (handleCharacteristicValue now ch))
                        (exec (handleCharacteristicValue now ch) m)).
    { unfold exec. cbn [deliver]. unfold bind at 1.
      rewrite handleCharacteristicValue_cases. reflexivity. }
    rewrite Hstep. exists (new1 ++ new2).
    rewrite Hb2, Hb1, app_assoc, forallb_app, Hn1, Hn2. split; reflexivity.
Qed.

(** Closes the goal of [step_follows] once both states are computed. *)
Ltac followed :=
  run_op'; cbn [app]; rewrite <- ?app_assoc;
  first
    [ eexists; split; [reflexivity|]
    | exists []; split; [now rewrite app_nil_r|] ];
  reflexivity.

(** The events of a step, followed from where the manager was, lead to
    where the manager is. *)
Lemma step_follows (op : Op) (m : Manager) :
  exists new,
    bus (step op m) = bus m ++ new
    /\ fold_left follow new (managerLink m) = managerLink (step op m).
Proof.
  destruct op as [timeout env|env|deviceId now env|settles|now env|now ch];
    cbn [step].
  - destruct m as [st dev sub sc ra rt vl ts cs b co].
    destruct env as [[|] [[|]|e1] [[|]|e2] [e3|]]; destruct sc; destruct st;
      followed.
  - destruct m as [st dev sub sc ra rt vl ts cs b co].
    destruct env as [[e1|] [e2|]]; destruct sub; destruct st; followed.
  - destruct m as [st dev sub sc ra rt vl ts cs b co].
    destruct env as [[e1|] [found|e2] [e3|]]; destruct st; followed.
  - destruct m as [st [device|] sub sc ra rt vl ts cs b co];
      destruct settles as [e|]; destruct st; followed.
  - destruct m as [st [device|] sub sc ra rt vl ts cs b co];
      unfold attemptReconnect; run_op';
      destruct (maxReconnectAttempts <=? ra);
      destruct env as [[e1|] [found|e2] [e3|]]; destruct st; followed.
  - destruct (deliver_emits (valueListeners m) now ch m) as [new [Hb Hn]].
    exists new. split; [exact Hb|].
    rewrite follow_readings_and_errors by exact Hn.
    destruct (deliver_frame (valueListeners m) now ch m) as [H1 [H2 _]].
    cbv zeta in H1, H2. unfold managerLink. now rewrite H1, H2.
Qed.

Lemma run_follows (ops : list Op) (m : Manager) :
  exists new,
    bus (run ops m) = bus m ++ new
    /\ fold_left follow new (managerLink m) = managerLink (run ops m).
Proof.
  revert m. induction ops as [|op ops IH]; intros m.
  - exists []. split; [now rewrite app_nil_r|reflexivity].
  - cbn [run fold_left].
    destruct (step_follows op m) as [new1 [Hb1 Hf1]].
    destruct (IH (step op m)) as [new2 [Hb2 Hf2]].
    exists (new1 ++ new2). fold (run ops (step op m)).
    rewrite Hb2, Hb1, app_assoc, fold_left_app, Hf1, Hf2. split; reflexivity.
Qed.



End ContextFollowsManager.

(** ** The context: alerts, current vitals, history                    *)

Section ContextBehaviour.
Import Js Manager ContextFeed.

Lemma fireTimers_only_clears (now : Z) (c : HealthContext.Context) :
  HealthContext.hasAlerts (HealthContext.fireTimers now c) = true ->
  HealthContext.hasAlerts c = true.
Proof.
  unfold HealthContext.fireTimers. cbn [HealthContext.hasAlerts].
  destruct (filter (fun t => t <=? now) (HealthContext.alertTimers c));
    [auto|discriminate].
Qed.

(** An event leaves the flag set only if it was set, or if the event is a
    reading that violates a bound. *)
Lemma handle_raises_only_on_violation
    (now : Z) (ev : Event) (c : HealthContext.Context) :
  HealthContext.hasAlerts (HealthContext.handle now ev c) = true ->
  HealthContext.hasAlerts c = true
  \/ exists data, ev = onHealthDataReceived data /\ HealthContext.boundViolated data.
Proof.
  destruct ev as [device|deviceId|data|state|e]; cbn [HealthContext.handle].
  - intros H. left. exact (fireTimers_only_clears now c H).
  - discriminate.
  - destruct (0 <? List.length (HealthContext.alerts data))%nat eqn:Halerts.
    + intros _. right. exists data. split; [reflexivity|].
      now apply alerts_iff_boundViolated.
    + unfold HealthContext.onHealthDataReceived, HealthContext.checkForAlerts.
      rewrite Halerts. cbn [HealthContext.hasAlerts].
      intros H. left. exact (fireTimers_only_clears now c H).
  - intros H. left. exact (fireTimers_only_clears now c H).
  - intros H. left. exact (fireTimers_only_clears now c H).
Qed.

(** X12.  The alert flag is never raised without cause: if it is set after the
    context has handled a sequence of events, starting with the flag off,
    one of them was a reading that violates a clinical bound.  Timers and
    the other events only clear it. *)
Theorem alert_only_after_a_violating_reading
    (stamped : list (Z * Event)) (c : HealthContext.Context)
    (Hoff : HealthContext.hasAlerts c = false)
    (Hset : HealthContext.hasAlerts (deliverAll stamped c) = true) :
  exists at_time data,
    In (at_time, onHealthDataReceived data) stamped
    /\ HealthContext.boundViolated data.
Proof.
  revert c Hoff Hset. induction stamped as [|[t ev] stamped IH]; intros c Hoff Hset.
  - cbn in Hset. congruence.
  - unfold deliverAll in Hset. cbn [fold_left fst snd] in Hset.
    fold (deliverAll stamped) in Hset.
    destruct (HealthContext.hasAlerts (HealthContext.handle t ev c)) eqn:Hstep.
    + destruct (handle_raises_only_on_violation t ev c Hstep)
        as [Hwas|[data [-> Hviolated]]]; [congruence|].
      exists t, data. split; [now left|exact Hviolated].
    + destruct (IH _ Hstep Hset) as [t' [data [Hin Hviolated]]].
      exists t', data. split; [now right|exact Hviolated].
Qed.

Lemma alert_only_after_a_violating_reading_witness :
  exists at_time data,
    In (at_time, onHealthDataReceived data)
       [(0, onConnectionStateChanged connected);
        (500, onHealthDataReceived (Scenarios.lowOxygen 500))]
    /\ HealthContext.boundViolated data.
Proof.
  apply (alert_only_after_a_violating_reading
           [(0, onConnectionStateChanged connected);
            (500, onHealthDataReceived (Scenarios.lowOxygen 500))]
           (HealthContext.initial 0)); reflexivity.
Defined.

Lemma filter_window_twice (earlier now : Z) (l : list HealthContext.HistoricalData) :
  earlier <= now ->
  filter (fun item => now - HealthContext.DAY <? HealthContext.timestamp item)
    (filter (fun item => earlier - HealthContext.DAY <? HealthContext.timestamp item) l)
  = filter (fun item => now - HealthContext.DAY <? HealthContext.timestamp item) l.
Proof.
  intros Hle. induction l as [|x l IHl]; [reflexivity|].
  cbn [filter].
  destruct (Z.ltb_spec (earlier - HealthContext.DAY) (HealthContext.timestamp x)).
  - cbn [filter]. now rewrite IHl.
  - rewrite IHl.
    destruct (Z.ltb_spec (now - HealthContext.DAY) (HealthContext.timestamp x));
      [lia|reflexivity].
Qed.

(** X13.  Pruning on every append loses nothing: when no reading arrived later
    than the last one, the history after the last append is the 24-hour
    window, taken once, of everything that was ever appended, in order. *)
Theorem history_is_the_window_of_all_readings
    (rs : list (Z * HealthDataPacket)) (now : Z) (data : HealthDataPacket)
    (c : HealthContext.Context)
    (Hclock : Forall (fun r => fst r <= now) rs) :
  HealthContext.historicalData (HealthContext.receive (rs ++ [(now, data)]) c)
  = filter (fun item => now - HealthContext.DAY <? HealthContext.timestamp item)
      (HealthContext.historicalData c
       ++ map (fun r => HealthContext.entryOf (snd r)) rs
       ++ [HealthContext.entryOf data]).
Proof.
  revert c. induction Hclock as [|r rs Hr Hrest IH]; intros c.
  - cbn [app map]. unfold HealthContext.receive. cbn [fold_left fst snd].
    cbn [HealthContext.handle].
    now rewrite onHealthDataReceived_history, fireTimers_history.
  - cbn [app map]. unfold HealthContext.receive. cbn [fold_left].
    fold (HealthContext.receive (rs ++ [(now, data)])).
    rewrite IH. cbn [HealthContext.handle].
    rewrite onHealthDataReceived_history, fireTimers_history.
    unfold HealthContext.appendHistory.
    rewrite filter_app, (filter_window_twice _ _ _ Hr), <- filter_app.
    now rewrite <- app_assoc.
Qed.

Lemma history_is_the_window_of_all_readings_witness :
  map HealthContext.timestamp
    (HealthContext.historicalData
       (HealthContext.receive
          ([(0, Scenarios.healthy 0); (72000000, Scenarios.healthy 72000000)]
           ++ [(108000000, Scenarios.healthy 108000000)])
          (HealthContext.initial 0)))
  = [72000000; 108000000].
Proof.
  rewrite (history_is_the_window_of_all_readings
             [(0, Scenarios.healthy 0); (72000000, Scenarios.healthy 72000000)]
             108000000 (Scenarios.healthy 108000000) (HealthContext.initial 0)).
  - reflexivity.
  - repeat constructor; cbn; lia.
Defined.

(** The partial reading of one notification holds at most one of heart
    rate, temperature and oxygen saturation. *)
Lemma parseCharacteristic_one_vital (u : string) (payload : ArrayBuffer)
    (h : PartialPacket) :
  parseCharacteristic u payload = Normal h ->
  (p_heartRate h = None /\ p_temperature h = None)
  \/ (p_heartRate h = None /\ p_oxygenLevel h = None)
  \/ (p_temperature h = None /\ p_oxygenLevel h = None).
Proof.
  unfold parseCharacteristic, bindC.
  repeat match goal with
         | |- context [String.eqb ?a ?b] => destruct (String.eqb a b)
         end;
    try match goal with
        | |- context [match ?p with Normal _ => _ | Thrown _ => _ end] => destruct p
        end;
    intros Heq; try discriminate Heq; injection Heq as <-; cbn; auto.
Qed.

(** X14.  No merging of partial readings: the context replaces its current
    vitals by the packet as it is, so after any reading a listener emits, at
    least two of heart rate, temperature and oxygen saturation read 0 on the
    screen, whatever they were, and [lastUpdated] is the time of the
    notification. *)
Theorem partial_reading_zeroes_the_other_vitals
    (now : Z) (ch : Characteristic) (m : Manager) (data : HealthDataPacket)
    (arrival : Z) (c : HealthContext.Context)
    (Hemitted :
       In (onHealthDataReceived data)
          (skipn (List.length (bus m))
             (bus (exec (handleCharacteristicValue now ch) m)))) :
  let shown := HealthContext.currentData
                 (HealthContext.handle arrival (onHealthDataReceived data) c) in
  HealthContext.lastUpdated shown = now
  /\ ((HealthContext.heartRate shown = 0%Q /\ HealthContext.temperature shown = 0%Q)
      \/ (HealthContext.heartRate shown = 0%Q /\ HealthContext.oxygenLevel shown = 0%Q)
      \/ (HealthContext.temperature shown = 0%Q
          /\ HealthContext.oxygenLevel shown = 0%Q)).
Proof.
  cbv zeta.
  assert (Hshown : HealthContext.currentData
                     (HealthContext.handle arrival (onHealthDataReceived data) c)
                   = HealthContext.mkHealthData (heartRate data)
                       (bloodPressureSystolic data) (bloodPressureDiastolic data)
                       (temperature data) (oxygenLevel data) (timestamp data)).
  { unfold HealthContext.handle, HealthContext.onHealthDataReceived,
      HealthContext.checkForAlerts.
    destruct (0 <? List.length (HealthContext.alerts data))%nat; reflexivity. }
  rewrite Hshown.
  cbn [HealthContext.lastUpdated HealthContext.heartRate HealthContext.temperature
       HealthContext.oxygenLevel].
  revert Hemitted. unfold exec. rewrite handleCharacteristicValue_cases. cbn [snd].
  destruct (value ch) as [payload|].
  - destruct (parseCharacteristic (uuid ch) payload) as [h|e] eqn:Hparse.
    + destruct (0 <? keys h)%nat.
      * destruct m; cbn [bus set_bus]. rewrite skipn_bus_app.
        intros [Heq|[]]. injection Heq as <-.
        split; [reflexivity|].
        unfold makePacket.
        cbn [heartRate temperature oxygenLevel].
        destruct (parseCharacteristic_one_vital _ _ _ Hparse)
          as [[H1 H2]|[[H1 H2]|[H1 H2]]]; rewrite H1, H2; cbn [orZero]; auto.
      * rewrite <- (app_nil_r (bus m)) at 2. rewrite skipn_bus_app. intros [].
    + destruct m; cbn [bus set_bus set_console]. rewrite skipn_bus_app.
      intros [Heq|[]]. discriminate Heq.
  - rewrite <- (app_nil_r (bus m)) at 2. rewrite skipn_bus_app. intros [].
Qed.

Lemma partial_reading_zeroes_the_other_vitals_witness :
  let shown :=
    HealthContext.currentData
      (HealthContext.handle 2000
         (onHealthDataReceived (mkPacket 72 0 0 0 0 0 2000 "bracelet-1"))
         (HealthContext.initial 0)) in
  HealthContext.lastUpdated shown = 2000.
Proof.
  cbv zeta.
  exact (proj1 (partial_reading_zeroes_the_other_vitals
                  2000 Scenarios.heartRate72 Scenarios.connectedManager
                  (mkPacket 72 0 0 0 0 0 2000 "bracelet-1") 2000
                  (HealthContext.initial 0)
                  ltac:(vm_compute; auto))).
Defined.

End ContextBehaviour.

(** ** Permissions and discovered devices                              *)

Section Permissions.
Import Js BluetoothPermissions.
Local Open Scope string_scope.

Lemma checkEach_spec (env : Platform) (names : list string) (acc : Permissions)
    (o : Outside) :
  fst (checkEach env names acc o)
  = Normal (fold_left (fun p name => setKey name (holds env name) p) names acc)
  /\ asked (snd (checkEach env names acc o)) = (asked o ++ names)%list.
Proof.
  revert acc o. induction names as [|name names IH]; intros acc o.
  - cbn. now rewrite app_nil_r.
  - cbn [checkEach fold_left].
    assert (Hh : holds env name
                 = match check env name with Normal true => true | _ => false end)
      by reflexivity.
    destruct (check env name) as [[|]|e]; rewrite Hh;
      cbv beta iota delta [bind try_catch ask modify settle_value ret throw console_error];
      match goal with
      | |- context [checkEach env names ?a ?s] =>
          destruct (IH a s) as [H1 H2]; rewrite H1, H2
      end; cbn [asked]; rewrite <- app_assoc; split; reflexivity.
Qed.

Lemma requestEach_spec (env : Platform) (names : list string) (acc : Permissions)
    (o : Outside) :
  fst (requestEach env names acc o)
  = Normal (fold_left (fun p name => setKey name (grants env name) p) names acc)
  /\ asked (snd (requestEach env names acc o)) = (asked o ++ names)%list.
Proof.
  revert acc o. induction names as [|name names IH]; intros acc o.
  - cbn. now rewrite app_nil_r.
  - cbn [requestEach fold_left].
    assert (Hg : grants env name
                 = match request env name with
                   | Normal answer => String.eqb answer GRANTED
                   | Thrown _ => false
                   end)
      by reflexivity.
    destruct (request env name) as [answer|e]; rewrite Hg;
      cbv beta iota delta [bind try_catch ask modify settle_value ret throw console_error];
      match goal with
      | |- context [requestEach env names ?a ?s] =>
          destruct (IH a s) as [H1 H2]; rewrite H1, H2
      end; cbn [asked]; rewrite <- app_assoc; split; reflexivity.
Qed.

(** What [checkAllPermissions] returns and asks, for every platform. *)
Lemma checkAllPermissions_result (env : Platform) (o : Outside) :
  fst (checkAllPermissions env o)
  = Normal
      (if String.eqb (OS env) "android"
       then mkResult (holds env BLUETOOTH_SCAN && holds env BLUETOOTH_CONNECT
                      && holds env ACCESS_FINE_LOCATION)
              [(BLUETOOTH_SCAN, holds env BLUETOOTH_SCAN);
               (BLUETOOTH_CONNECT, holds env BLUETOOTH_CONNECT);
               (ACCESS_FINE_LOCATION, holds env ACCESS_FINE_LOCATION)]
       else mkResult true [("bluetooth", true)])
  /\ asked (snd (checkAllPermissions env o))
     = (asked o ++ (if String.eqb (OS env) "android" then androidPermissions else []))%list.
Proof.
  unfold checkAllPermissions, try_catch, bind, ret.
  destruct (String.eqb (OS env) "android").
  - destruct (checkEach_spec env androidPermissions [] o) as [H1 H2].
    destruct (checkEach env androidPermissions [] o) as [r o'].
    cbn [fst snd] in H1, H2. subst r. cbn [fst snd].
    split; [|exact H2].
    cbn. now rewrite andb_true_r, andb_assoc.
  - cbn. now rewrite app_nil_r.
Qed.

(** X15.  [checkAllPermissions] fails closed and never throws.  On Android it
    asks the platform about the three permissions, in this order, whatever
    the answers; a check that throws counts as a refusal and does not stop
    the loop; [granted] says that all three checks resolved to true, and
    [permissions] holds the three answers.  On another platform it asks
    nothing and grants. *)
Theorem checkAllPermissions_fails_closed (env : Platform) (o : Outside) :
  exists result : PermissionResult,
    fst (checkAllPermissions env o) = Normal result
    /\ (if String.eqb (OS env) "android"
        then granted result
             = forallb (fun permission =>
                          match check env permission with
                          | Normal true => true
                          | _ => false
                          end) androidPermissions
             /\ map fst (permissions result) = androidPermissions
             /\ asked (snd (checkAllPermissions env o))
                = (asked o ++ androidPermissions)%list
        else granted result = true
             /\ asked (snd (checkAllPermissions env o)) = asked o).
Proof.
  destruct (checkAllPermissions_result env o) as [H1 H2].
  eexists. split; [exact H1|].
  destruct (String.eqb (OS env) "android").
  - cbn [granted permissions map fst forallb androidPermissions].
    fold (holds env BLUETOOTH_SCAN) (holds env BLUETOOTH_CONNECT)
         (holds env ACCESS_FINE_LOCATION).
    rewrite andb_true_r, andb_assoc. repeat split. exact H2.
  - cbn [granted]. split; [reflexivity|]. now rewrite H2, app_nil_r.
Qed.

(** X16.  [requestAllPermissions] on Android requests each of the three
    permissions, in this order, also after a refusal or after a request that
    throws, and never throws itself; [granted] says that every request was
    answered 'granted'.  On another platform it requests nothing and
    grants. *)
Theorem requestAllPermissions_requests_every_permission (env : Platform) (o : Outside) :
  exists result : PermissionResult,
    fst (requestAllPermissions env o) = Normal result
    /\ (if String.eqb (OS env) "android"
        then granted result
             = forallb (fun permission =>
                          match request env permission with
                          | Normal answer => String.eqb answer "granted"
                          | Thrown _ => false
                          end) androidPermissions
             /\ map fst (permissions result) = androidPermissions
             /\ asked (snd (requestAllPermissions env o))
                = (asked o ++ androidPermissions)%list
        else granted result = true
             /\ asked (snd (requestAllPermissions env o)) = asked o).
Proof.
  unfold requestAllPermissions, try_catch, bind, ret.
  destruct (String.eqb (OS env) "android").
  - destruct (requestEach_spec env androidPermissions [] o) as [H1 H2].
    destruct (requestEach env androidPermissions [] o) as [r o'].
    cbn [fst snd] in H1, H2. subst r. cbn [fst snd].
    eexists. split; [reflexivity|].
    cbn [granted permissions].
    split; [|split; [reflexivity|exact H2]].
    cbn [androidPermissions fold_left setKey String.eqb forallb map snd].
    cbn. unfold grants, GRANTED. now rewrite !andb_true_r.
  - eexists. split; [reflexivity|]. cbn. split; reflexivity.
Qed.

(** What [getPermissionStatus] returns, for every platform. *)
Lemma getPermissionStatus_result (env : Platform) (o : Outside) :
  fst (getPermissionStatus env o)
  = Normal
      (if String.eqb (OS env) "android"
       then mkStatus true true
              (holds env BLUETOOTH_SCAN && holds env BLUETOOTH_CONNECT
               && holds env ACCESS_FINE_LOCATION)
              (filter (fun permission => negb (holds env permission)) androidPermissions)
              (OS env)
       else mkStatus true true true [] (OS env)).
Proof.
  unfold getPermissionStatus, try_catch, bind at 1, isBluetoothAvailable, try_catch, ret.
  unfold bind at 1.
  destruct (checkAllPermissions_result env o) as [H1 _].
  destruct (checkAllPermissions env o) as [r o'].
  cbn [fst] in H1. subst r.
  destruct (String.eqb (OS env) "android"); cbn [granted permissions fst snd].
  - cbn [filter map fst snd androidPermissions].
    destruct (holds env BLUETOOTH_SCAN), (holds env BLUETOOTH_CONNECT),
      (holds env ACCESS_FINE_LOCATION); reflexivity.
  - reflexivity.
Qed.

(** X17.  [getPermissionStatus] never throws; it always reports Bluetooth as
    available and enabled; on Android the missing permissions are exactly
    those of the three whose check did not resolve to true, in the order asked,
    and [permissionsGranted] holds exactly when none is missing. *)
Theorem getPermissionStatus_missing_are_the_refused (env : Platform) (o : Outside) :
  exists status : PermissionStatus,
    fst (getPermissionStatus env o) = Normal status
    /\ bluetoothAvailable status = true
    /\ bluetoothEnabled status = true
    /\ platform status = OS env
    /\ missingPermissions status
       = (if String.eqb (OS env) "android"
          then filter (fun permission =>
                         match check env permission with
                         | Normal true => false
                         | _ => true
                         end) androidPermissions
          else [])
    /\ permissionsGranted status
       = match missingPermissions status with [] => true | _ :: _ => false end.
Proof.
  eexists. split; [apply getPermissionStatus_result|].
  destruct (String.eqb (OS env) "android");
    cbn [bluetoothAvailable bluetoothEnabled platform missingPermissions
         permissionsGranted]; repeat split.
  - unfold holds. cbn [filter androidPermissions].
    destruct (check env BLUETOOTH_SCAN) as [[|]|], (check env BLUETOOTH_CONNECT) as [[|]|],
      (check env ACCESS_FINE_LOCATION) as [[|]|]; reflexivity.
  - cbn [filter androidPermissions].
    destruct (holds env BLUETOOTH_SCAN), (holds env BLUETOOTH_CONNECT),
      (holds env ACCESS_FINE_LOCATION); reflexivity.
Qed.

(** X18.  [canProceedWithBluetooth] never throws and decides on the permissions
    alone: it answers yes exactly when the platform is not Android or the
    three checks resolved to true; when it answers no, the reason is always
    the missing permissions.  It never reports that Bluetooth is unavailable
    or switched off, and never asks to enable it. *)
Theorem canProceedWithBluetooth_decides_on_permissions_alone
    (env : Platform) (o : Outside) :
  let allowed :=
    negb (String.eqb (OS env) "android")
    || forallb (fun permission =>
                  match check env permission with
                  | Normal true => true
                  | _ => false
                  end) androidPermissions in
  fst (canProceedWithBluetooth env o)
  = Normal (if allowed
            then mkReadiness true None false false
            else mkReadiness false (Some "Bluetooth permissions are required")
                   true false).
Proof.
  cbv zeta.
  unfold canProceedWithBluetooth, try_catch, bind.
  pose proof (getPermissionStatus_result env o) as H1.
  destruct (getPermissionStatus env o) as [r o'].
  cbn [fst] in H1. subst r.
  cbn [forallb androidPermissions].
  fold (holds env BLUETOOTH_SCAN) (holds env BLUETOOTH_CONNECT)
       (holds env ACCESS_FINE_LOCATION).
  destruct (String.eqb (OS env) "android");
    cbn [bluetoothAvailable bluetoothEnabled permissionsGranted negb orb].
  - destruct (holds env BLUETOOTH_SCAN), (holds env BLUETOOTH_CONNECT),
      (holds env ACCESS_FINE_LOCATION); reflexivity.
  - reflexivity.
Qed.

End Permissions.

Section Discovery.
Import DeviceSelection.
Local Open Scope string_scope.

Lemma existsb_same_id (device : BluetoothDevice) (prev : list BluetoothDevice) :
  existsb (fun d => String.eqb (id d) (id device)) prev = true
  <-> In (id device) (map id prev).
Proof.
  rewrite existsb_exists, in_map_iff. split.
  - intros [d [Hin Heq]]. apply String.eqb_eq in Heq. now exists d.
  - intros [d [Heq Hin]]. exists d. split; [exact Hin|]. now apply String.eqb_eq.
Qed.

Lemma devicesAfter_snoc (events : list BluetoothDevice) (device : BluetoothDevice) :
  devicesAfter (events ++ [device]) = onDeviceDiscovered device (devicesAfter events).
Proof. unfold devicesAfter. now rewrite fold_left_app. Qed.

Lemma find_snoc {A} (f : A -> bool) (l : list A) (a : A) :
  find f (l ++ [a])
  = match find f l with
    | Some x => Some x
    | None => if f a then Some a else None
    end.
Proof.
  induction l as [|x l IH]; cbn; [reflexivity|].
  destruct (f x); [reflexivity|exact IH].
Qed.

Lemma devicesAfter_spec (events : list BluetoothDevice) :
  NoDup (map id (devicesAfter events))
  /\ incl (map id events) (map id (devicesAfter events))
  /\ Forall (fun d => find (fun e => String.eqb (id e) (id d)) events = Some d)
       (devicesAfter events).
Proof.
  induction events as [|device events IH] using rev_ind.
  - cbn. repeat split; [constructor|apply incl_refl|constructor].
  - destruct IH as [Hnodup [Hincl Hfirst]].
    rewrite devicesAfter_snoc. unfold onDeviceDiscovered.
    destruct (existsb (fun d => String.eqb (id d) (id device)) (devicesAfter events))
      eqn:Hseen.
    + apply existsb_same_id in Hseen.
      split; [exact Hnodup|]. split.
      * rewrite map_app. apply incl_app; [exact Hincl|].
        intros x [<-|[]]. exact Hseen.
      * eapply Forall_impl; [|exact Hfirst].
        intros d Hd. rewrite find_snoc, Hd. reflexivity.
    + assert (Hnew : ~ In (id device) (map id (devicesAfter events))).
      { intros Hin. apply existsb_same_id in Hin. congruence. }
      split; [|split].
      * rewrite map_app. cbn [map].
        apply NoDup_app; [exact Hnodup|constructor; [intros []|constructor]|].
        intros x Hx [<-|[]]. exact (Hnew Hx).
      * rewrite !map_app. apply incl_app.
        -- apply incl_appl. exact Hincl.
        -- apply incl_appr. apply incl_refl.
      * apply Forall_app. split.
        -- eapply Forall_impl; [|exact Hfirst].
           intros d Hd. rewrite find_snoc, Hd. reflexivity.
        -- constructor; [|constructor].
           rewrite find_snoc.
           destruct (find (fun e => String.eqb (id e) (id device)) events) as [d|] eqn:Hfind.
           ++ exfalso. apply find_some in Hfind. destruct Hfind as [Hin Heq].
              apply String.eqb_eq in Heq. apply Hnew. apply Hincl.
              rewrite <- Heq. now apply in_map.
           ++ now rewrite String.eqb_refl.
Qed.

Lemma orUnknown_not_empty (x : option string) : orUnknown x <> "".
Proof. destruct x as [[|c s]|]; cbn; discriminate. Qed.

(** X19.  The list of the device-selection modal after a scan names every
    discovered device once: no two entries share an id, every id seen is
    listed, and the entry of an id is its first discovery event, so a later
    event for the same device (a newer signal strength or name) changes
    nothing.  Fed by the manager's discovery listener, no entry has an empty
    name: a device without a name is listed as 'Unknown Device'. *)
Theorem modal_lists_each_device_once_as_first_seen
    (events : list BluetoothDevice) (platformDevices : list PlatformDevice) :
  NoDup (map id (devicesAfter events))
  /\ incl (map id events) (map id (devicesAfter events))
  /\ Forall (fun d => find (fun e => String.eqb (id e) (id d)) events = Some d)
       (devicesAfter events)
  /\ Forall (fun d => name d <> "") (devicesAfter (map discovered platformDevices)).
Proof.
  destruct (devicesAfter_spec events) as [Hnodup [Hincl Hfirst]].
  repeat split; try assumption.
  destruct (devicesAfter_spec (map discovered platformDevices)) as [_ [_ Hfrom]].
  eapply Forall_impl; [|exact Hfrom].
  intros d Hd. apply find_some in Hd. destruct Hd as [Hin _].
  apply in_map_iff in Hin. destruct Hin as [pd [<- _]].
  apply orUnknown_not_empty.
Qed.

End Discovery.

(** ** The WiFi manager                                                *)

Section WiFiManager.
Import Js WiFi.

(** The percentage [calculateSignalStrength] gives for a strength in dBm:
    0 up to -100 dBm, 100 from -50 dBm on, two points per dBm in between. *)
Lemma calculateSignalStrength_Num (dBm : Q) :
  (calculateSignalStrength (Num dBm)
   == if Qle_bool dBm (-100) then 0
      else if Qle_bool (-50) dBm then 100
      else (dBm + 100) * 2)%Q.
Proof.
  unfold calculateSignalStrength, toNumber.
  destruct (Qle_bool dBm (-100)) eqn:Hlow.
  - apply Qle_bool_iff in Hlow.
    rewrite Q.max_l; [reflexivity|].
    eapply Qle_trans; [apply Q.le_min_r|].
    unfold Qle in *. cbn in *. lia.
  - assert (Hlow' : (-100 < dBm)%Q).
    { apply Qnot_le_lt. intros H. apply Qle_bool_iff in H. congruence. }
    destruct (Qle_bool (-50) dBm) eqn:Hhigh.
    + apply Qle_bool_iff in Hhigh.
      rewrite Q.min_l; [now apply Q.max_r|].
      unfold Qle in *. cbn in *. lia.
    + assert (Hhigh' : (dBm < -50)%Q).
      { apply Qnot_le_lt. intros H. apply Qle_bool_iff in H. congruence. }
      rewrite Q.min_r; [apply Q.max_r|];
        unfold Qle, Qlt in *; cbn in *; lia.
Qed.

Lemma calculateSignalStrength_range (strength : Strength) :
  (0 <= calculateSignalStrength strength <= 100)%Q.
Proof.
  assert (Hbounded : forall x : Q, (0 <= Qmax 0 (Qmin 100 x) <= 100)%Q).
  { intros x. split; [apply Q.le_max_l|].
    apply Q.max_lub; [discriminate|apply Q.le_min_l]. }
  destruct strength; cbn [calculateSignalStrength]; try apply Hbounded.
  split; [apply Qle_refl|discriminate].
Qed.



Ltac run_wifi :=
  cbv beta iota zeta
      delta [step exec handleNetworkStateChange switchConnectionType
             handleHealthDataFromDevice transmitDataViaWiFi handleTransmissionFailure
             updateConnectionType set_connectionStatus set_connectionType emit
             console_log bind ret get modify try_catch settle throw
             fst snd connectionStatus connectionType emitted console storedOffline].

Lemma step_consistent (op : Op) (w : WiFiManager) :
  consistent w -> consistent (step op w).
Proof.
  destruct w as [[c s q i sm g l] t em co so].
  unfold consistent. cbn [connectionStatus connected signalStrength lastSync].
  intros [Hroute [Hrange Hsync]].
  destruct op as [now bt state|type bt|now store json data].
  - run_wifi. cbn [connected].
    destruct (strictNotEqual (isNowConnected state) c).
    + destruct (ManagerApi.isConnected bt), (truthy (isNowConnected state)) eqn:Hnow;
        cbn [andb routesOverWiFi connectionType connectionStatus connected
             signalStrength lastSync];
        rewrite ?Hnow;
        (split; [reflexivity|split; [apply calculateSignalStrength_range|]]);
        split; congruence.
    + cbn [routesOverWiFi connectionType connectionStatus connected signalStrength
           lastSync]. auto.
  - run_wifi. destruct (String.eqb type "auto").
    + cbn [connected].
      destruct (ManagerApi.isConnected bt), (truthy c) eqn:Hc;
        cbn [andb routesOverWiFi connectionType connectionStatus connected
             signalStrength lastSync];
        rewrite ?Hc; (split; [reflexivity|split; [exact Hrange|exact Hsync]]).
    + cbn [routesOverWiFi connectionType connectionStatus connected signalStrength
           lastSync]. auto.
  - run_wifi. destruct t;
      cbn [routesOverWiFi connectionType connectionStatus connected signalStrength
           lastSync]; auto.
Qed.

Lemma run_consistent (ops : list Op) (w : WiFiManager) :
  consistent w -> consistent (run ops w).
Proof.
  revert w. induction ops as [|op ops IH]; intros w Hw; [exact Hw|].
  cbn [run fold_left]. apply IH, step_consistent, Hw.
Qed.

Lemma initial_consistent : consistent initial.
Proof.
  unfold consistent. cbn. repeat split; try discriminate; auto.
Qed.


(** X22.  A reading the Bluetooth manager hands over is transmitted over WiFi,
    once, exactly when the status says WiFi is connected, whatever happened
    before; the handler does not throw, and it leaves the reading out of the
    offline store also when it does not transmit it. *)
Theorem reading_is_transmitted_exactly_while_wifi_is_connected
    (ops : list Op) (now : Z) (store : option Error) (json : string)
    (data : Manager.HealthDataPacket) :
  let w := run ops initial in
  let w' := exec (handleHealthDataFromDevice now store json data) w in
  emitted w'
  = emitted w
    ++ (if truthy (connected (connectionStatus w))
        then [onDataTransmitted (Manager.deviceId data) (String.length json)]
        else [])
  /\ throws (handleHealthDataFromDevice now store json data) w = false
  /\ storedOffline w' = storedOffline w
  /\ connectionStatus w' = connectionStatus w
  /\ connectionType w' = connectionType w.
Proof.
  cbv zeta.
  destruct (run_consistent ops initial initial_consistent) as [Hroute _].
  rewrite <- Hroute. unfold routesOverWiFi, throws.
  generalize (run ops initial). intros w.
  destruct w as [st t em co so].
  run_wifi.
  destruct t; cbn; rewrite ?app_nil_r; repeat split; reflexivity.
Qed.

End WiFiManager.

(** ** The API client                                                  *)

Section ApiClient.
Import Api.
Local Open Scope string_scope.

Context {A : Type}.

(** One request through the interceptors: what it counts and what it gives. *)
Lemma request_traffic (net : Network A) (t : Traffic) :
  sent (snd (request net t)) = S (sent t)
  /\ waits (snd (request net t)) = waits t.
Proof.
  unfold request, onRejected, handleAuthError.
  destruct (dispatch net (sent t)) as [r|e]; [split; reflexivity|].
  destruct (response e) as [r|]; [|split; reflexivity].
  destruct (status r =? 401)%Z; [|split; reflexivity].
  destruct (deleteItemAsync net "auth_token"); [split; reflexivity|].
  destruct (deleteItemAsync net "refresh_token"); split; reflexivity.
Qed.

Lemma request_result (net : Network A) (t : Traffic) :
  match fst (request net t) with
  | inl response => dispatch net (sent t) = inl response
  | inr rejection =>
      retryCondition rejection = true
      /\ exists e, dispatch net (sent t) = inr e
                   /\ (rejection = Transformed (transformError e)
                       \/ exists failure, rejection = StoreFailure failure)
  end.
Proof.
  unfold request, onRejected, handleAuthError.
  destruct (dispatch net (sent t)) as [r|e]; [reflexivity|].
  destruct (response e) as [r|];
    [|cbn; split; [reflexivity|exists e; auto]].
  destruct (status r =? 401)%Z;
    [|cbn; split; [reflexivity|exists e; auto]].
  destruct (deleteItemAsync net "auth_token") as [failure|];
    [cbn; split; [reflexivity|exists e; split; [reflexivity|right; now exists failure]]|].
  destruct (deleteItemAsync net "refresh_token") as [failure|];
    cbn; (split; [reflexivity|exists e; split; [reflexivity|]]);
    [right; now exists failure|now left].
Qed.

(** [retryRequest] with [j] retries left. *)
Lemma retryRequest_spec (net : Network A) (j : nat) :
  forall (fuel : nat) (t : Traffic),
    (j <= 3)%nat -> (j + 1 <= fuel)%nat ->
    exists result t' n,
      retryRequest fuel net (3 - Z.of_nat j) t = Some (result, t')
      /\ (1 <= n <= j + 1)%nat
      /\ sent t' = (sent t + n)%nat
      /\ waits t'
         = (waits t
            ++ map (fun i => 1000 * (3 - Z.of_nat j + 1 + Z.of_nat i)) (seq 0 (n - 1)))%list
      /\ (forall k, (k < n - 1)%nat -> exists e, dispatch net (sent t + k) = inr e)
      /\ match result with
         | inl response => dispatch net (sent t + (n - 1)) = inl response
         | inr rejection =>
             n = (j + 1)%nat
             /\ exists e, dispatch net (sent t + (n - 1)) = inr e
                          /\ (rejection = Transformed (transformError e)
                              \/ exists failure, rejection = StoreFailure failure)
         end.
Proof.
  induction j as [|j IH]; intros fuel t Hj Hfuel;
    (destruct fuel as [|fuel]; [lia|]);
    cbn [retryRequest];
    destruct (request_traffic net t) as [Hsent Hwaits];
    pose proof (request_result net t) as Hresult;
    destruct (request net t) as [[response|rejection] t1];
    cbn [fst snd] in Hsent, Hwaits, Hresult.
  - exists (inl response), t1, 1%nat. cbn [seq map Nat.sub].
    rewrite app_nil_r, Nat.add_0_r.
    repeat split; try lia; try assumption; intros k Hk; lia.
  - destruct Hresult as [Hretry Hfailed]. cbn [Z.of_nat].
    replace (3 - 0 <? maxRetries)%Z with false by reflexivity. cbn [andb].
    exists (inr rejection), t1, 1%nat. cbn [seq map Nat.sub].
    rewrite app_nil_r, Nat.add_0_r.
    repeat split; try lia; try assumption; intros k Hk; lia.
  - exists (inl response), t1, 1%nat. cbn [seq map Nat.sub].
    rewrite app_nil_r, Nat.add_0_r.
    repeat split; try lia; try assumption; intros k Hk; lia.
  - destruct Hresult as [Hretry [e [He Hkind]]]. rewrite Hretry, andb_true_r.
    replace (3 - Z.of_nat (S j) <? maxRetries)%Z with true
      by (symmetry; apply Z.ltb_lt; unfold maxRetries; lia).
    replace (3 - Z.of_nat (S j) + 1)%Z with (3 - Z.of_nat j)%Z by lia.
    destruct (IH fuel
                (mkTraffic (sent t1) (waits t1 ++ [retryDelay * (3 - Z.of_nat j)])
                   (deleted t1) (warnings t1)))
      as [result [t' [n [Hrun [Hn [Hsent' [Hwaits' [Hearlier Hlast]]]]]]]]; try lia.
    cbn [sent waits] in Hsent', Hwaits', Hearlier, Hlast.
    exists result, t', (S n). split; [exact Hrun|].
    split; [lia|]. split; [lia|]. split; [|split].
    + rewrite Hwaits', Hwaits, <- app_assoc. f_equal.
      replace (S n - 1)%nat with (S (n - 1)) by lia.
      cbn [seq map app]. f_equal; [unfold retryDelay; lia|].
      rewrite <- seq_shift, map_map. apply map_ext. intros i. lia.
    + intros k Hk. destruct k as [|k].
      * exists e. now rewrite Nat.add_0_r.
      * destruct (Hearlier k) as [e' He']; [lia|].
        exists e'. rewrite <- He'. f_equal. lia.
    + replace (sent t + (S n - 1))%nat with (sent t1 + (n - 1))%nat by lia.
      destruct result as [response|rejection'];
        [exact Hlast|destruct Hlast as [Hn' Hlast]; split; [lia|exact Hlast]].
Qed.

(** X23.  [retryRequest] retries every failure, whatever its kind: what it
    catches went through the response interceptor, which hands on an error
    object without a [response], and the retry condition is true of these.
    So it sends up to four requests, stops at the first that succeeds, waits
    1, 2 and 3 seconds between them, and gives up only after the fourth
    failure, also for a response with status 400 or 401. *)
Theorem retryRequest_retries_every_failure
    (net : Network A) (t : Traffic) (fuel : nat) (Hfuel : (4 <= fuel)%nat) :
  exists result t' n,
    retryRequest fuel net 0 t = Some (result, t')
    /\ (1 <= n <= 4)%nat
    /\ sent t' = (sent t + n)%nat
    /\ waits t' = (waits t ++ firstn (n - 1) [1000; 2000; 3000])%list
    /\ (forall k, (k < n - 1)%nat -> exists e, dispatch net (sent t + k) = inr e)
    /\ match result with
       | inl response => dispatch net (sent t + (n - 1)) = inl response
       | inr rejection =>
           n = 4%nat
           /\ retryCondition rejection = true
           /\ exists e, dispatch net (sent t + 3) = inr e
                        /\ (rejection = Transformed (transformError e)
                            \/ exists failure, rejection = StoreFailure failure)
       end.
Proof.
  destruct (retryRequest_spec net 3 fuel t) as
    [result [t' [n [Hrun [Hn [Hsent [Hwaits [Hearlier Hlast]]]]]]]]; try lia.
  exists result, t', n. split; [exact Hrun|].
  split; [lia|]. split; [exact Hsent|]. split; [|split; [exact Hearlier|]].
  - rewrite Hwaits. f_equal.
    destruct n as [|[|[|[|[|n]]]]]; try lia; reflexivity.
  - destruct result as [response|rejection]; [exact Hlast|].
    destruct Hlast as [Hn' Hlast]. split; [exact Hn'|].
    subst n. split; [|exact Hlast].
    destruct Hlast as [e [_ [Hkind|[failure Hkind]]]]; subst rejection; reflexivity.
Qed.

(** [withRetry] with [j] retries left, at [attempt]. *)
Lemma retryLoop_spec (operation : nat -> Outcome A) (maxRetries : Z) (j : nat) :
  forall (fuel : nat) (attempt : Z) (lastError : option ApiError) (a : Attempts),
    Z.of_nat j = (maxRetries - attempt)%Z -> (j + 1 <= fuel)%nat ->
    exists result a' n,
      retryLoop fuel operation maxRetries attempt lastError a = Some (result, a')
      /\ (1 <= n <= j + 1)%nat
      /\ calls a' = (calls a + n)%nat
      /\ slept a'
         = (slept a
            ++ map (fun i => 2 ^ (attempt + Z.of_nat i) * 1000)%Z (seq 0 (n - 1)))%list
      /\ (forall k, (k < n - 1)%nat ->
                    exists error, operation (calls a + k)%nat = Rejected error
                                  /\ isRecoverableError (asError error) = true)
      /\ match result with
         | inl value => operation (calls a + (n - 1))%nat = Resolved value
         | inr thrown =>
             exists error,
               operation (calls a + (n - 1))%nat = Rejected error
               /\ thrown = Info (handleError (asError error))
               /\ (isRecoverableError (asError error) = false \/ n = (j + 1)%nat)
         end.
Proof.
  induction j as [|j IH]; intros fuel attempt lastError a Hj Hfuel;
    (destruct fuel as [|fuel]; [lia|]);
    cbn [retryLoop];
    (replace (attempt <=? maxRetries)%Z with true by (symmetry; apply Z.leb_le; lia));
    destruct (operation (calls a)) as [value|error] eqn:Hcall.
  - exists (inl value), (mkAttempts (S (calls a)) (slept a) (logged a)), 1%nat.
    cbn [seq map Nat.sub calls slept]. rewrite app_nil_r, Nat.add_0_r.
    repeat split; try lia; try assumption; intros k Hk; lia.
  - exists (inr (Info (handleError (asError error)))),
      (mkAttempts (S (calls a)) (slept a) (logged a)), 1%nat.
    replace (attempt =? maxRetries)%Z with true by (symmetry; apply Z.eqb_eq; lia).
    cbn [handleError info_isRecoverable].
    destruct (isRecoverableError (asError error)) eqn:Hrec; cbn [negb];
      cbn [seq map Nat.sub calls slept]; rewrite app_nil_r, Nat.add_0_r;
      (split; [reflexivity|]); (split; [lia|]); (split; [lia|]);
      (split; [reflexivity|]); (split; [intros k Hk; lia|]);
      exists error; auto.
  - exists (inl value), (mkAttempts (S (calls a)) (slept a) (logged a)), 1%nat.
    cbn [seq map Nat.sub calls slept]. rewrite app_nil_r, Nat.add_0_r.
    repeat split; try lia; try assumption; intros k Hk; lia.
  - cbn [handleError info_isRecoverable].
    destruct (isRecoverableError (asError error)) eqn:Hrec; cbn [negb].
    + replace (attempt =? maxRetries)%Z with false by (symmetry; apply Z.eqb_neq; lia).
      match goal with
      | |- context [retryLoop fuel operation maxRetries (attempt + 1) ?l ?b] =>
          destruct (IH fuel (attempt + 1)%Z l b)
            as [result [a' [n [Hrun [Hn [Hcalls [Hslept [Hearlier Hlast]]]]]]]];
            try lia
      end.
      cbn [calls slept] in Hcalls, Hslept, Hearlier, Hlast.
      exists result, a', (S n). split; [exact Hrun|].
      split; [lia|]. split; [lia|]. split; [|split].
      * rewrite Hslept, <- app_assoc. f_equal.
        replace (S n - 1)%nat with (S (n - 1)) by lia.
        cbn [seq map app]. f_equal; [f_equal; f_equal; cbn; lia|].
        rewrite <- seq_shift, map_map. apply map_ext. intros i.
        f_equal. f_equal. lia.
      * intros k Hk. destruct k as [|k].
        -- exists error. rewrite Nat.add_0_r. auto.
        -- destruct (Hearlier k) as [e' He']; [lia|].
           exists e'. rewrite <- (proj1 He'). split; [f_equal; lia|apply He'].
      * replace (calls a + (S n - 1))%nat with (S (calls a) + (n - 1))%nat by lia.
        destruct result as [value|thrown]; [exact Hlast|].
        destruct Hlast as [e' [He' [Hthrown Hwhy]]]. exists e'.
        split; [exact He'|]. split; [exact Hthrown|].
        destruct Hwhy; [now left|right; lia].
    + exists (inr (Info (handleError (asError error)))),
        (mkAttempts (S (calls a)) (slept a) (logged a)), 1%nat.
      cbn [seq map Nat.sub calls slept]. rewrite app_nil_r, Nat.add_0_r.
      (split; [reflexivity|]); (split; [lia|]); (split; [lia|]);
      (split; [reflexivity|]); (split; [intros k Hk; lia|]).
      exists error. auto.
Qed.


Lemma orElse_not_empty (x : option string) (fallback : string) :
  fallback <> "" -> orElse x fallback <> "".
Proof.
  intros Hfallback. destruct x as [[|c s]|]; cbn; auto. discriminate.
Qed.

(** X25.  The message [handleError] gives for display is never empty, whatever
    the error and its own message; no error is both recoverable and in need
    of a user action; a thrown value that is not an [Error] is neither. *)
Theorem handleError_always_has_a_message (error : ApiError) (thrown : string) :
  info_message (handleError error) <> ""
  /\ info_isRecoverable (handleError error) && info_requiresUserAction (handleError error)
     = false
  /\ info_isRecoverable (handleError (asError (NotAnError thrown))) = false
  /\ info_requiresUserAction (handleError (asError (NotAnError thrown))) = false.
Proof.
  split; [|split; [destruct error; reflexivity|split; reflexivity]].
  unfold handleError. cbn [info_message].
  destruct error as [m s|m|m [fe|]|m s|m]; cbn [getErrorMessage];
    repeat apply orElse_not_empty; discriminate.
Qed.

(** X26.  How a response is classified by its status, from the response
    interceptor to the error boundary: every status is recoverable (retried
    by [withRetry]) except 400, 401, 403 and 422, so 404 and 429 are; 401 and
    403 need a user action; the message is the one of the response when it
    has one, except for 429. *)
Theorem http_status_classification
    (error : AxiosError) (r : ErrorResponse)
    (Hresponse : response error = Some r)
    (Hcode : codeIs error "NETWORK_ERROR" = false) :
  let info := handleError (transformError error) in
  info_isRecoverable info = negb (existsb (Z.eqb (status r)) [400; 401; 403; 422])
  /\ info_requiresUserAction info = existsb (Z.eqb (status r)) [401; 403]
  /\ (status r <> 429 ->
      forall message, data_message r = Some message -> message <> "" ->
      status r <> 400 /\ status r <> 422 \/ data_fieldErrors r = None ->
      info_message info = message).
Proof.
  cbv zeta. unfold transformError. rewrite Hresponse, Hcode.
  cbn [existsb].
  destruct (Z.eqb_spec (status r) 400) as [H400|H400].
  { rewrite H400. cbn. repeat split.
    intros _ message Hm Hne [[Hc _]|Hfe]; [congruence|].
    rewrite Hm, Hfe. destruct message; [congruence|reflexivity]. }
  destruct (Z.eqb_spec (status r) 401) as [H401|H401].
  { rewrite H401. cbn. repeat split.
    intros _ message Hm Hne _. rewrite Hm. destruct message; [congruence|reflexivity]. }
  destruct (Z.eqb_spec (status r) 403) as [H403|H403].
  { rewrite H403. cbn. repeat split.
    intros _ message Hm Hne _. rewrite Hm. destruct message; [congruence|reflexivity]. }
  destruct (Z.eqb_spec (status r) 404) as [H404|H404].
  { rewrite H404. cbn. repeat split.
    intros _ message Hm Hne _. rewrite Hm. destruct message; [congruence|reflexivity]. }
  destruct (Z.eqb_spec (status r) 422) as [H422|H422].
  { rewrite H422. cbn. repeat split.
    intros _ message Hm Hne [[_ Hc]|Hfe]; [congruence|].
    rewrite Hm, Hfe. destruct message; [congruence|reflexivity]. }
  destruct (Z.eqb_spec (status r) 429) as [H429|H429].
  { rewrite H429. cbn. repeat split. intros Hc. congruence. }
  destruct ((status r =? 500)%Z || (status r =? 502)%Z || (status r =? 503)%Z);
    cbn; repeat split;
    intros _ message Hm Hne _; rewrite Hm; (destruct message; [congruence|reflexivity]).
Qed.

End ApiClient.

Section ApiClientExamples.
Import Api.
Local Open Scope string_scope.

Lemma retryRequest_retries_every_failure_witness :
  exists result t' n,
    retryRequest 4 MoreScenarios.alwaysBadRequest 0 MoreScenarios.noTraffic
    = Some (result, t')
    /\ (1 <= n <= 4)%nat
    /\ sent t' = n.
Proof.
  destruct (retryRequest_retries_every_failure
              MoreScenarios.alwaysBadRequest MoreScenarios.noTraffic 4 ltac:(lia))
    as [result [t' [n [Hrun [Hn [Hsent _]]]]]].
  exists result, t', n. split; [exact Hrun|]. split; [exact Hn|exact Hsent].
Defined.


Lemma http_status_classification_witness :
  info_isRecoverable
    (handleError (transformError (mkAxiosError None (Some MoreScenarios.notFound))))
  = true.
Proof.
  exact (proj1 (http_status_classification
                  (mkAxiosError None (Some MoreScenarios.notFound))
                  MoreScenarios.notFound eq_refl eq_refl)).
Defined.

End ApiClientExamples.
